(** * mnv-container-detector: the detector pipeline and its prediction cache

    A shallow embedding of [service_detector/detector]: the Python values the
    code handles, the [cachetools.TTLCache] it stores baselines in, the
    [TelegramPredictionCache], the two detectors and the [AnomalyDetector]
    aggregator, followed by the properties of the specification.

    Conventions of the embedding.
    - Python [int] is [Z]; Python [float] (and numpy's [float64]) is read as
      a real number [R]: the ratios and the scores of the detectors are
      computed without rounding, and infinities and NaN are outside the
      model, so that a score is the value of the logistic curve and not the
      double [np.exp] leads to (which can be exactly 0.0 or 1.0). The one
      division whose rounding decides what the program prints, the quotient
      of the description, is rounded to a double ([float_truediv]).
    - A naive [datetime] is the number of microseconds since
      0001-01-01T00:00:00, a [timedelta] a number of microseconds; the fields
      [minute], [second] and [microsecond] are recovered by division. The
      range of [datetime] is not bounded: the [OverflowError] of an addition
      or subtraction that leaves the years 1 to 9999 is outside the model.
    - The timer of a cache is read once per call of a method of the cache
      object: no entry expires between two steps of one call.
    - A raised exception is a value [Raise e]; code that mutates an object
      (the cache, the anomaly accumulator) passes the object explicitly. *)

From Stdlib Require Import ZArith List String Ascii Bool Reals Lra Lia.
From Stdlib Require Import Sorting.Sorted Sorting.Permutation DecimalString.
Import ListNotations.

Open Scope string_scope.
Open Scope Z_scope.
Open Scope list_scope.

(* ================================================================== *)
(** * Python values *)
(* ================================================================== *)

Module Py.

(** The exceptions the pipeline meets. [RedisError] stands for the
    exceptions of the [redis] library (a connection or timeout error, or the
    [DataError] of a field that cannot be encoded). *)
Inductive exn : Type :=
| KeyError | TypeError | ValueError | IndexError | ZeroDivisionError
| OverflowError | RedisError.

Inductive result (A : Type) : Type :=
| Ok (a : A)
| Raise (e : exn).
Arguments Ok {A} a.
Arguments Raise {A} e.

Definition rbind {A B : Type} (r : result A) (k : A -> result B) : result B :=
  match r with
  | Ok a => k a
  | Raise e => Raise e
  end.

(** The values an article, a database row or a Redis reply can hold. [PSeq] is
    a list of strings (the only list the pipeline reads is
    [metadata.destination]). *)
Inductive pyval : Type :=
| PNone
| PBool (b : bool)
| PInt (z : Z)
| PFloat (r : R)
| PStr (s : string)
| PBytes (s : string)
| PSeq (l : list string).

Definition Rltb (x y : R) : bool := if Rlt_dec x y then true else false.
Definition Reqb (x y : R) : bool := if Req_dec_T x y then true else false.

(** [bool(v)]. *)
Definition truthy (v : pyval) : bool :=
  match v with
  | PNone => false
  | PBool b => b
  | PInt z => negb (z =? 0)
  | PFloat r => negb (Reqb r 0)
  | PStr s => negb (s =? EmptyString)%string
  | PBytes s => negb (s =? EmptyString)%string
  | PSeq l => match l with [] => false | _ :: _ => true end
  end.

(** The numeric tower: [bool] is an [int], an [int] converts to [float]. *)
Definition as_number (v : pyval) : option R :=
  match v with
  | PBool b => Some (if b then 1 else 0)%R
  | PInt z => Some (IZR z)
  | PFloat r => Some r
  | _ => None
  end.

Definition number (v : pyval) : result R :=
  match as_number v with
  | Some x => Ok x
  | None => Raise TypeError
  end.

(** Division of floats: [x / y] raises on a zero divisor. *)
Definition div (x y : R) : result R :=
  if Reqb y 0 then Raise ZeroDivisionError else Ok (x / y)%R.

(** [a / b] (true division), whose result is a float. *)
Definition truediv (a b : pyval) : result R :=
  match as_number a, as_number b with
  | Some x, Some y => div x y
  | _, _ => Raise TypeError
  end.

Fixpoint seq_eqb (l1 l2 : list string) : bool :=
  match l1, l2 with
  | [], [] => true
  | s1 :: t1, s2 :: t2 => (s1 =? s2)%string && seq_eqb t1 t2
  | _, _ => false
  end.

Fixpoint seq_ltb (l1 l2 : list string) : bool :=
  match l1, l2 with
  | [], [] => false
  | [], _ :: _ => true
  | _ :: _, [] => false
  | s1 :: t1, s2 :: t2 =>
      if (s1 =? s2)%string then seq_ltb t1 t2 else String.ltb s1 s2
  end.

(** [a == b]. Numbers compare by value across [bool], [int] and [float];
    a [str] never equals a [bytes]. *)
Definition py_eqb (a b : pyval) : bool :=
  match a, b with
  | PNone, PNone => true
  | PStr s1, PStr s2 => (s1 =? s2)%string
  | PBytes s1, PBytes s2 => (s1 =? s2)%string
  | PSeq l1, PSeq l2 => seq_eqb l1 l2
  | PInt z1, PInt z2 => z1 =? z2
  | _, _ =>
      match as_number a, as_number b with
      | Some x, Some y => Reqb x y
      | _, _ => false
      end
  end.

(** [a < b]: defined between numbers and between two values of the same
    sequence type, a [TypeError] otherwise. *)
Definition py_lt (a b : pyval) : result bool :=
  match a, b with
  | PStr s1, PStr s2 => Ok (String.ltb s1 s2)
  | PBytes s1, PBytes s2 => Ok (String.ltb s1 s2)
  | PSeq l1, PSeq l2 => Ok (seq_ltb l1 l2)
  | PInt z1, PInt z2 => Ok (z1 <? z2)
  | _, _ =>
      match as_number a, as_number b with
      | Some x, Some y => Ok (Rltb x y)
      | _, _ => Raise TypeError
      end
  end.

(** [a > b]. *)
Definition py_gt (a b : pyval) : result bool := py_lt b a.

(** [v in t] for a tuple [t]. *)
Definition py_in (v : pyval) (t : list pyval) : bool :=
  existsb (fun x => py_eqb v x) t.

(** A [list] cannot be hashed, so it cannot be a dictionary or cache key. *)
Definition hashable (v : pyval) : bool :=
  match v with
  | PSeq _ => false
  | _ => true
  end.

(** ** Dictionaries with string keys, in insertion order *)

Definition dict : Type := list (string * pyval).

Fixpoint lookup (d : dict) (k : string) : option pyval :=
  match d with
  | [] => None
  | (k', v) :: d' => if (k' =? k)%string then Some v else lookup d' k
  end.

(** [d.get(k, default)]. *)
Definition get (d : dict) (k : string) (default : pyval) : pyval :=
  match lookup d k with
  | Some v => v
  | None => default
  end.

(** [d[k]]. *)
Definition getitem (d : dict) (k : string) : result pyval :=
  match lookup d k with
  | Some v => Ok v
  | None => Raise KeyError
  end.

(** [d[k] = v]: an existing key keeps its position. *)
Fixpoint setitem (d : dict) (k : string) (v : pyval) : dict :=
  match d with
  | [] => [(k, v)]
  | (k', v') :: d' =>
      if (k' =? k)%string then (k', v) :: d' else (k', v') :: setitem d' k v
  end.

(** The double-quote character, as a string. *)
Definition double_quote : string := String (ascii_of_nat 34) EmptyString.

(** [str(z)] for an [int]. *)
Definition int_str (z : Z) : string := NilZero.string_of_int (Z.to_int z).

(** ** [sorted]

    [sorted(l, key=...)] is stable: it only asks whether one key is smaller
    than another and never swaps two elements it finds unordered that way.
    [insert_sorted x l] puts [x], which precedes [l] in the input, in front of
    the first element that is not smaller than it. *)
Section Sorted.
Context {A : Type}.
Variable ltb : A -> A -> bool.

Fixpoint insert_sorted (x : A) (l : list A) : list A :=
  match l with
  | [] => [x]
  | y :: l' => if ltb y x then y :: insert_sorted x l' else x :: y :: l'
  end.

Definition sorted (l : list A) : list A := fold_right insert_sorted [] l.

(** [sorted(l, key=..., reverse=True)]: CPython reverses the list, sorts it
    and reverses the result, which is how it keeps the sort stable. *)
Definition sorted_reverse (l : list A) : list A := rev (sorted (rev l)).
End Sorted.

(** ** State and exceptions

    A method of an object with state [S] that returns an [A] or raises. The
    state survives a raised exception, as the mutations made before it do. *)
Definition M (S A : Type) : Type := S -> result A * S.

Definition ret {S A : Type} (a : A) : M S A := fun s => (Ok a, s).

Definition bind {S A B : Type} (c : M S A) (k : A -> M S B) : M S B :=
  fun s =>
    match c s with
    | (Ok a, s') => k a s'
    | (Raise e, s') => (Raise e, s')
    end.

Definition lift {S A : Type} (r : result A) : M S A := fun s => (r, s).

Definition gets {S A : Type} (f : S -> A) : M S A := fun s => (Ok (f s), s).

(** [for x in l: body(x)]. *)
Fixpoint for_each {S A : Type} (l : list A) (body : A -> M S unit) : M S unit :=
  match l with
  | [] => ret tt
  | x :: l' => bind (body x) (fun _ => for_each l' body)
  end.

(** [for x in l: acc = body(acc, x)], for a loop that updates a local. *)
Fixpoint for_fold {S A B : Type} (l : list A) (acc : B) (body : B -> A -> M S B) : M S B :=
  match l with
  | [] => ret acc
  | x :: l' => bind (body acc x) (fun acc' => for_fold l' acc' body)
  end.

End Py.
Export Py.

Declare Scope py_scope.
Delimit Scope py_scope with py.
Notation "x <- c ;; k" := (bind c (fun x => k))
  (at level 61, c at next level, right associativity) : py_scope.
Notation "c ;;; k" := (bind c (fun _ => k))
  (at level 61, right associativity) : py_scope.
Open Scope py_scope.

(* ================================================================== *)
(** * cachetools.TTLCache *)
(* ================================================================== *)

(** The cache class of the [cachetools] library, as the prediction cache uses
    it. A cache holds its live links in the order of their expiry (each new or
    overwritten item goes to the back) and, separately, its keys in the order
    of their last use, which is the order capacity eviction follows. Every
    operation takes the reading [time] of the cache's timer. *)
Module cachetools.
Section TTLCache.
Context {K V : Type}.
Variable eqb : K -> K -> bool.

Record Link : Type := { key : K; value : V; expires : Z }.

Record TTLCache : Type := {
  maxsize : Z;
  ttl : Z;
  links : list Link;
  order : list K
}.

Definition empty (maxsize ttl : Z) : TTLCache :=
  {| maxsize := maxsize; ttl := ttl; links := []; order := [] |}.

Definition currsize (c : TTLCache) : Z := Z.of_nat (List.length (links c)).

Definition find_link (c : TTLCache) (k : K) : option Link :=
  find (fun l => eqb (key l) k) (links c).

Definition has_key (ls : list Link) (k : K) : bool :=
  existsb (fun l => eqb (key l) k) ls.

Definition without (k : K) (ls : list Link) : list Link :=
  filter (fun l => negb (eqb (key l) k)) ls.

Definition move_to_end (k : K) (o : list K) : list K :=
  filter (fun k' => negb (eqb k' k)) o ++ [k].

(** [key in cache]. *)
Definition contains (c : TTLCache) (time : Z) (k : K) : bool :=
  match find_link c k with
  | Some l => time <? expires l
  | None => false
  end.

(** [cache[key]]: the key becomes the most recently used one, and an expired
    item is missing. *)
Definition getitem (c : TTLCache) (time : Z) (k : K) : result V * TTLCache :=
  match find_link c k with
  | Some l =>
      let c' := {| maxsize := maxsize c; ttl := ttl c; links := links c;
                   order := move_to_end (key l) (order c) |} in
      if time <? expires l then (Ok (value l), c') else (Raise KeyError, c')
  | None => (Raise KeyError, c)
  end.

(** [cache.get(key)]. *)
Definition get (c : TTLCache) (time : Z) (k : K) : result (option V) * TTLCache :=
  if contains c time k then
    match getitem c time k with
    | (Ok v, c') => (Ok (Some v), c')
    | (Raise e, c') => (Raise e, c')
    end
  else (Ok None, c).

(** [cache.expire(time)] removes the items that have expired. *)
Definition expire (c : TTLCache) (time : Z) : TTLCache :=
  let live := filter (fun l => time <? expires l) (links c) in
  {| maxsize := maxsize c; ttl := ttl c; links := live;
     order := filter (has_key live) (order c) |}.

Definition delitem (c : TTLCache) (k : K) : TTLCache :=
  {| maxsize := maxsize c; ttl := ttl c; links := without k (links c);
     order := filter (fun k' => negb (eqb k' k)) (order c) |}.

(** [cache.popitem()] discards the least recently used item. *)
Definition popitem (c : TTLCache) (time : Z) : result unit * TTLCache :=
  let c1 := expire c time in
  match order c1 with
  | [] => (Raise KeyError, c1)
  | k :: _ => (Ok tt, delitem c1 k)
  end.

(** [while currsize + 1 > maxsize: popitem()]. A round that succeeds removes
    an item, so a cache of [fuel] items has room after [fuel] rounds. *)
Fixpoint make_room (fuel : nat) (c : TTLCache) (time : Z) : result unit * TTLCache :=
  if maxsize c <? currsize c + 1 then
    match fuel with
    | O => popitem c time
    | S fuel' =>
        match popitem c time with
        | (Ok _, c') => make_room fuel' c' time
        | (Raise e, c') => (Raise e, c')
        end
    end
  else (Ok tt, c).

(** [cache[key] = value]. *)
Definition setitem (c : TTLCache) (time : Z) (k : K) (v : V) : result unit * TTLCache :=
  let c1 := expire c time in
  if maxsize c1 <? 1 then (Raise ValueError, c1)
  else
    let (r, c2) :=
      if has_key (links c1) k then (Ok tt, c1)
      else make_room (List.length (links c1)) c1 time in
    match r with
    | Raise e => (Raise e, c2)
    | Ok _ =>
        let k0 := match find_link c2 k with Some l => key l | None => k end in
        (Ok tt,
         {| maxsize := maxsize c2; ttl := ttl c2;
            links := without k (links c2)
                     ++ [ {| key := k0; value := v; expires := time + ttl c2 |} ];
            order := move_to_end k0 (order c2) |})
    end.

(** [for key in cache]: the live links, oldest first. *)
Definition iter (c : TTLCache) (time : Z) : list K :=
  map key (filter (fun l => time <? expires l) (links c)).
End TTLCache.
Arguments Link : clear implicits.
Arguments TTLCache : clear implicits.
End cachetools.

(* ================================================================== *)
(** * datetime *)
(* ================================================================== *)

(** Microseconds since 0001-01-01T00:00:00, and microseconds; neither is
    bounded. *)
Definition datetime : Type := Z.
Definition timedelta : Type := Z.

Definition minute (dt : datetime) : Z := (dt / 60000000) mod 60.
Definition second (dt : datetime) : Z := (dt / 1000000) mod 60.
Definition microsecond (dt : datetime) : Z := dt mod 1000000.

(** [dt.replace(minute=m, second=s)]: the other fields, the microseconds
    among them, stay; a field out of range is a [ValueError]. *)
Definition replace_minute_second (dt : datetime) (m s : Z) : result datetime :=
  if (0 <=? m) && (m <? 60) && (0 <=? s) && (s <? 60)
  then Ok (dt + (m - minute dt) * 60000000 + (s - second dt) * 1000000)
  else Raise ValueError.

(** [dt.replace(second=0, microsecond=0)]. *)
Definition replace_second0_microsecond0 (dt : datetime) : datetime :=
  dt - second dt * 1000000 - microsecond dt.

(** [a % b] on integers. *)
Definition py_mod (a b : Z) : result Z :=
  if b =? 0 then Raise ZeroDivisionError else Ok (a mod b).

(* ================================================================== *)
(** * utils/telegram_prediction_cache.py *)
(* ================================================================== *)

(** ** The metrics database

    The three tables the cache reads. A row is its key columns and, in
    [*_columns], the remaining columns of [row._asdict()]. *)

Record PredictionRow : Type := {
  p_date : datetime;
  p_chat_id : pyval;
  p_delta : pyval;
  p_columns : dict
}.

Record StatisticRow : Type := {
  s_date_from : datetime;
  s_date_to : datetime;
  s_chat_id : pyval;
  s_delta : pyval;
  s_metric : pyval;
  s_columns : dict
}.

Record CoefficientRow : Type := {
  c_id : pyval;
  c_columns : dict
}.

Record ConnectionDB : Type := {
  metrics_telegram_prediction : list PredictionRow;
  metrics_telegram_statistic : list StatisticRow;
  metrics_telegram_coefficient : list CoefficientRow
}.

(** A query issued on the connection; the object keeps the trace of them. *)
Inductive Query : Type :=
| QueryPredictions (from_date to_date : datetime)
| QueryStatistics (date : datetime)
| QueryCoefficients.

(** ** Cache keys *)

Definition prediction_key : Type := datetime * pyval * pyval.
Definition statistic_key : Type := datetime * datetime * pyval * pyval * pyval.

Definition prediction_key_eqb (a b : prediction_key) : bool :=
  let '(d1, c1, x1) := a in
  let '(d2, c2, x2) := b in
  (d1 =? d2) && py_eqb c1 c2 && py_eqb x1 x2.

Definition statistic_key_eqb (a b : statistic_key) : bool :=
  let '(f1, t1, c1, x1, m1) := a in
  let '(f2, t2, c2, x2, m2) := b in
  (f1 =? f2) && (t1 =? t2) && py_eqb c1 c2 && py_eqb x1 x2 && py_eqb m1 m2.

(** ** The cache object

    [_connection_db_metrics] is the content of the database the connection
    reaches, [queries] the trace of the queries issued so far and [timer] the
    reading of the caches' timer, which does not move during one call. *)
Record TelegramPredictionCache : Type := {
  _connection_db_metrics : ConnectionDB;
  queries : list Query;
  timer : Z;
  _prediction_step : Z;
  cache_big_update_window : timedelta;
  cache_small_update_window : timedelta;
  _predictions : cachetools.TTLCache prediction_key dict;
  _statistics : cachetools.TTLCache statistic_key dict;
  _coefficients : cachetools.TTLCache pyval dict
}.

Definition with_predictions (self : TelegramPredictionCache) c : TelegramPredictionCache :=
  {| _connection_db_metrics := _connection_db_metrics self;
     queries := queries self; timer := timer self;
     _prediction_step := _prediction_step self;
     cache_big_update_window := cache_big_update_window self;
     cache_small_update_window := cache_small_update_window self;
     _predictions := c;
     _statistics := _statistics self;
     _coefficients := _coefficients self |}.

Definition with_statistics (self : TelegramPredictionCache) c : TelegramPredictionCache :=
  {| _connection_db_metrics := _connection_db_metrics self;
     queries := queries self; timer := timer self;
     _prediction_step := _prediction_step self;
     cache_big_update_window := cache_big_update_window self;
     cache_small_update_window := cache_small_update_window self;
     _predictions := _predictions self;
     _statistics := c;
     _coefficients := _coefficients self |}.

Definition with_coefficients (self : TelegramPredictionCache) c : TelegramPredictionCache :=
  {| _connection_db_metrics := _connection_db_metrics self;
     queries := queries self; timer := timer self;
     _prediction_step := _prediction_step self;
     cache_big_update_window := cache_big_update_window self;
     cache_small_update_window := cache_small_update_window self;
     _predictions := _predictions self;
     _statistics := _statistics self;
     _coefficients := c |}.

Definition with_query (self : TelegramPredictionCache) (q : Query) : TelegramPredictionCache :=
  {| _connection_db_metrics := _connection_db_metrics self;
     queries := queries self ++ [q]; timer := timer self;
     _prediction_step := _prediction_step self;
     cache_big_update_window := cache_big_update_window self;
     cache_small_update_window := cache_small_update_window self;
     _predictions := _predictions self;
     _statistics := _statistics self;
     _coefficients := _coefficients self |}.

Definition Cache (A : Type) : Type := M TelegramPredictionCache A.

(** [self._connection_db_metrics.session.query(table).filter(...).all()]. *)
Definition query_predictions (from_date to_date : datetime) : Cache (list PredictionRow) :=
  fun self =>
    (Ok (filter (fun row => (from_date <=? p_date row) && (p_date row <=? to_date))
                (metrics_telegram_prediction (_connection_db_metrics self))),
     with_query self (QueryPredictions from_date to_date)).

Definition query_statistics (date : datetime) : Cache (list StatisticRow) :=
  fun self =>
    (Ok (filter (fun row => (s_date_from row <=? date) && (date <=? s_date_to row))
                (metrics_telegram_statistic (_connection_db_metrics self))),
     with_query self (QueryStatistics date)).

Definition query_coefficients : Cache (list CoefficientRow) :=
  fun self =>
    (Ok (metrics_telegram_coefficient (_connection_db_metrics self)),
     with_query self QueryCoefficients).

(** [self._predictions.get(key)] and [self._predictions[key] = value]. *)
Definition predictions_get (k : prediction_key) : Cache (option dict) :=
  fun self =>
    let '(_, chat_id, delta) := k in
    if hashable chat_id && hashable delta then
      let (r, c) := cachetools.get prediction_key_eqb (_predictions self) (timer self) k in
      (r, with_predictions self c)
    else (Raise TypeError, self).

Definition predictions_set (k : prediction_key) (v : dict) : Cache unit :=
  fun self =>
    let (r, c) := cachetools.setitem prediction_key_eqb (_predictions self) (timer self) k v in
    (r, with_predictions self c).

Definition statistics_iter : Cache (list statistic_key) :=
  fun self => (Ok (cachetools.iter (_statistics self) (timer self)), self).

Definition statistics_getitem (k : statistic_key) : Cache dict :=
  fun self =>
    let (r, c) := cachetools.getitem statistic_key_eqb (_statistics self) (timer self) k in
    (r, with_statistics self c).

Definition statistics_set (k : statistic_key) (v : dict) : Cache unit :=
  fun self =>
    let (r, c) := cachetools.setitem statistic_key_eqb (_statistics self) (timer self) k v in
    (r, with_statistics self c).

Definition coefficients_get (k : pyval) : Cache (option dict) :=
  fun self =>
    if hashable k then
      let (r, c) := cachetools.get py_eqb (_coefficients self) (timer self) k in
      (r, with_coefficients self c)
    else (Raise TypeError, self).

Definition coefficients_set (k : pyval) (v : dict) : Cache unit :=
  fun self =>
    let (r, c) := cachetools.setitem py_eqb (_coefficients self) (timer self) k v in
    (r, with_coefficients self c).

(** ** The methods *)

Definition _get_nearest_date (dt : datetime) : Cache datetime :=
  fun self =>
    let minutes := minute dt in
    (rbind (py_mod minutes (_prediction_step self)) (fun subtract_minutes =>
     replace_minute_second dt (minutes - subtract_minutes) 0),
     self).

Definition _get_predictions_from_db (from_date to_date : datetime) : Cache unit :=
  rows <- query_predictions from_date to_date ;;
  for_each rows (fun row =>
    predictions_set (replace_second0_microsecond0 (p_date row), p_chat_id row, p_delta row)
                    (p_columns row)).

Definition _get_statistics_from_db (date : datetime) : Cache unit :=
  rows <- query_statistics date ;;
  for_each rows (fun row =>
    statistics_set (s_date_from row, s_date_to row, s_chat_id row, s_delta row, s_metric row)
                   (s_columns row)).

Definition _get_coefficients_from_db : Cache unit :=
  rows <- query_coefficients ;;
  for_each rows (fun row => coefficients_set (c_id row) (c_columns row)).

Definition get_prediction (date : datetime) (chat_id delta : pyval) : Cache (option dict) :=
  date <- _get_nearest_date date ;;
  prediction <- predictions_get (date, chat_id, delta) ;;
  match prediction with
  | Some _ => ret prediction
  | None =>
      window <- gets cache_big_update_window ;;
      _get_predictions_from_db (date - window) (date + window) ;;;
      predictions_get (date, chat_id, delta)
  end.

(** The test of the scan in [get_statistics]:
    [row[0] < date < row[1] and row[2] == chat_id and row[3] == delta and
    row[4] == metric]. *)
Definition row_matches (date : datetime) (chat_id delta metric : pyval)
    (row : statistic_key) : bool :=
  let '(row0, row1, row2, row3, row4) := row in
  (row0 <? date) && (date <? row1)
  && py_eqb row2 chat_id && py_eqb row3 delta && py_eqb row4 metric.

(** [rows_for_date[k] = v], a dictionary keyed by the end of the window. *)
Fixpoint rows_set (rows : list (datetime * dict)) (k : datetime) (v : dict)
    : list (datetime * dict) :=
  match rows with
  | [] => [(k, v)]
  | (k', v') :: rows' =>
      if k' =? k then (k', v) :: rows' else (k', v') :: rows_set rows' k v
  end.

Definition get_latest_statistics (date : datetime) (chat_id delta metric : pyval)
    : Cache (option dict) :=
  keys <- statistics_iter ;;
  rows_for_date <-
    for_fold keys [] (fun rows_for_date row =>
      if row_matches date chat_id delta metric row then
        v <- statistics_getitem row ;;
        ret (rows_set rows_for_date (snd (fst (fst (fst row)))) v)
      else ret rows_for_date) ;;
  if 0 <? Z.of_nat (List.length rows_for_date) then
    ret (Some (snd (last (sorted (fun x y => fst x <? fst y) rows_for_date) (0, []))))
  else ret None.

Definition get_statistics (date : datetime) (chat_id delta metric : pyval)
    : Cache (option dict) :=
  statistic <- get_latest_statistics date chat_id delta metric ;;
  match statistic with
  | Some _ => ret statistic
  | None =>
      _get_statistics_from_db date ;;;
      get_latest_statistics date chat_id delta metric
  end.

Definition get_coefficients (chat_id : pyval) : Cache (option dict) :=
  coefficients <- coefficients_get chat_id ;;
  match coefficients with
  | Some _ => ret coefficients
  | None =>
      _get_coefficients_from_db ;;;
      coefficients_get chat_id
  end.

(** The constructor: [now] is the reading of [datetime.now()], [timer] that of
    the caches' timer; the retention windows become the caches' [ttl]. *)
Definition __init__ (connection_db_metrics : ConnectionDB) (prediction_step : Z)
    (cache_big_size : Z) (cache_big_update_window cache_big_retention_window : timedelta)
    (cache_small_size : Z) (cache_small_update_window cache_small_retention_window : timedelta)
    (now : datetime) (timer : Z) : result unit * TelegramPredictionCache :=
  let self :=
    {| _connection_db_metrics := connection_db_metrics;
       queries := [];
       timer := timer;
       _prediction_step := prediction_step;
       cache_big_update_window := cache_big_update_window;
       cache_small_update_window := cache_small_update_window;
       _predictions := cachetools.empty cache_big_size cache_big_retention_window;
       _statistics := cachetools.empty cache_small_size cache_small_retention_window;
       _coefficients := cachetools.empty cache_small_size cache_small_retention_window |} in
  (_get_predictions_from_db (now - cache_big_update_window) (now + cache_big_update_window) ;;;
   _get_statistics_from_db now ;;;
   _get_coefficients_from_db) self.

(** [timedelta(hours=1)] and the constructor with its default arguments. *)
Definition one_hour : timedelta := 3600000000.

Definition new_cache (connection_db_metrics : ConnectionDB) (now : datetime) (timer : Z)
    : result unit * TelegramPredictionCache :=
  __init__ connection_db_metrics 5 500000 one_hour one_hour 10000 one_hour one_hour now timer.

(** What happens to a cache object between two calls: [elapsed] time passes
    and the database changes under it. *)
Definition environment_step (db : ConnectionDB) (elapsed : Z)
    (self : TelegramPredictionCache) : TelegramPredictionCache :=
  {| _connection_db_metrics := db;
     queries := queries self; timer := timer self + elapsed;
     _prediction_step := _prediction_step self;
     cache_big_update_window := cache_big_update_window self;
     cache_small_update_window := cache_small_update_window self;
     _predictions := _predictions self;
     _statistics := _statistics self;
     _coefficients := _coefficients self |}.

(** The states a cache object goes through: built by its constructor, when
    that returns, then used through its three public methods while the
    environment moves. *)
Inductive reachable : TelegramPredictionCache -> Prop :=
| reach_init : forall db step bs bu br ss su sr now timer self,
    __init__ db step bs bu br ss su sr now timer = (Ok tt, self) ->
    reachable self
| reach_environment : forall db elapsed self,
    0 <= elapsed ->
    reachable self -> reachable (environment_step db elapsed self)
| reach_get_prediction : forall date chat_id delta self r self',
    reachable self ->
    get_prediction date chat_id delta self = (r, self') ->
    reachable self'
| reach_get_statistics : forall date chat_id delta metric self r self',
    reachable self ->
    get_statistics date chat_id delta metric self = (r, self') ->
    reachable self'
| reach_get_coefficients : forall chat_id self r self',
    reachable self ->
    get_coefficients chat_id self = (r, self') ->
    reachable self'.

(* ================================================================== *)
(** * utils/telegram_source_cache.py *)
(* ================================================================== *)

Module telegram_source_cache.

(** A row of the table [telegram_source]: its [id] and, in [src_columns], the
    other columns of [row._asdict()]. *)
Record SourceRow : Type := { src_id : pyval; src_columns : dict }.

(** [_connection_db_metrics] is the content of the table, [queries] the
    number of queries issued so far and [timer] the reading of the cache's
    timer, which does not move during one call. *)
Record TelegramSourceCache : Type := {
  _connection_db_metrics : list SourceRow;
  queries : nat;
  timer : Z;
  _sources : cachetools.TTLCache pyval dict
}.

Definition with_sources (self : TelegramSourceCache) c : TelegramSourceCache :=
  {| _connection_db_metrics := _connection_db_metrics self;
     queries := queries self; timer := timer self;
     _sources := c |}.

(** [self._connection_db_metrics.session.query(table).all()]. *)
Definition query_sources : M TelegramSourceCache (list SourceRow) :=
  fun self =>
    (Ok (_connection_db_metrics self),
     {| _connection_db_metrics := _connection_db_metrics self;
        queries := S (queries self); timer := timer self;
        _sources := _sources self |}).

(** [self._sources.get(key)] and [self._sources[key] = value]. *)
Definition sources_get (k : pyval) : M TelegramSourceCache (option dict) :=
  fun self =>
    if hashable k then
      let (r, c) := cachetools.get py_eqb (_sources self) (timer self) k in
      (r, with_sources self c)
    else (Raise TypeError, self).

Definition sources_set (k : pyval) (v : dict) : M TelegramSourceCache unit :=
  fun self =>
    let (r, c) := cachetools.setitem py_eqb (_sources self) (timer self) k v in
    (r, with_sources self c).

Definition _get_sources_from_db : M TelegramSourceCache unit :=
  rows <- query_sources ;;
  for_each rows (fun row => sources_set (src_id row) (src_columns row)).

Definition get_source (chat_id : pyval) : M TelegramSourceCache (option dict) :=
  source <- sources_get chat_id ;;
  match source with
  | Some _ => ret source
  | None =>
      _get_sources_from_db ;;;
      sources_get chat_id
  end.

(** The constructor; the retention window becomes the cache's [ttl]. *)
Definition __init__ (connection_db_metrics : list SourceRow) (cache_size : Z)
    (cache_retention_window : timedelta) (clock : Z)
    : result unit * TelegramSourceCache :=
  _get_sources_from_db
    {| _connection_db_metrics := connection_db_metrics;
       queries := O;
       timer := clock;
       _sources := cachetools.empty cache_size cache_retention_window |}.

(** Between two calls the table changes and [elapsed] time passes. *)
Definition environment_step (table : list SourceRow) (elapsed : Z)
    (self : TelegramSourceCache) : TelegramSourceCache :=
  {| _connection_db_metrics := table;
     queries := queries self; timer := timer self + elapsed;
     _sources := _sources self |}.

(** A row as a cache item. *)
Definition source_item (row : SourceRow) : pyval * dict :=
  (src_id row, src_columns row).

End telegram_source_cache.

(* ================================================================== *)
(** * Builtins of the platform *)
(* ================================================================== *)

(** Two library functions the pipeline calls are left open:
    [strptime s] is [datetime.strptime(s, '%Y-%m-%dT%H:%M:%S')], a
    [ValueError] on a string of another shape, and [py_repr v] is the text
    Python prints for a float, a bytes object or a list. *)
Class Builtins : Type := {
  strptime : string -> result datetime;
  py_repr : pyval -> string
}.

(** [datetime.strptime(v, fmt)] on any value. *)
Definition py_strptime `{Builtins} (v : pyval) : result datetime :=
  match v with
  | PStr s => strptime s
  | _ => Raise TypeError
  end.

(** [str(v)], which is also what an f-string field without a format gives. *)
Definition py_str `{Builtins} (v : pyval) : string :=
  match v with
  | PNone => "None"
  | PBool true => "True"
  | PBool false => "False"
  | PInt z => int_str z
  | PStr s => s
  | _ => py_repr v
  end.

(** ** Fixed-point formatting, [f"{x:.1f}"] and [f"{x:.2f}"]

    The value is rounded to [digits] decimals, a tie going to the even
    neighbour, and printed with exactly that many decimals. *)
Definition round_half_even (x : R) : Z :=
  let n := Int_part x in
  let rest := (x - IZR n)%R in
  if Rlt_dec rest (1 / 2) then n
  else if Rlt_dec (1 / 2) rest then n + 1
  else if Z.even n then n else n + 1.

Fixpoint zero_pad (width : nat) (s : string) : string :=
  match width with
  | O => s
  | S w => if (Nat.ltb (String.length s) width) then zero_pad w ("0" ++ s) else s
  end.

Definition format_fixed (digits : nat) (x : R) : string :=
  let scale := 10 ^ Z.of_nat digits in
  let n := round_half_even (Rabs x * IZR scale) in
  ((if Rlt_dec x 0 then "-" else EmptyString)
   ++ int_str (n / scale) ++ "." ++ zero_pad digits (int_str (n mod scale)))%string.

(** ** The float a division gives

    The description prints a quotient with one decimal, and which decimal
    that is depends on the rounding of the division: [35 / 100] is the double
    just below 0.35 and prints as [0.3]. So the division of the description
    is the one of the interpreter: the operands are the numbers the values
    hold, the quotient is rounded to the nearest double, a tie going to the
    even mantissa, and a quotient beyond the largest double is an infinity
    (between floats) or an [OverflowError] (between integers). *)

(** [pow2 c] is 2 to the power [c]. *)
Definition pow2 (c : Z) : R :=
  if 0 <=? c then IZR (2 ^ c) else (/ IZR (2 ^ (- c)))%R.

(** The exponent [e] with [2^(e-1) <= |x| < 2^e]. *)
Definition magnitude (x : R) : Z := Int_part (ln (Rabs x) / ln 2) + 1.

(** The binary64 number nearest to [x], when the exponent is not bounded
    above: 53 bits of mantissa, and multiples of [2^-1074] near zero. *)
Definition binary64 (x : R) : R :=
  let c := Z.max (magnitude x - 53) (-1074) in
  (IZR (round_half_even (x / pow2 c)) * pow2 c)%R.

(** [x] rounds to a number beyond the largest double. *)
Definition overflows (x : R) : bool :=
  negb (Rltb (Rabs (binary64 x)) (pow2 1024)).

(** A float with its sign: a number (zero can be negative) or an infinity.
    No division of two numbers gives a NaN. *)
Inductive float64 : Type :=
| Finite (negative : bool) (magnitude : R)
| Infinity (negative : bool).

(** An [int], or a [bool], which is one. *)
Definition as_int (v : pyval) : option Z :=
  match v with
  | PBool b => Some (if b then 1 else 0)
  | PInt z => Some z
  | _ => None
  end.

(** The operand of a float operation: an [int] is converted first. *)
Definition float_operand (v : pyval) : result R :=
  match v with
  | PFloat r => Ok r
  | PBool _ | PInt _ =>
      match as_number v with
      | Some x => if overflows x then Raise OverflowError else Ok (binary64 x)
      | None => Raise TypeError
      end
  | _ => Raise TypeError
  end.

(** [a / b] as a float. Between two integers the exact quotient is rounded
    once; otherwise an integer operand is rounded to a float before the
    division. The sign is that of the operands, also when the result is
    zero. *)
Definition float_truediv (a b : pyval) : result float64 :=
  match as_int a, as_int b with
  | Some x, Some y =>
      if y =? 0 then Raise ZeroDivisionError
      else
        let q := Rabs (IZR x / IZR y) in
        if overflows q then Raise OverflowError
        else Ok (Finite (xorb (x <? 0) (y <? 0)) (binary64 q))
  | _, _ =>
      match as_number a, as_number b with
      | Some _, Some _ =>
          rbind (float_operand a) (fun x =>
          rbind (float_operand b) (fun y =>
          if Reqb y 0 then Raise ZeroDivisionError
          else
            let q := Rabs (x / y) in
            let negative := xorb (Rltb x 0) (Rltb y 0) in
            if overflows q then Ok (Infinity negative)
            else Ok (Finite negative (binary64 q))))
      | _, _ => Raise TypeError
      end
  end.

(** [f"{x:.1f}"] for a float [x]: the sign, then the digits of the exact
    value of the double. *)
Definition format_float (digits : nat) (x : float64) : string :=
  match x with
  | Finite negative magnitude =>
      ((if negative then "-" else EmptyString) ++ format_fixed digits magnitude)%string
  | Infinity negative => if negative then "-inf" else "inf"
  end.

(* ================================================================== *)
(** * types/anomaly.py, types/alert.py *)
(* ================================================================== *)

Module anomaly.

Record Anomaly : Type := {
  metric_name : string;
  metric_value : pyval;
  expected_value : pyval;
  score : R;
  _weight : Z
}.

(** [{k: str(v) for k, v in asdict(self).items()}]. *)
Definition to_dict `{Builtins} (self : Anomaly) : list (string * string) :=
  [ ("metric_name", metric_name self);
    ("metric_value", py_str (metric_value self));
    ("expected_value", py_str (expected_value self));
    ("score", py_str (PFloat (score self)));
    ("_weight", int_str (_weight self)) ]%string.

End anomaly.
Export anomaly.

Module alert.

Record Alert : Type := {
  id : string;
  date : datetime;
  score : R;
  domain : string;
  source : pyval;
  description : string;
  url : option string;
  field_name : string;
  anomaly_value : pyval;
  expected_value : pyval;
  _article_id : pyval;
  _all_anomalies : list (list (string * string))
}.

End alert.

(* ================================================================== *)
(** * detectors/_detector.py *)
(* ================================================================== *)

(** The interface of a detector: [run(article, anomalies)] extends the shared
    accumulator. The state a detector can touch is the prediction cache. *)
Class Detector (D : Type) : Type :=
  run : D -> dict -> list Anomaly -> Cache (list Anomaly).

(** An element of the aggregator's list of detectors. *)
Inductive any_detector : Type :=
| a_detector {D : Type} `{Detector D} (d : D).

Definition run_any (d : any_detector) : dict -> list Anomaly -> Cache (list Anomaly) :=
  match d with
  | a_detector d' => run d'
  end.

(* ================================================================== *)
(** * detectors/telegram_metrics.py *)
(* ================================================================== *)

Module telegram_metrics.
Section Methods.
Context `{Builtins}.

(** The one attribute of the object, [_telegram_prediction_cache], is the
    state the methods run in. *)
Inductive TelegramMetricAnomalyDetector : Type :=
| Build_TelegramMetricAnomalyDetector.

Definition __must_have_fields : list string :=
  ["chat_id"; "delta"; "loading_date"; "views"; "forwards"; "reaction_count"]%string.

Definition anomaly_weights (k : string) : Z :=
  if (k =? "predicted_metrics")%string then 200 else 100.

Definition _check_article_fields (article : dict) : bool :=
  forallb (fun key => truthy (get article key PNone)) __must_have_fields.

Definition _check_article_minimal_threshold (article : dict) : Cache bool :=
  chat_id <- lift (getitem article "chat_id") ;;
  coefficients <- get_coefficients chat_id ;;
  match coefficients with
  | None => ret false
  | Some coefficients =>
      views <- lift (getitem article "views") ;;
      too_low <- lift (py_lt views (get coefficients "minimal_views_threshold" (PInt 0))) ;;
      if too_low then ret false else ret true
  end.

(** The two scores, as real numbers. *)
Definition _score_static_metrics (metric_value expected_value : R) : result R :=
  rbind (div metric_value expected_value) (fun deviation =>
  Ok (1 / (1 + exp ((- deviation + expected_value) * 10)))%R).

Definition _score_predicted_metrics (metric_value expected_value : pyval)
    (statistics : option dict) : result R :=
  let x_offset := 2%R in
  let x_stretch := (3 / 2)%R in
  rbind (truediv metric_value expected_value) (fun deviation =>
  rbind
    match statistics with
    | Some ((_ :: _) as statistics) =>
        rbind (getitem statistics "mean") (fun mean =>
        rbind (number mean) (fun mean =>
        rbind (getitem statistics "std") (fun std =>
        rbind (number std) (fun std =>
        div (deviation - mean) std))))
    | _ => Ok deviation
    end (fun z_score =>
  Ok (1 / (1 + exp (- z_score / x_stretch + x_offset)))%R)).

(** One of the two ratio tests of [_check_static_metrics]. *)
Definition check_ratio (name : string) (ratio : R) (coefficients : dict)
    (anomalies : list Anomaly) : result (list Anomaly) :=
  rbind (getitem coefficients name) (fun expected =>
  rbind (py_gt (PFloat ratio) expected) (fun exceeds =>
  if exceeds then
    rbind (number expected) (fun expected_number =>
    rbind (_score_static_metrics ratio expected_number) (fun score =>
    Ok (anomalies ++
        [ {| metric_name := name;
             metric_value := PFloat ratio;
             expected_value := expected;
             score := score;
             _weight := anomaly_weights "static_metrics" |} ])))
  else Ok anomalies)).

Definition _check_static_metrics (article : dict) (anomalies : list Anomaly)
    : Cache (list Anomaly) :=
  chat_id <- lift (getitem article "chat_id") ;;
  coefficients <- get_coefficients chat_id ;;
  match coefficients with
  | None => ret anomalies
  | Some coefficients =>
      forwards <- lift (getitem article "forwards") ;;
      views <- lift (getitem article "views") ;;
      forwards_by_views <- lift (truediv forwards views) ;;
      reaction_count <- lift (getitem article "reaction_count") ;;
      views <- lift (getitem article "views") ;;
      reaction_count_by_views <- lift (truediv reaction_count views) ;;
      anomalies <- lift (check_ratio "forwards_by_views" forwards_by_views
                                     coefficients anomalies) ;;
      lift (check_ratio "reaction_count_by_views" reaction_count_by_views
                        coefficients anomalies)
  end.

Definition _check_predicted_metrics (article : dict) (anomalies : list Anomaly)
    : Cache (list Anomaly) :=
  loading_date <- lift (getitem article "loading_date") ;;
  date <- lift (py_strptime loading_date) ;;
  chat_id <- lift (getitem article "chat_id") ;;
  delta <- lift (getitem article "delta") ;;
  prediction <- get_prediction date chat_id delta ;;
  loading_date <- lift (getitem article "loading_date") ;;
  date <- lift (py_strptime loading_date) ;;
  chat_id <- lift (getitem article "chat_id") ;;
  delta <- lift (getitem article "delta") ;;
  statistics <- get_statistics date chat_id delta (PStr "views") ;;
  match prediction with
  | None => ret anomalies
  | Some prediction =>
      views <- lift (getitem article "views") ;;
      views_upper <- lift (getitem prediction "views_upper") ;;
      exceeds <- lift (py_gt views views_upper) ;;
      if exceeds then
        expected <- lift (getitem prediction "views") ;;
        score <- lift (_score_predicted_metrics views expected statistics) ;;
        ret (anomalies ++
             [ {| metric_name := "views";
                  metric_value := views;
                  expected_value := expected;
                  score := score;
                  _weight := anomaly_weights "predicted_metrics" |} ])
      else ret anomalies
  end.

Definition run (self : TelegramMetricAnomalyDetector) (article : dict)
    (anomalies : list Anomaly) : Cache (list Anomaly) :=
  if negb (_check_article_fields article) then ret anomalies
  else
    enough <- _check_article_minimal_threshold article ;;
    if negb enough then ret anomalies
    else
      anomalies <- _check_static_metrics article anomalies ;;
      _check_predicted_metrics article anomalies.

End Methods.

#[global] Instance detector `{Builtins} : Detector TelegramMetricAnomalyDetector := run.
End telegram_metrics.

(* ================================================================== *)
(** * detectors/telegram_repost.py *)
(* ================================================================== *)

Module telegram_repost.

(** The Redis client: [hget name field] is what the call
    [hget(name, field)] does, which is to return the reply to
    [HGET name field], [PNone] when the hash has no such field, or to raise. *)
Record Redis : Type := { hget : string -> pyval -> result pyval }.

Record TelegramRepostAnomalyDetector : Type := { _redis_connection : Redis }.

Definition __must_have_fields : list string := ["country"; "forward_from_chat_id"]%string.

Definition __none_country : list pyval := [PStr "xx"; PNone].

Definition _check_article_fields (article : dict) : bool :=
  forallb (fun key => truthy (get article key PNone)) __must_have_fields.

(** [a != b]. *)
Definition py_ne (a b : pyval) : bool := negb (py_eqb a b).

Definition _check_original_chat_country (self : TelegramRepostAnomalyDetector)
    (article : dict) : result bool :=
  rbind (getitem article "country") (fun original_country =>
  rbind (getitem article "forward_from_chat_id") (fun forward_from_chat_id =>
  rbind (hget (_redis_connection self) "tg_countries" forward_from_chat_id)
    (fun forward_country =>
  if py_in original_country __none_country || py_in forward_country __none_country
  then Ok false
  else Ok (negb (py_ne original_country forward_country))))).

Definition run (self : TelegramRepostAnomalyDetector) (article : dict)
    (anomalies : list Anomaly) : result (list Anomaly) :=
  if negb (_check_article_fields article) then Ok anomalies
  else
    rbind (_check_original_chat_country self article) (fun different =>
    if different then
      Ok (anomalies ++
          [ {| metric_name := "forward";
               metric_value := PInt 1;
               expected_value := PInt 0;
               score := 1;
               _weight := 100 |} ])
    else Ok anomalies).

#[global] Instance detector : Detector TelegramRepostAnomalyDetector :=
  fun self article anomalies => lift (run self article anomalies).

End telegram_repost.

(* ================================================================== *)
(** * detector.py *)
(* ================================================================== *)

Module detector.

(** The link generator is a collaborator: [generate destination mapping date]
    answers with the list of Kibana links, or fails. *)
Record KibanaLinkGenerator : Type := {
  generate : pyval -> dict -> datetime -> result (list string)
}.

Record AnomalyDetector : Type := {
  _detectors : list any_detector;
  _kibana_link_generator : KibanaLinkGenerator
}.

(** The message: [message['metadata']] and [message['payload']]. *)
Record message : Type := { metadata : dict; payload : dict }.

Definition _anomaly_colors_by_score (k : string) : R :=
  if (k =? "red")%string then (75 / 100)%R
  else if (k =? "yellow")%string then (25 / 100)%R
  else 0%R.

Definition _domain : list (string * string) :=
  [ ("TelegramEngagementExecutor", "Telegram");
    ("TelegramListener", "Telegram");
    ("opoint", "Web") ]%string.

Fixpoint table_get (t : list (string * string)) (k default : string) : string :=
  match t with
  | [] => default
  | (k', v) :: t' => if (k' =? k)%string then v else table_get t' k default
  end.

(** [self._domain.get(method, 'Unknown')]. *)
Definition domain_of (method : pyval) : result string :=
  match method with
  | PStr s => Ok (table_get _domain s "Unknown")
  | PSeq _ => Raise TypeError
  | _ => Ok "Unknown"%string
  end.

(** [destination[0]] after a string has been wrapped in a list. *)
Definition first_destination (destination : pyval) : result pyval :=
  match destination with
  | PStr s => Ok (PStr s)
  | PSeq (s :: _) => Ok (PStr s)
  | PSeq [] => Raise IndexError
  | PBytes (String c _) => Ok (PInt (Z.of_N (N_of_ascii c)))
  | PBytes EmptyString => Raise IndexError
  | _ => Raise TypeError
  end.

Section Methods.
Context `{Builtins}.

Definition _run_detectors (self : AnomalyDetector) (message : message)
    : Cache (list Anomaly) :=
  let article := payload message in
  for_fold (_detectors self) [] (fun anomalies detector =>
    run_any detector article anomalies).

(** [sum([anomaly.score for anomaly in anomalies])]: from 0, left to right. *)
Definition _calculate_total_anomaly_score (anomalies : list Anomaly) : R :=
  fold_left Rplus (map anomaly.score anomalies) 0%R.

(** The body of the loop of [_generate_description]. *)
Definition describe (description_points : list string) (anomaly : Anomaly)
    : result (list string) :=
  match metric_value anomaly with
  | PFloat _ | PInt _ =>
      if py_eqb (anomaly.expected_value anomaly) (PInt 0) then
        rbind (number (anomaly.expected_value anomaly)) (fun expected =>
        Ok (description_points ++
            [ (metric_name anomaly ++ " (" ++ format_fixed 2 expected
               ++ "x expected)")%string ]))
      else
        rbind (float_truediv (metric_value anomaly) (anomaly.expected_value anomaly))
          (fun difference =>
        Ok (description_points ++
            [ (metric_name anomaly ++ " (" ++ format_float 1 difference
               ++ "x higher)")%string ]))
  | PStr value =>
      Ok (description_points ++ [ (metric_name anomaly ++ " is " ++ value)%string ])
  | _ => Ok description_points
  end.

Fixpoint describe_all (description_points : list string) (anomalies : list Anomaly)
    : result (list string) :=
  match anomalies with
  | [] => Ok description_points
  | anomaly :: anomalies' =>
      rbind (describe description_points anomaly) (fun description_points =>
      describe_all description_points anomalies')
  end.

Definition _generate_description (anomalies : list Anomaly) (message : message)
    (total_score : R) : result string :=
  rbind
    (if truthy (get (payload message) "delta" PNone) then
       rbind (getitem (payload message) "delta") (fun delta =>
       Ok (Some (py_str delta ++ " seconds after publication")%string))
     else Ok None) (fun additional_info =>
  let prefix :=
    if Rltb (_anomaly_colors_by_score "red") total_score then "Critical anomaly"
    else if Rltb (_anomaly_colors_by_score "yellow") total_score then "Major anomaly"
    else if Rltb (_anomaly_colors_by_score "green") total_score then "Minor anomaly"
    else "Warning anomaly" in
  rbind (describe_all [] anomalies) (fun description_points =>
  rbind
    match description_points with
    | [point] => Ok point
    | [] => Raise IndexError
    | _ =>
        Ok (String.concat ", " (removelast description_points)
            ++ " and " ++ last description_points EmptyString)%string
    end (fun anomalies =>
  rbind (getitem (payload message) "source") (fun source =>
  let complete_text :=
    (prefix ++ " in " ++ anomalies ++ " found for " ++ py_str source)%string in
  match additional_info with
  | Some additional_info => Ok (complete_text ++ " " ++ additional_info)%string
  | None => Ok complete_text
  end)))).

(** [message['payload'].get('loading_date', message['payload']['date'])]: the
    default is evaluated first, so [date] has to be there. *)
Definition effective_date (message : message) : result datetime :=
  rbind (getitem (payload message) "date") (fun date =>
  py_strptime (get (payload message) "loading_date" date)).

(** [uuid] is the text of the identifier [uuid4()] draws. *)
Definition _create_alert (self : AnomalyDetector) (message : message)
    (anomalies : list Anomaly) (uuid : string) : result alert.Alert :=
  let anomalies :=
    sorted_reverse (fun x y => Rltb (anomaly.score x) (anomaly.score y)) anomalies in
  let total_score := _calculate_total_anomaly_score anomalies in
  rbind (getitem (metadata message) "destination") (fun destination =>
  rbind (getitem (payload message) "source") (fun source =>
  let query_mapping := [("source"%string, PStr (double_quote ++ py_str source ++ double_quote)%string)] in
  rbind
    (if truthy (get (payload message) "delta" PNone) then
       rbind (getitem (payload message) "delta") (fun delta =>
       Ok (setitem query_mapping "delta" delta))
     else Ok query_mapping) (fun query_mapping =>
  rbind (first_destination destination) (fun destination0 =>
  rbind (effective_date message) (fun date =>
  rbind (generate (_kibana_link_generator self) destination0 query_mapping date)
    (fun kibana_urls =>
  let kibana_url := if 0 <? Z.of_nat (List.length kibana_urls)
                    then nth_error kibana_urls 0 else None in
  rbind (getitem (metadata message) "id") (fun article_id =>
  rbind (effective_date message) (fun date =>
  rbind (getitem (metadata message) "method") (fun method =>
  rbind (domain_of method) (fun domain =>
  rbind (getitem (payload message) "source") (fun source =>
  rbind (_generate_description anomalies message total_score) (fun description =>
  match anomalies with
  | [] => Raise IndexError
  | top :: _ =>
      Ok {| alert.id := uuid;
            alert._article_id := article_id;
            alert.date := date;
            alert.score := total_score;
            alert.domain := domain;
            alert.source := source;
            alert.description := description;
            alert.url := kibana_url;
            alert.field_name := metric_name top;
            alert.anomaly_value := metric_value top;
            alert.expected_value := anomaly.expected_value top;
            alert._all_anomalies := map to_dict anomalies |}
  end)))))))))))).

Definition run (self : AnomalyDetector) (message : message) (uuid : string)
    : Cache (option alert.Alert) :=
  anomalies <- _run_detectors self message ;;
  if Z.of_nat (List.length anomalies) =? 0 then ret None
  else
    alert <- lift (_create_alert self message anomalies uuid) ;;
    ret (Some alert).
End Methods.
End detector.

(* ================================================================== *)
(** * utils/kibana_object_cache.py, utils/kibana_link_generator.py *)
(* ================================================================== *)

Module kibana.

(** What a call of this module can raise: an exception of the cache, the
    failure of a request to Kibana (the exception of [requests.get], of the
    decoding of the reply or of the reading of its fields), and the
    [AttributeError] of [None.items()]. *)
Inductive raised : Type :=
| Python (e : exn)
| RequestFailed
| AttributeError.

(** ** Dictionaries with string keys, in insertion order *)

Fixpoint assoc_get {V : Type} (d : list (string * V)) (k : string) : option V :=
  match d with
  | [] => None
  | (k', v) :: d' => if (k' =? k)%string then Some v else assoc_get d' k
  end.

(** [d[k] = v]. *)
Fixpoint assoc_set {V : Type} (d : list (string * V)) (k : string) (v : V)
    : list (string * V) :=
  match d with
  | [] => [(k, v)]
  | (k', v') :: d' =>
      if (k' =? k)%string then (k', v) :: d' else (k', v') :: assoc_set d' k v
  end.

(** ** The Kibana server

    [spaces] is the list of the [id]s in the reply to [GET /api/spaces/space]
    and [data_views space_id] the list of the ([title], [id]) pairs in the
    reply to [GET /s/<space_id>/api/data_views], in the order of the reply;
    [None] when the request fails. *)
Record Kibana : Type := {
  spaces : option (list string);
  data_views : string -> option (list (string * string))
}.

(** A dictionary from data view id to space id. *)
Definition dataviews : Type := list (string * string).

(** ** The object cache

    [server] is the Kibana the object talks to, [requests] the number of
    requests made so far and [timer] the reading of the cache's timer. *)
Record KibanaObjectCache : Type := {
  server : Kibana;
  requests : nat;
  timer : Z;
  _objects : cachetools.TTLCache string dataviews
}.

Definition Call (A : Type) : Type :=
  KibanaObjectCache -> (A + raised) * KibanaObjectCache.

Definition ret {A : Type} (a : A) : Call A := fun s => (inl a, s).

Definition raise {A : Type} (f : raised) : Call A := fun s => (inr f, s).

Definition bind {A B : Type} (c : Call A) (k : A -> Call B) : Call B :=
  fun s =>
    match c s with
    | (inl a, s') => k a s'
    | (inr f, s') => (inr f, s')
    end.

Fixpoint for_each {A : Type} (l : list A) (body : A -> Call unit) : Call unit :=
  match l with
  | [] => ret tt
  | x :: l' => bind (body x) (fun _ => for_each l' body)
  end.

Fixpoint for_fold {A B : Type} (l : list A) (acc : B) (body : B -> A -> Call B)
    : Call B :=
  match l with
  | [] => ret acc
  | x :: l' => bind (body acc x) (fun acc' => for_fold l' acc' body)
  end.

Definition with_objects (self : KibanaObjectCache) c : KibanaObjectCache :=
  {| server := server self; requests := requests self; timer := timer self;
     _objects := c |}.

Definition requested (self : KibanaObjectCache) : KibanaObjectCache :=
  {| server := server self; requests := S (requests self); timer := timer self;
     _objects := _objects self |}.

Definition of_result {A : Type} (r : result A) : A + raised :=
  match r with
  | Ok a => inl a
  | Raise e => inr (Python e)
  end.

(** [self._objects.get(index)] and [self._objects[index] = value]. *)
Definition objects_get (index : string) : Call (option dataviews) :=
  fun self =>
    let (r, c) := cachetools.get String.eqb (_objects self) (timer self) index in
    (of_result r, with_objects self c).

Definition objects_set (index : string) (value : dataviews) : Call unit :=
  fun self =>
    let (r, c) := cachetools.setitem String.eqb (_objects self) (timer self) index value in
    (of_result r, with_objects self c).

Definition _get_all_spaces : Call (list string) :=
  fun self =>
    (match spaces (server self) with
     | Some ids => inl ids
     | None => inr RequestFailed
     end, requested self).

(** [{dataview['title']: dataview['id'] for dataview in ...}]. *)
Definition _get_all_dataviews (space_id : string) : Call (list (string * string)) :=
  fun self =>
    (match data_views (server self) space_id with
     | Some pairs =>
         inl (fold_left (fun d pair => assoc_set d (fst pair) (snd pair)) pairs [])
     | None => inr RequestFailed
     end, requested self).

(** [objects[index][dataview_id] = space] on a [defaultdict(dict)]. *)
Definition objects_add (objects : list (string * dataviews))
    (index dataview_id space : string) : list (string * dataviews) :=
  let entry := match assoc_get objects index with
               | Some entry => entry
               | None => []
               end in
  assoc_set objects index (assoc_set entry dataview_id space).

Definition _setup : Call unit :=
  bind _get_all_spaces (fun spaces =>
  bind (for_fold spaces [] (fun objects space =>
          bind (_get_all_dataviews space) (fun dataviews =>
          ret (fold_left (fun objects item =>
                            objects_add objects (fst item) (snd item) space)
                         dataviews objects)))) (fun objects =>
  for_each objects (fun item => objects_set (fst item) (snd item)))).

Definition get_dataviews_by_index (index : string) : Call (option dataviews) :=
  bind (objects_get index) (fun space =>
  match space with
  | Some (_ :: _) => ret space
  | _ => bind _setup (fun _ => objects_get index)
  end).

(** The constructor; the retention window becomes the cache's [ttl]. *)
Definition __init__ (kibana : Kibana) (cache_size : Z)
    (cache_retention_window : timedelta) (clock : Z)
    : (unit + raised) * KibanaObjectCache :=
  _setup {| server := kibana; requests := O; timer := clock;
            _objects := cachetools.empty cache_size cache_retention_window |}.

(** ** The link generator *)

(** Two library functions are left open: [strftime dt] is
    [dt.strftime('%Y-%m-%dT%H:%M:%S.000Z')] and [quote_plus] is
    [urllib.parse.quote_plus]. *)
Class Urllib : Type := {
  strftime : datetime -> string;
  quote_plus : string -> string
}.

Definition time_window : timedelta := 300000000.

Definition _base_kibana_url : string :=
  "https://elastic-4.kb.europe-west3.gcp.cloud.es.io:9243".

Section LinkGenerator.
Context `{Builtins} `{Urllib}.

(** [' and '.join([f'{key} : {value}' for key, value in mapping.items()])]. *)
Definition _query_builder (mapping : dict) : string :=
  String.concat " and "
    (map (fun item => (fst item ++ " : " ++ py_str (snd item))%string) mapping).

Definition _url_builder (query space_id dataview_id : string)
    (from_date to_date : datetime) : string :=
  let from_str := strftime from_date in
  let to_str := strftime to_date in
  let query_str := quote_plus query in
  (_base_kibana_url ++ "/s/" ++ space_id ++ "/app/discover#/?_g=(time:(from:'"
   ++ from_str ++ "',to:'" ++ to_str ++ "'))"
   ++ "&_a=(index:" ++ dataview_id ++ ",query:(language:kuery,query:'"
   ++ query_str ++ "'))")%string.

Definition generate (destination : string) (mapping : dict) (date : datetime)
    : Call (list string) :=
  bind (get_dataviews_by_index destination) (fun dataviews =>
  let query := _query_builder mapping in
  match dataviews with
  | None => raise AttributeError
  | Some dataviews =>
      ret (map (fun item =>
                  _url_builder query (snd item) (fst item)
                               (date - time_window) (date + time_window))
               dataviews)
  end).
End LinkGenerator.

(** ** Notions for the statements *)

(** Between two calls Kibana changes and [elapsed] time passes. *)
Definition environment_step (kibana : Kibana) (elapsed : Z)
    (self : KibanaObjectCache) : KibanaObjectCache :=
  {| server := kibana; requests := requests self;
     timer := timer self + elapsed; _objects := _objects self |}.

(** The states a cache object goes through, when the Kibana it talks to is
    always one of [servers]: built by its constructor, when that returns,
    then used through its public method while the environment moves. *)
Inductive in_use (servers : Kibana -> Prop) : KibanaObjectCache -> Prop :=
| in_use_init : forall kibana size window clock self,
    servers kibana ->
    __init__ kibana size window clock = (inl tt, self) ->
    in_use servers self
| in_use_environment : forall kibana elapsed self,
    servers kibana -> 0 <= elapsed ->
    in_use servers self -> in_use servers (environment_step kibana elapsed self)
| in_use_call : forall index r self self',
    in_use servers self ->
    get_dataviews_by_index index self = (r, self') ->
    in_use servers self'.

(** [kibana] answers the two requests with a data view titled [index] in one
    of its spaces. *)
Definition titled (kibana : Kibana) (index : string) : Prop :=
  exists ids space pairs,
    spaces kibana = Some ids /\ In space ids /\
    data_views kibana space = Some pairs /\ In index (map fst pairs).

Definition known (servers : Kibana -> Prop) (index : string) : Prop :=
  exists kibana, servers kibana /\ titled kibana index.

(** The cache of an object that talks to [kibana] holds non-empty
    dictionaries, under titles one of the servers has. *)
Definition built (servers : Kibana -> Prop) (kibana : Kibana)
    (self : KibanaObjectCache) : Prop :=
  server self = kibana /\ servers kibana /\
  Forall (fun l => cachetools.value l <> [] /\ known servers (cachetools.key l))
         (cachetools.links (_objects self)).

(** A call keeps [J] whatever it does, and what it returns has [R]. *)
Definition keeps {A : Type} (J : KibanaObjectCache -> Prop) (c : Call A)
    (R : A -> Prop) : Prop :=
  forall s r s', J s -> c s = (r, s') ->
    J s' /\ match r with inl a => R a | inr _ => True end.

End kibana.

(* ================================================================== *)
(** * container_detector/container_detector.py *)
(* ================================================================== *)

Module container_detector.

(** [_setup_anomaly_detector]: the aggregator the container runs has the
    metric-deviation detector first and the repost detector second. The
    prediction cache the first one reads is the state the methods run in,
    [connection_redis] is the client [_setup_redis_connection] has built. *)
Definition _setup_anomaly_detector `{Builtins}
    (connection_redis : telegram_repost.Redis)
    (kibana_link_generator : detector.KibanaLinkGenerator)
    : detector.AnomalyDetector :=
  let detectors :=
    [ a_detector telegram_metrics.Build_TelegramMetricAnomalyDetector;
      a_detector {| telegram_repost._redis_connection := connection_redis |} ] in
  {| detector._detectors := detectors;
     detector._kibana_link_generator := kibana_link_generator |}.

End container_detector.

(* ================================================================== *)
(** * Sample data *)
(* ================================================================== *)

(** A small database, a cache built on it and the articles the examples of
    the specification speak of. *)
Module sample.

(** 0001-01-01T00:10:00: minute 10, a multiple of the step 5. *)
Definition bucket : datetime := 600000000.

Definition prediction_row : PredictionRow :=
  {| p_date := bucket; p_chat_id := PInt 7; p_delta := PInt 60;
     p_columns := [("views", PInt 100); ("views_upper", PInt 150)] |}.

(** Two windows of the same chat, delta and metric around the bucket; the
    second one ends later. *)
Definition early_window : StatisticRow :=
  {| s_date_from := 0; s_date_to := 1000000000;
     s_chat_id := PInt 7; s_delta := PInt 60; s_metric := PStr "views";
     s_columns := [("mean", PInt 1); ("std", PInt 1)] |}.

Definition late_window : StatisticRow :=
  {| s_date_from := 600000000; s_date_to := 2000000000;
     s_chat_id := PInt 7; s_delta := PInt 60; s_metric := PStr "views";
     s_columns := [("mean", PInt 2); ("std", PInt 1)] |}.

Definition db : ConnectionDB :=
  {| metrics_telegram_prediction := [prediction_row];
     metrics_telegram_statistic := [late_window; early_window];
     metrics_telegram_coefficient := [] |}.

(** The cache as its constructor leaves it at 00:10:00 on that database. *)
Definition cache : TelegramPredictionCache := snd (new_cache db bucket 0).

Definition empty_db : ConnectionDB :=
  {| metrics_telegram_prediction := [];
     metrics_telegram_statistic := [];
     metrics_telegram_coefficient := [] |}.

Definition empty_cache : TelegramPredictionCache := snd (new_cache empty_db bucket 0).

(** *** Stand-ins for the platform's builtins

    [strptime] knows the two time stamps the sample articles carry. *)
Definition strptime (text : string) : result datetime :=
  if (text =? "0001-01-01T00:10:30")%string then Ok (bucket + 30000000)
  else if (text =? "0001-01-01T00:20:00")%string then Ok 1200000000
  else Raise ValueError.

Definition py_repr (v : pyval) : string := "<repr>".

Definition builtins : Builtins := Build_Builtins strptime py_repr.

(** *** A Kibana with one space and one data view

    [strftime] knows the two ends of the window around midnight plus ten
    minutes; [quote_plus] is the function of the library on the bytes of the
    string. *)
Definition server : kibana.Kibana :=
  {| kibana.spaces := Some ["default"%string];
     kibana.data_views := fun space_id =>
       if (space_id =? "default")%string
       then Some [("dm_8_countries_tg"%string, "dataview-1"%string)]
       else None |}.

Definition strftime (dt : datetime) : string :=
  if dt =? bucket - 300000000 then "0001-01-01T00:05:00.000Z"
  else if dt =? bucket + 300000000 then "0001-01-01T00:15:00.000Z"
  else "0001-01-01T00:00:00.000Z".

Definition hex (n : nat) : string :=
  String.substring n 1 "0123456789ABCDEF".

Definition quote_byte (c : ascii) : string :=
  let n := nat_of_ascii c in
  if ((48 <=? n) && (n <=? 57) || (65 <=? n) && (n <=? 90)
      || (97 <=? n) && (n <=? 122) || (n =? 95) || (n =? 46) || (n =? 45)
      || (n =? 126))%nat
  then String c EmptyString
  else if (n =? 32)%nat then "+"
  else ("%" ++ hex (n / 16) ++ hex (n mod 16))%string.

Fixpoint quote_plus (text : string) : string :=
  match text with
  | EmptyString => EmptyString
  | String c text' => (quote_byte c ++ quote_plus text')%string
  end.

Definition urllib : kibana.Urllib := kibana.Build_Urllib strftime quote_plus.

(** The object cache as its constructor leaves it on that server. *)
Definition object_cache : kibana.KibanaObjectCache :=
  snd (kibana.__init__ server 1000 86400000000 0).

(** *** The metric-deviation detector *)

(** Chat 7 expects a tenth of its viewers to forward, no more reactions than
    views, and is not evaluated under 100 views. *)
Definition coefficient_row : CoefficientRow :=
  {| c_id := PInt 7;
     c_columns := [("forwards_by_views", PFloat (1 / 10));
                   ("reaction_count_by_views", PInt 1);
                   ("minimal_views_threshold", PInt 100)] |}.

Definition metrics_db : ConnectionDB :=
  {| metrics_telegram_prediction := [];
     metrics_telegram_statistic := [];
     metrics_telegram_coefficient := [coefficient_row] |}.

Definition metrics_cache : TelegramPredictionCache := snd (new_cache metrics_db bucket 0).

Definition article (views forwards reaction_count : Z) : dict :=
  [("chat_id", PInt 7); ("delta", PInt 60);
   ("loading_date", PStr "0001-01-01T00:20:00");
   ("views", PInt views); ("forwards", PInt forwards);
   ("reaction_count", PInt reaction_count)].

(** *** The repost detector *)

(** A Redis in which chat 42 is French and chat 43 American. *)
Definition redis : telegram_repost.Redis :=
  {| telegram_repost.hget := fun name field =>
       Ok (if (name =? "tg_countries")%string then
             if py_eqb field (PInt 42) then PStr "FR"
             else if py_eqb field (PInt 43) then PStr "US"
             else PNone
           else PNone) |}.

Definition repost_detector : telegram_repost.TelegramRepostAnomalyDetector :=
  {| telegram_repost._redis_connection := redis |}.

Definition repost (country : string) (forward_from_chat_id : Z) : dict :=
  [("country", PStr country); ("forward_from_chat_id", PInt forward_from_chat_id)].

(** *** The aggregator *)

(** A link generator that knows one data view per destination. *)
Definition kibana : detector.KibanaLinkGenerator :=
  {| detector.generate := fun destination mapping date =>
       Ok ["https://kibana.example/discover"] |}.

Definition aggregator : detector.AnomalyDetector :=
  {| detector._detectors :=
       [ @a_detector _ (@telegram_metrics.detector builtins)
           telegram_metrics.Build_TelegramMetricAnomalyDetector;
         @a_detector _ telegram_repost.detector repost_detector ];
     detector._kibana_link_generator := kibana |}.

(** A message from the Telegram listener about the given article. *)
Definition message (article : dict) : detector.message :=
  {| detector.metadata :=
       [("id", PStr "article-1"); ("method", PStr "TelegramListener");
        ("destination", PStr "dm_8_countries_tg")];
     detector.payload :=
       ("source", PStr "channel") :: ("date", PStr "0001-01-01T00:10:30") :: article |}.

(** The same message without the [date] of the payload. *)
Definition undated_message (article : dict) : detector.message :=
  {| detector.metadata := detector.metadata (message article);
     detector.payload := ("source", PStr "channel") :: article |}.

(** Three anomalies in the order they were found: a weak one, then two of
    score 1. *)
Definition weak : Anomaly :=
  {| metric_name := "language"; metric_value := PStr "fr";
     expected_value := PNone; score := (1 / 2)%R; _weight := 100 |}.

Definition strong_first : Anomaly :=
  {| metric_name := "country"; metric_value := PStr "FR";
     expected_value := PNone; score := 1%R; _weight := 100 |}.

Definition strong_second : Anomaly :=
  {| metric_name := "forward"; metric_value := PStr "yes";
     expected_value := PNone; score := 1%R; _weight := 100 |}.

End sample.

(* ================================================================== *)
(** * Notions used to state the properties *)
(* ================================================================== *)

(** What Python's [==] looks at: two values are equal when they have the same
    normal form. *)
Inductive shape : Type :=
| SNone
| SNumber (r : R)
| SStr (s : string)
| SBytes (s : string)
| SSeq (l : list string).

Definition shape_of (v : pyval) : shape :=
  match v with
  | PNone => SNone
  | PBool b => SNumber (if b then 1 else 0)%R
  | PInt z => SNumber (IZR z)
  | PFloat r => SNumber r
  | PStr s => SStr s
  | PBytes s => SBytes s
  | PSeq l => SSeq l
  end.

(** ** Invariants of a [TTLCache] *)
Section CacheInvariants.
Context {K V : Type}.
Variable eqb : K -> K -> bool.

(** No two links of the cache have equal keys. *)
Fixpoint unique_keys (ls : list (cachetools.Link K V)) : Prop :=
  match ls with
  | [] => True
  | l :: ls' =>
      Forall (fun l' => eqb (cachetools.key l) (cachetools.key l') = false) ls'
      /\ unique_keys ls'
  end.

(** Every link has its key in the usage order. *)
Definition covered (c : cachetools.TTLCache K V) : Prop :=
  Forall (fun l => existsb (eqb (cachetools.key l)) (cachetools.order c) = true)
         (cachetools.links c).

Definition well_formed (c : cachetools.TTLCache K V) : Prop :=
  unique_keys (cachetools.links c) /\ covered c.

Definition keys_satisfy (P : K -> Prop) (c : cachetools.TTLCache K V) : Prop :=
  Forall (fun l => P (cachetools.key l)) (cachetools.links c).

(** No link has expired at [time]. *)
Definition all_live (time : Z) (c : cachetools.TTLCache K V) : Prop :=
  Forall (fun l => (time <? cachetools.expires l) = true) (cachetools.links c).

(** The links a lookup at [time] can return. *)
Definition live (c : cachetools.TTLCache K V) (time : Z) : list (cachetools.Link K V) :=
  filter (fun l => time <? cachetools.expires l) (cachetools.links c).
End CacheInvariants.

(** ** Invariants of the prediction cache *)

(** A key of the predictions cache as a refill builds it: seconds and
    microseconds are zero. *)
Definition normalized (k : prediction_key) : Prop :=
  second (fst (fst k)) = 0 /\ microsecond (fst (fst k)) = 0.

Definition cache_ok (self : TelegramPredictionCache) : Prop :=
  well_formed prediction_key_eqb (_predictions self)
  /\ well_formed statistic_key_eqb (_statistics self)
  /\ well_formed py_eqb (_coefficients self)
  /\ keys_satisfy normalized (_predictions self).

(** ** The windows of the statistics cache *)

Definition window_start (k : statistic_key) : datetime := fst (fst (fst (fst k))).
Definition window_end (k : statistic_key) : datetime := snd (fst (fst (fst k))).

(** The specification's test: the window contains [date] strictly and the
    entry is one of this chat, delta and metric. *)
Definition qualifies (date : datetime) (chat_id delta metric : pyval)
    (k : statistic_key) : Prop :=
  let '(_, _, row_chat_id, row_delta, row_metric) := k in
  window_start k < date < window_end k
  /\ py_eqb row_chat_id chat_id = true
  /\ py_eqb row_delta delta = true
  /\ py_eqb row_metric metric = true.

(** The entries a scan at the state [self] can see. *)
Definition visible (self : TelegramPredictionCache)
    : list (cachetools.Link statistic_key dict) :=
  live (_statistics self) (timer self).

Definition none_qualifies (self : TelegramPredictionCache) (date : datetime)
    (chat_id delta metric : pyval) : Prop :=
  forall l, In l (visible self) ->
            ~ qualifies date chat_id delta metric (cachetools.key l).

(** [v] is the entry of a visible window that qualifies and ends latest. *)
Definition latest_qualifying (self : TelegramPredictionCache) (date : datetime)
    (chat_id delta metric : pyval) (v : dict) : Prop :=
  exists l, In l (visible self)
    /\ qualifies date chat_id delta metric (cachetools.key l)
    /\ cachetools.value l = v
    /\ forall l', In l' (visible self) ->
                  qualifies date chat_id delta metric (cachetools.key l') ->
                  window_end (cachetools.key l') <= window_end (cachetools.key l).

(** What the loop of the scan has put in [rows_for_date] after the links [ls]. *)
Definition collect_rows (date : datetime) (chat_id delta metric : pyval)
    (ls : list (cachetools.Link statistic_key dict)) (rows : list (datetime * dict))
    : list (datetime * dict) :=
  fold_left (fun rows l =>
               if row_matches date chat_id delta metric (cachetools.key l)
               then rows_set rows (window_end (cachetools.key l)) (cachetools.value l)
               else rows) ls rows.

(** ** The ratio anomalies of the metric-deviation detector *)

(** The anomaly the static check adds for the ratio [name] when the observed
    [ratio] exceeds the expected coefficient (the value [expected], the number
    [e]); its score is [1 / (1 + exp((e - deviation) * 10))] for the deviation
    [ratio / e]. *)
Definition ratio_anomaly (name : string) (ratio : R) (expected : pyval) (e : R)
    : list Anomaly :=
  if Rltb e ratio then
    [ {| metric_name := name;
         metric_value := PFloat ratio;
         expected_value := expected;
         score := (1 / (1 + exp ((e - ratio / e) * 10)))%R;
         _weight := 100 |} ]
  else [].

(** ** The anomaly of the repost detector *)

Definition forward_anomaly : Anomaly :=
  {| metric_name := "forward"; metric_value := PInt 1; expected_value := PInt 0;
     score := 1; _weight := 100 |}.

(** A value that is not a [bytes] object: what [json.loads] can produce. *)
Definition not_bytes (v : pyval) : Prop :=
  match v with
  | PBytes _ => False
  | _ => True
  end.

(** What a call of a Redis client that does not decode returns: [bytes], or
    [None] for a field the hash does not have. *)
Definition undecoded (reply : result pyval) : Prop :=
  match reply with
  | Ok (PBytes _) | Ok PNone => True
  | _ => False
  end.

(** The article has both fields of the repost detector, and they are
    truthy: the article is one the detector asks Redis about. *)
Definition forwarded (article : dict) (country forward_from_chat_id : pyval) : Prop :=
  lookup article "country" = Some country
  /\ lookup article "forward_from_chat_id" = Some forward_from_chat_id
  /\ truthy country = true /\ truthy forward_from_chat_id = true.

(** The condition under which the repost detector adds its anomaly: both
    fields are there and truthy, Redis returns a country for the chat the
    article is forwarded from, neither country is a sentinel, and the two
    countries are equal. *)
Definition repost_fires (self : telegram_repost.TelegramRepostAnomalyDetector)
    (article : dict) : Prop :=
  exists country forward_from_chat_id forward_country,
    forwarded article country forward_from_chat_id
    /\ telegram_repost.hget (telegram_repost._redis_connection self)
         "tg_countries" forward_from_chat_id = Ok forward_country
    /\ py_in country telegram_repost.__none_country = false
    /\ py_in forward_country telegram_repost.__none_country = false
    /\ py_eqb country forward_country = true.

(** The repost detector's call of Redis raises [e] on the article. *)
Definition redis_raises (self : telegram_repost.TelegramRepostAnomalyDetector)
    (article : dict) (e : exn) : Prop :=
  exists country forward_from_chat_id,
    forwarded article country forward_from_chat_id
    /\ telegram_repost.hget (telegram_repost._redis_connection self)
         "tg_countries" forward_from_chat_id = Raise e.

(** ** The anomalies of the metric-deviation detector *)

(** At most one anomaly, of the given name and weight. *)
Definition at_most_one (name : string) (weight : Z) (added : list Anomaly) : Prop :=
  (List.length added <= 1)%nat
  /\ Forall (fun a => metric_name a = name /\ _weight a = weight) added.

(** ** Anomalies the description has nothing to say about *)

(** An anomaly whose value is neither an [int], a [float] nor a [str]. *)
Definition silent (a : Anomaly) : Prop :=
  match metric_value a with
  | PInt _ | PFloat _ | PStr _ => False
  | _ => True
  end.


(** ** The ranking of the aggregator *)

(** The order [_create_alert] sorts by: one anomaly is smaller than another
    when its score is. *)
Definition score_ltb (x y : Anomaly) : bool := Rltb (anomaly.score x) (anomaly.score y).

(** The anomalies as the alert ranks them. *)
Definition ranked (anomalies : list Anomaly) : list Anomaly :=
  sorted_reverse score_ltb anomalies.

(** The anomalies with the score [x], in the order of the list. *)
Definition with_score (x : R) (anomalies : list Anomaly) : list Anomaly :=
  filter (fun a => Reqb (anomaly.score a) x) anomalies.

(** The sum of the scores, as a sum of real numbers. *)
Definition sum_of_scores (anomalies : list Anomaly) : R :=
  fold_right Rplus 0%R (map anomaly.score anomalies).

(** ** The description of an alert, in the words of the specification *)


(** A metric value that is an [int] or a [float] (a [bool] is neither). *)
Definition numeric (v : pyval) (x : R) : Prop :=
  (exists z, v = PInt z /\ x = IZR z) \/ v = PFloat x.




(** What the description says after the source: the delay when the payload
    has a [delta]. *)
Definition publication_suffix `{Builtins} (message : detector.message) : string :=
  if truthy (get (detector.payload message) "delta" PNone)
  then (" " ++ py_str (get (detector.payload message) "delta" PNone)
        ++ " seconds after publication")%string
  else EmptyString.

(** ** What [_create_alert] needs to build an alert *)

(** An anomaly the description can speak of: a number expected to be zero,
    a number that can be divided by the expected one, or a text. *)
Definition describable (a : Anomaly) : Prop :=
  (exists m, numeric (metric_value a) m
             /\ (as_number (anomaly.expected_value a) = Some 0%R
                 \/ exists difference,
                      float_truediv (metric_value a) (anomaly.expected_value a)
                      = Ok difference))
  \/ (exists value, metric_value a = PStr value).

(** A message with the fields the alert is filled from, a date that parses
    and a destination the link generator answers for. *)
Definition deliverable `{Builtins} (self : detector.AnomalyDetector)
    (message : detector.message) : Prop :=
  exists destination destination0 source date_text date article_id method domain,
    lookup (detector.metadata message) "destination" = Some destination
    /\ detector.first_destination destination = Ok destination0
    /\ lookup (detector.payload message) "source" = Some source
    /\ lookup (detector.payload message) "date" = Some date_text
    /\ py_strptime (get (detector.payload message) "loading_date" date_text) = Ok date
    /\ (forall mapping, exists urls,
          detector.generate (detector._kibana_link_generator self)
                            destination0 mapping date = Ok urls)
    /\ lookup (detector.metadata message) "id" = Some article_id
    /\ lookup (detector.metadata message) "method" = Some method
    /\ detector.domain_of method = Ok domain.

(** ** Properties of a method kept along its steps *)

(** [c] keeps the invariant [I] of the object, whatever it returns. *)
Definition preserves {S A : Type} (I : S -> Prop) (c : M S A) : Prop :=
  forall s r s', I s -> c s = (r, s') -> I s'.

(** [c] issues at most [n] queries on the database connection. *)
Definition issues {A : Type} (n : nat) (c : Cache A) : Prop :=
  forall s r s', c s = (r, s') ->
    exists qs, queries s' = queries s ++ qs /\ (List.length qs <= n)%nat.

(** ** What a cache answers *)
Section CacheViews.
Context {K V : Type}.
Variable eqb : K -> K -> bool.

(** What a lookup of [k] at [time] finds: the value of the link whose key
    equals [k], unless that link has expired. *)
Definition peek (c : cachetools.TTLCache K V) (time : Z) (k : K) : option V :=
  match cachetools.find_link eqb c k with
  | Some l => if time <? cachetools.expires l then Some (cachetools.value l) else None
  | None => None
  end.

(** A link that does not answer a lookup of [k] at [time]: it has expired, or
    its key is another one. *)
Definition misses (time : Z) (k : K) (l : cachetools.Link K V) : Prop :=
  (time <? cachetools.expires l) = true -> eqb (cachetools.key l) k = false.

(** The value the last of the assignments [items] to a key equal to [k]
    gave, if there is one. *)
Fixpoint assigned (items : list (K * V)) (k : K) : option V :=
  match items with
  | [] => None
  | (k', v) :: items' =>
      match assigned items' k with
      | Some v' => Some v'
      | None => if eqb k' k then Some v else None
      end
  end.

(** [for (k, v) in items: cache[k] = v]. *)
Fixpoint store_all (c : cachetools.TTLCache K V) (time : Z) (items : list (K * V))
    : result unit * cachetools.TTLCache K V :=
  match items with
  | [] => (Ok tt, c)
  | (k, v) :: items' =>
      match cachetools.setitem eqb c time k v with
      | (Ok _, c') => store_all c' time items'
      | (Raise e, c') => (Raise e, c')
      end
  end.
End CacheViews.

(** ** The rows of the database as cache items *)

Definition prediction_item (row : PredictionRow) : prediction_key * dict :=
  ((replace_second0_microsecond0 (p_date row), p_chat_id row, p_delta row),
   p_columns row).

Definition statistic_item (row : StatisticRow) : statistic_key * dict :=
  ((s_date_from row, s_date_to row, s_chat_id row, s_delta row, s_metric row),
   s_columns row).

Definition coefficient_item (row : CoefficientRow) : pyval * dict :=
  (c_id row, c_columns row).

(** The rows a query of the predictions table returns. *)
Definition predictions_between (db : ConnectionDB) (from_date to_date : datetime)
    : list PredictionRow :=
  filter (fun row => (from_date <=? p_date row) && (p_date row <=? to_date))
         (metrics_telegram_prediction db).

(** ** What a call leaves as it is *)

(** The attributes of a cache object no method assigns: the timer reading
    (within one call), the database, the step, the update windows and the
    capacity and time to live of the three caches. *)
Definition settings (self : TelegramPredictionCache) :=
  (timer self, _connection_db_metrics self, _prediction_step self,
   cache_big_update_window self, cache_small_update_window self,
   (cachetools.maxsize (_predictions self), cachetools.ttl (_predictions self)),
   (cachetools.maxsize (_statistics self), cachetools.ttl (_statistics self)),
   (cachetools.maxsize (_coefficients self), cachetools.ttl (_coefficients self))).

(** The state [self] of an object whose settings are those of [self0] and
    whose links all satisfy the given properties. *)
Definition kept (self0 : TelegramPredictionCache)
    (Pp : cachetools.Link prediction_key dict -> Prop)
    (Ps : cachetools.Link statistic_key dict -> Prop)
    (Pc : cachetools.Link pyval dict -> Prop)
    (self : TelegramPredictionCache) : Prop :=
  settings self = settings self0
  /\ Forall Pp (cachetools.links (_predictions self))
  /\ Forall Ps (cachetools.links (_statistics self))
  /\ Forall Pc (cachetools.links (_coefficients self)).

(** No link of the three caches outlives its time to live: it expires at
    most [ttl] after the present reading of the timer. *)
Definition fresh (self : TelegramPredictionCache) : Prop :=
  Forall (fun l => cachetools.expires l <= timer self + cachetools.ttl (_predictions self))
         (cachetools.links (_predictions self))
  /\ Forall (fun l => cachetools.expires l <= timer self + cachetools.ttl (_statistics self))
            (cachetools.links (_statistics self))
  /\ Forall (fun l => cachetools.expires l <= timer self + cachetools.ttl (_coefficients self))
            (cachetools.links (_coefficients self)).

(** The states of a cache object that serves a database which does not
    change: time passes between the calls, the tables stay. *)
Inductive serves (db : ConnectionDB) : TelegramPredictionCache -> Prop :=
| serves_init : forall step bs bu br ss su sr now timer self,
    __init__ db step bs bu br ss su sr now timer = (Ok tt, self) ->
    serves db self
| serves_time : forall elapsed self,
    0 <= elapsed ->
    serves db self -> serves db (environment_step db elapsed self)
| serves_get_prediction : forall date chat_id delta self r self',
    serves db self ->
    get_prediction date chat_id delta self = (r, self') ->
    serves db self'
| serves_get_statistics : forall date chat_id delta metric self r self',
    serves db self ->
    get_statistics date chat_id delta metric self = (r, self') ->
    serves db self'
| serves_get_coefficients : forall chat_id self r self',
    serves db self ->
    get_coefficients chat_id self = (r, self') ->
    serves db self'.

(** A link that holds the columns of a row of [db] under a key equal to the
    key of that row. *)
Definition prediction_from (db : ConnectionDB)
    (l : cachetools.Link prediction_key dict) : Prop :=
  exists row, In row (metrics_telegram_prediction db)
    /\ prediction_key_eqb (cachetools.key l) (fst (prediction_item row)) = true
    /\ cachetools.value l = p_columns row.

Definition statistic_from (db : ConnectionDB)
    (l : cachetools.Link statistic_key dict) : Prop :=
  exists row, In row (metrics_telegram_statistic db)
    /\ statistic_key_eqb (cachetools.key l) (fst (statistic_item row)) = true
    /\ cachetools.value l = s_columns row.

Definition coefficient_from (db : ConnectionDB)
    (l : cachetools.Link pyval dict) : Prop :=
  exists row, In row (metrics_telegram_coefficient db)
    /\ py_eqb (cachetools.key l) (c_id row) = true
    /\ cachetools.value l = c_columns row.

(** Every link of the three caches comes from a row of [db]. *)
Definition from_rows (db : ConnectionDB) (self : TelegramPredictionCache) : Prop :=
  Forall (prediction_from db) (cachetools.links (_predictions self))
  /\ Forall (statistic_from db) (cachetools.links (_statistics self))
  /\ Forall (coefficient_from db) (cachetools.links (_coefficients self)).

(* ================================================================== *)
(** * Python values: facts *)
(* ================================================================== *)

Lemma Rltb_true (x y : R) : Rltb x y = true <-> (x < y)%R.
Proof. unfold Rltb. destruct (Rlt_dec x y); split; intros; try easy. Qed.

Lemma Rltb_false (x y : R) : Rltb x y = false <-> (y <= x)%R.
Proof.
  unfold Rltb. destruct (Rlt_dec x y); split; intros; try easy; lra.
Qed.

Lemma Reqb_true (x y : R) : Reqb x y = true <-> x = y.
Proof. unfold Reqb. destruct (Req_dec_T x y); split; intros; try easy. Qed.

Lemma Reqb_false (x y : R) : Reqb x y = false <-> x <> y.
Proof. unfold Reqb. destruct (Req_dec_T x y); split; intros; try easy. Qed.

Lemma seq_eqb_eq (l1 l2 : list string) : seq_eqb l1 l2 = true <-> l1 = l2.
Proof.
  revert l2. induction l1 as [|s1 t1 IH]; intros [|s2 t2]; simpl; try easy.
  rewrite andb_true_iff, String.eqb_eq, IH. split.
  - intros [-> ->]. reflexivity.
  - intros E. injection E as -> ->. split; reflexivity.
Qed.

Lemma py_eqb_shape (a b : pyval) : py_eqb a b = true <-> shape_of a = shape_of b.
Proof.
  destruct a as [|[]|z1|r1|s1|s1|l1], b as [|[]|z2|r2|s2|s2|l2]; simpl;
    rewrite ?Reqb_true, ?String.eqb_eq, ?seq_eqb_eq, ?Z.eqb_eq;
    split; intros E; try discriminate; try congruence;
    try (injection E as E; try (apply eq_IZR in E); congruence);
    try (injection E as E; lra); try (exfalso; lra).
Qed.

Lemma py_eqb_refl (a : pyval) : py_eqb a a = true.
Proof. apply py_eqb_shape. reflexivity. Qed.

Lemma py_eqb_sym (a b : pyval) : py_eqb a b = py_eqb b a.
Proof.
  destruct (py_eqb a b) eqn:E1, (py_eqb b a) eqn:E2; try reflexivity.
  - apply py_eqb_shape in E1. symmetry in E1. apply py_eqb_shape in E1. congruence.
  - apply py_eqb_shape in E2. symmetry in E2. apply py_eqb_shape in E2. congruence.
Qed.

Lemma py_eqb_trans (a b c : pyval) :
  py_eqb a b = true -> py_eqb b c = true -> py_eqb a c = true.
Proof. rewrite !py_eqb_shape. congruence. Qed.

(* ================================================================== *)
(** * The monad of methods: facts *)
(* ================================================================== *)

Section Preserves.
Context {S : Type} (I : S -> Prop).

Lemma preserves_ret {A} (a : A) : preserves I (ret a).
Proof. intros s r s' Hs E. injection E as _ <-. exact Hs. Qed.

Lemma preserves_lift {A} (x : result A) : preserves I (lift x).
Proof. intros s r s' Hs E. injection E as _ <-. exact Hs. Qed.

Lemma preserves_gets {A} (f : S -> A) : preserves I (gets f).
Proof. intros s r s' Hs E. injection E as _ <-. exact Hs. Qed.

Lemma preserves_bind {A B} (c : M S A) (k : A -> M S B) :
  preserves I c -> (forall a, preserves I (k a)) -> preserves I (bind c k).
Proof.
  intros Hc Hk s r s' Hs E. unfold bind in E.
  destruct (c s) as [[a|e] s1] eqn:E1.
  - eapply Hk; [eapply Hc; eassumption | eassumption].
  - injection E as _ <-. eapply Hc; eassumption.
Qed.

Lemma preserves_for_each {A} (l : list A) (body : A -> M S unit) :
  (forall x, In x l -> preserves I (body x)) -> preserves I (for_each l body).
Proof.
  induction l as [|x l IH]; intros Hb; simpl.
  - apply preserves_ret.
  - apply preserves_bind.
    + apply Hb. now left.
    + intros _. apply IH. intros y Hy. apply Hb. now right.
Qed.

Lemma preserves_for_fold {A B} (l : list A) (acc : B) (body : B -> A -> M S B) :
  (forall b x, In x l -> preserves I (body b x)) -> preserves I (for_fold l acc body).
Proof.
  revert acc. induction l as [|x l IH]; intros acc Hb; simpl.
  - apply preserves_ret.
  - apply preserves_bind.
    + apply Hb. now left.
    + intros acc'. apply IH. intros b y Hy. apply Hb. now right.
Qed.
End Preserves.

Create HintDb preserves.
#[local] Hint Resolve preserves_ret preserves_lift preserves_gets : preserves.

Lemma issues_weaken {A} (n m : nat) (c : Cache A) :
  (n <= m)%nat -> issues n c -> issues m c.
Proof.
  intros Hnm Hc s r s' E. destruct (Hc s r s' E) as (qs & Hq & Hl).
  exists qs. split; [exact Hq | lia].
Qed.

Lemma issues_ret {A} (a : A) : issues 0 (ret a).
Proof.
  intros s r s' E. injection E as _ <-. exists []. now rewrite app_nil_r.
Qed.

Lemma issues_lift {A} (x : result A) : issues 0 (lift x).
Proof.
  intros s r s' E. injection E as _ <-. exists []. now rewrite app_nil_r.
Qed.

Lemma issues_gets {A} (f : TelegramPredictionCache -> A) : issues 0 (gets f).
Proof.
  intros s r s' E. injection E as _ <-. exists []. now rewrite app_nil_r.
Qed.

Lemma issues_bind {A B} (n m : nat) (c : Cache A) (k : A -> Cache B) :
  issues n c -> (forall a, issues m (k a)) -> issues (n + m) (bind c k).
Proof.
  intros Hc Hk s r s' E. unfold bind in E.
  destruct (c s) as [[a|e] s1] eqn:E1.
  - destruct (Hc _ _ _ E1) as (q1 & Hq1 & Hl1).
    destruct (Hk a _ _ _ E) as (q2 & Hq2 & Hl2).
    exists (q1 ++ q2). rewrite Hq2, Hq1, app_assoc. split; [reflexivity|].
    rewrite length_app. lia.
  - injection E as _ <-. destruct (Hc _ _ _ E1) as (q1 & Hq1 & Hl1).
    exists q1. split; [exact Hq1 | lia].
Qed.

Lemma issues_for_each {A} (l : list A) (body : A -> Cache unit) :
  (forall x, issues 0 (body x)) -> issues 0 (for_each l body).
Proof.
  intros Hb. induction l as [|x l IH]; simpl.
  - apply issues_ret.
  - apply (issues_bind 0 0); [apply Hb | intros _; exact IH].
Qed.

Lemma issues_for_fold {A B} (l : list A) (acc : B) (body : B -> A -> Cache B) :
  (forall b x, issues 0 (body b x)) -> issues 0 (for_fold l acc body).
Proof.
  intros Hb. revert acc. induction l as [|x l IH]; intros acc; simpl.
  - apply issues_ret.
  - apply (issues_bind 0 0); [apply Hb | intros acc'; apply IH].
Qed.

(* ================================================================== *)
(** * cachetools.TTLCache: facts *)
(* ================================================================== *)

Section CacheFacts.
Context {K V : Type}.
Variable eqb : K -> K -> bool.
Hypothesis eqb_refl : forall k, eqb k k = true.
Hypothesis eqb_trans : forall k1 k2 k3,
  eqb k1 k2 = true -> eqb k2 k3 = true -> eqb k1 k3 = true.

Import cachetools.
#[local] Abbreviation Link := (Link K V).
#[local] Abbreviation TTLCache := (TTLCache K V).

Lemma eqb_trans_false (k1 k2 k3 : K) :
  eqb k1 k2 = true -> eqb k1 k3 = false -> eqb k2 k3 = false.
Proof.
  intros E12 E13. destruct (eqb k2 k3) eqn:E23; [|reflexivity].
  rewrite (eqb_trans _ _ _ E12 E23) in E13. discriminate.
Qed.

(** *** Unique keys *)

Lemma unique_keys_filter (f : Link -> bool) (ls : list Link) :
  unique_keys eqb ls -> unique_keys eqb (filter f ls).
Proof.
  induction ls as [|l ls IH]; simpl; [easy|]. intros [Hl Hu].
  destruct (f l); simpl; [split|]; auto.
  eapply incl_Forall; [apply incl_filter | exact Hl].
Qed.

Lemma unique_keys_snoc (ls : list Link) (l : Link) :
  unique_keys eqb ls ->
  Forall (fun l' => eqb (key l') (key l) = false) ls ->
  unique_keys eqb (ls ++ [l]).
Proof.
  induction ls as [|h ls IH]; simpl; intros Hu Hf.
  - split; [constructor | exact I].
  - destruct Hu as [Hh Hu]. inversion Hf as [|? ? Hhl Hf']; subst. split.
    + apply Forall_app. split; [exact Hh | constructor; [exact Hhl | constructor]].
    + apply IH; assumption.
Qed.

Lemma find_unique (ls : list Link) (l : Link) :
  unique_keys eqb ls -> In l ls ->
  find (fun l' => eqb (key l') (key l)) ls = Some l.
Proof.
  induction ls as [|h ls IH]; simpl; [easy|]. intros [Hh Hu] [->|Hin].
  - now rewrite eqb_refl.
  - rewrite Forall_forall in Hh. rewrite (Hh l Hin). now apply IH.
Qed.

(** *** What each operation does to the links *)

Lemma getitem_links (c : TTLCache) (time : Z) (k : K) r c' :
  getitem eqb c time k = (r, c') ->
  links c' = links c /\ maxsize c' = maxsize c /\ ttl c' = ttl c.
Proof.
  unfold getitem. destruct (find_link eqb c k) as [l|].
  - destruct (time <? expires l); intros E; injection E as _ <-; auto.
  - intros E; injection E as _ <-; auto.
Qed.

Lemma get_links (c : TTLCache) (time : Z) (k : K) r c' :
  get eqb c time k = (r, c') ->
  links c' = links c /\ maxsize c' = maxsize c /\ ttl c' = ttl c.
Proof.
  unfold get. destruct (contains eqb c time k).
  - destruct (getitem eqb c time k) as [[v|e] c1] eqn:E1; intros E;
      injection E as _ <-; eapply getitem_links; eassumption.
  - intros E; injection E as _ <-; auto.
Qed.

(** A lookup never raises: the test [key in cache] and the access that
    follows it read the same time. *)
Lemma get_returns (c : TTLCache) (time : Z) (k : K) :
  exists o c', get eqb c time k = (Ok o, c').
Proof.
  unfold get, contains, getitem. destruct (find_link eqb c k) as [l|].
  - destruct (time <? expires l); eauto.
  - eauto.
Qed.

Lemma get_some (c : TTLCache) (time : Z) (k : K) v c' :
  get eqb c time k = (Ok (Some v), c') ->
  exists l, In l (links c) /\ eqb (key l) k = true /\ value l = v
            /\ (time <? expires l) = true.
Proof.
  unfold get, contains, getitem, find_link.
  destruct (find _ (links c)) as [l|] eqn:Ef; [|discriminate].
  destruct (time <? expires l) eqn:Et; [|discriminate].
  intros E. injection E as <- _. apply find_some in Ef. exists l. tauto.
Qed.

Lemma get_none (c : TTLCache) (time : Z) (k : K) :
  Forall (fun l => eqb (key l) k = false) (links c) ->
  get eqb c time k = (Ok None, c).
Proof.
  intros Hf. unfold get, contains, find_link.
  destruct (find _ (links c)) as [l|] eqn:Ef; [|reflexivity].
  apply find_some in Ef. rewrite Forall_forall in Hf.
  destruct Ef as [Hin E]. rewrite (Hf l Hin) in E. discriminate.
Qed.

Lemma getitem_live (c : TTLCache) (time : Z) (l : Link) :
  unique_keys eqb (links c) -> In l (live c time) ->
  exists c', getitem eqb c time (key l) = (Ok (value l), c')
             /\ links c' = links c.
Proof.
  intros Hu Hin. apply filter_In in Hin. destruct Hin as [Hin Ht].
  unfold getitem, find_link. rewrite (find_unique _ _ Hu Hin), Ht.
  eexists. split; reflexivity.
Qed.

(** *** The invariants along the operations *)

Lemma covered_intro (ls : list Link) (o o' : list K) :
  Forall (fun l => existsb (eqb (key l)) o = true) ls ->
  (forall l k, In l ls -> In k o -> eqb (key l) k = true ->
               existsb (eqb (key l)) o' = true) ->
  Forall (fun l => existsb (eqb (key l)) o' = true) ls.
Proof.
  intros Hc Hstep. rewrite Forall_forall in *. intros l Hl.
  destruct (proj1 (existsb_exists _ _) (Hc l Hl)) as (k & Hk & Ek). eauto.
Qed.

Lemma move_to_end_covers (k0 : K) (o : list K) (k1 k : K) :
  In k o -> eqb k1 k = true -> existsb (eqb k1) (move_to_end eqb k0 o) = true.
Proof.
  intros Hk Ek. unfold move_to_end. rewrite existsb_app. apply orb_true_iff.
  destruct (eqb k k0) eqn:E0.
  - right. simpl. rewrite (eqb_trans _ _ _ Ek E0). reflexivity.
  - left. apply existsb_exists. exists k. split; [|exact Ek].
    apply filter_In. split; [exact Hk | now rewrite E0].
Qed.

Lemma getitem_well_formed (c : TTLCache) (time : Z) (k : K) r c' :
  well_formed eqb c -> getitem eqb c time k = (r, c') -> well_formed eqb c'.
Proof.
  intros [Hu Hc]. unfold getitem. destruct (find_link eqb c k) as [l|].
  - assert (W : well_formed eqb
              {| maxsize := maxsize c; ttl := ttl c; links := links c;
                 order := move_to_end eqb (key l) (order c) |}).
    { split; [exact Hu|]. unfold covered; simpl.
      eapply covered_intro; [exact Hc|]. intros l' k' _ Hk' E.
      eapply move_to_end_covers; eassumption. }
    destruct (time <? expires l); intros E; injection E as _ <-; exact W.
  - intros E; injection E as _ <-. split; assumption.
Qed.

Lemma get_well_formed (c : TTLCache) (time : Z) (k : K) r c' :
  well_formed eqb c -> get eqb c time k = (r, c') -> well_formed eqb c'.
Proof.
  intros W. unfold get. destruct (contains eqb c time k).
  - destruct (getitem eqb c time k) as [[v|e] c1] eqn:E1; intros E;
      injection E as _ <-; eapply getitem_well_formed; eassumption.
  - intros E; injection E as _ <-; exact W.
Qed.

Lemma expire_well_formed (c : TTLCache) (time : Z) :
  well_formed eqb c -> well_formed eqb (expire eqb c time).
Proof.
  intros [Hu Hc]. split; simpl.
  - apply unique_keys_filter, Hu.
  - unfold covered in *; simpl. rewrite Forall_forall in *.
    intros l Hl. pose proof Hl as Hl'. apply filter_In in Hl'. destruct Hl' as [Hin _].
    destruct (proj1 (existsb_exists _ _) (Hc l Hin)) as (k & Hk & Ek).
    apply existsb_exists. exists k. split; [|exact Ek].
    apply filter_In. split; [exact Hk|]. unfold has_key.
    apply existsb_exists. exists l. split; assumption.
Qed.

Lemma delitem_well_formed (c : TTLCache) (k : K) :
  well_formed eqb c -> well_formed eqb (delitem eqb c k).
Proof.
  intros [Hu Hc]. split; simpl.
  - apply unique_keys_filter, Hu.
  - unfold covered in *; simpl. unfold without. rewrite Forall_forall in *.
    intros l Hl. apply filter_In in Hl. destruct Hl as [Hin Hk].
    destruct (proj1 (existsb_exists _ _) (Hc l Hin)) as (k' & Hk' & Ek').
    apply existsb_exists. exists k'. split; [|exact Ek'].
    apply filter_In. split; [exact Hk'|].
    apply negb_true_iff in Hk. rewrite (eqb_trans_false _ _ _ Ek' Hk). reflexivity.
Qed.

Lemma popitem_well_formed (c : TTLCache) (time : Z) r c' :
  well_formed eqb c -> popitem eqb c time = (r, c') -> well_formed eqb c'.
Proof.
  intros W. unfold popitem. pose proof (expire_well_formed c time W) as W1.
  destruct (order (expire eqb c time)); intros E; injection E as _ <-.
  - exact W1.
  - apply delitem_well_formed, W1.
Qed.

Lemma make_room_well_formed (fuel : nat) (c : TTLCache) (time : Z) r c' :
  well_formed eqb c -> make_room eqb fuel c time = (r, c') -> well_formed eqb c'.
Proof.
  revert c. induction fuel as [|fuel IH]; intros c W; simpl;
    destruct (maxsize c <? currsize c + 1).
  - apply popitem_well_formed, W.
  - intros E; injection E as _ <-; exact W.
  - destruct (popitem eqb c time) as [[u|e] c1] eqn:E1.
    + apply IH. eapply popitem_well_formed; eassumption.
    + intros E; injection E as _ <-. eapply popitem_well_formed; eassumption.
  - intros E; injection E as _ <-; exact W.
Qed.

Lemma setitem_well_formed (c : TTLCache) (time : Z) (k : K) (v : V) r c' :
  well_formed eqb c -> setitem eqb c time k v = (r, c') -> well_formed eqb c'.
Proof.
  intros W. unfold setitem. pose proof (expire_well_formed c time W) as W1.
  destruct (maxsize (expire eqb c time) <? 1).
  { intros E; injection E as _ <-; exact W1. }
  destruct (if has_key eqb (links (expire eqb c time)) k
            then (Ok tt, expire eqb c time)
            else make_room eqb (List.length (links (expire eqb c time)))
                           (expire eqb c time) time) as [r2 c2] eqn:E2.
  assert (W2 : well_formed eqb c2).
  { destruct (has_key eqb (links (expire eqb c time)) k).
    - injection E2 as _ <-. exact W1.
    - eapply make_room_well_formed; eassumption. }
  destruct r2 as [u|e]; intros E; injection E as _ <-; [|exact W2].
  destruct W2 as [Hu Hc].
  assert (Ek0 : eqb (match find_link eqb c2 k with
                     | Some l => key l | None => k end) k = true).
  { unfold find_link. destruct (find _ (links c2)) as [l|] eqn:Ef.
    - apply find_some in Ef. tauto.
    - apply eqb_refl. }
  set (k0 := match find_link eqb c2 k with Some l => key l | None => k end) in *.
  split; simpl.
  - apply unique_keys_snoc; [apply unique_keys_filter, Hu|]. simpl.
    unfold without. apply Forall_forall. intros l Hl.
    apply filter_In in Hl. destruct Hl as [_ Hl]. apply negb_true_iff in Hl.
    destruct (eqb (key l) k0) eqn:E0; [|reflexivity].
    rewrite (eqb_trans _ _ _ E0 Ek0) in Hl. discriminate.
  - unfold covered in *; simpl. apply Forall_app. split.
    + eapply covered_intro.
      * eapply incl_Forall; [apply incl_filter | exact Hc].
      * intros l k' _ Hk' E. eapply move_to_end_covers; eassumption.
    + constructor; [|constructor]. simpl. unfold move_to_end.
      rewrite existsb_app. apply orb_true_iff. right. simpl.
      now rewrite eqb_refl.
Qed.

Lemma make_room_keys (P : K -> Prop) (fuel : nat) (c : TTLCache) (time : Z) r c' :
  keys_satisfy P c -> make_room eqb fuel c time = (r, c') -> keys_satisfy P c'.
Proof.
  assert (Hpop : forall (c : TTLCache) r c', keys_satisfy P c ->
                   popitem eqb c time = (r, c') -> keys_satisfy P c').
  { intros c0 r0 c0' H0. unfold popitem.
    assert (H1 : keys_satisfy P (expire eqb c0 time)).
    { unfold keys_satisfy; simpl. eapply incl_Forall; [apply incl_filter | exact H0]. }
    destruct (order (expire eqb c0 time)); intros E; injection E as _ <-; [exact H1|].
    unfold keys_satisfy, delitem, without; simpl.
    eapply incl_Forall; [apply incl_filter | exact H1]. }
  revert c. induction fuel as [|fuel IH]; intros c Hc; simpl;
    destruct (maxsize c <? currsize c + 1).
  - apply Hpop, Hc.
  - intros E; injection E as _ <-; exact Hc.
  - destruct (popitem eqb c time) as [[u|e] c1] eqn:E1.
    + apply IH. eapply Hpop; eassumption.
    + intros E; injection E as _ <-. eapply Hpop; eassumption.
  - intros E; injection E as _ <-; exact Hc.
Qed.

(** An insertion only adds the key it is given (or keeps the equal key that
    is already there). *)
Lemma setitem_keys (P : K -> Prop) (c : TTLCache) (time : Z) (k : K) (v : V) r c' :
  P k -> keys_satisfy P c -> setitem eqb c time k v = (r, c') -> keys_satisfy P c'.
Proof.
  intros Pk Hc. unfold setitem.
  assert (H1 : keys_satisfy P (expire eqb c time)).
  { unfold keys_satisfy; simpl. eapply incl_Forall; [apply incl_filter | exact Hc]. }
  destruct (maxsize (expire eqb c time) <? 1).
  { intros E; injection E as _ <-; exact H1. }
  destruct (if has_key eqb (links (expire eqb c time)) k
            then (Ok tt, expire eqb c time)
            else make_room eqb (List.length (links (expire eqb c time)))
                           (expire eqb c time) time) as [r2 c2] eqn:E2.
  assert (H2 : keys_satisfy P c2).
  { destruct (has_key eqb (links (expire eqb c time)) k).
    - injection E2 as _ <-. exact H1.
    - eapply make_room_keys; eassumption. }
  destruct r2 as [u|e]; intros E; injection E as _ <-; [|exact H2].
  unfold keys_satisfy; simpl. apply Forall_app. split.
  - eapply incl_Forall; [apply incl_filter | exact H2].
  - constructor; [|constructor]. simpl. unfold find_link.
    destruct (find _ (links c2)) as [l|] eqn:Ef; [|exact Pk].
    apply find_some in Ef. unfold keys_satisfy in H2.
    rewrite Forall_forall in H2. apply H2. tauto.
Qed.

(** *** An insertion into a cache of capacity at least one succeeds *)

Lemma filter_all {A} (f : A -> bool) (l : list A) :
  Forall (fun x => f x = true) l -> filter f l = l.
Proof.
  induction 1 as [|x l Hx _ IH]; simpl; [reflexivity|]. now rewrite Hx, IH.
Qed.

Lemma popitem_ok (c : TTLCache) (time : Z) :
  well_formed eqb c -> all_live time c -> links c <> [] ->
  exists c', popitem eqb c time = (Ok tt, c')
             /\ all_live time c' /\ maxsize c' = maxsize c.
Proof.
  intros W Hl Hne. unfold popitem.
  pose proof (expire_well_formed c time W) as [_ Hc1].
  assert (El : links (expire eqb c time) = links c) by (apply filter_all, Hl).
  assert (Ho : order (expire eqb c time) <> []).
  { unfold covered in Hc1. rewrite El in Hc1.
    destruct (links c) as [|l ls]; [congruence|].
    inversion Hc1 as [|? ? Hcov _]; subst.
    destruct (order (expire eqb c time)); [discriminate | congruence]. }
  destruct (order (expire eqb c time)) as [|k o]; [congruence|].
  eexists. split; [reflexivity|]. split; [|reflexivity].
  unfold all_live, delitem, without. cbn [links]. rewrite El.
  eapply incl_Forall; [apply incl_filter | exact Hl].
Qed.

Lemma make_room_ok (fuel : nat) (c : TTLCache) (time : Z) :
  well_formed eqb c -> all_live time c -> 1 <= maxsize c ->
  exists c', make_room eqb fuel c time = (Ok tt, c').
Proof.
  revert c. induction fuel as [|fuel IH]; intros c W Hl Hm; simpl;
    destruct (maxsize c <? currsize c + 1) eqn:Efull; eauto.
  - apply Z.ltb_lt in Efull.
    destruct (popitem_ok c time W Hl) as (c' & -> & _); eauto.
    unfold currsize in Efull. destruct (links c); [simpl in Efull; lia | discriminate].
  - apply Z.ltb_lt in Efull.
    destruct (popitem_ok c time W Hl) as (c' & E & Hl' & Hm').
    { unfold currsize in Efull. destruct (links c); [simpl in Efull; lia | discriminate]. }
    rewrite E. apply IH; [|exact Hl'|lia].
    eapply popitem_well_formed; eassumption.
Qed.

Lemma setitem_maxsize (c : TTLCache) (time : Z) (k : K) (v : V) r c' :
  setitem eqb c time k v = (r, c') -> maxsize c' = maxsize c.
Proof.
  assert (G : forall n (c0 : TTLCache) r0 c2,
             make_room eqb n c0 time = (r0, c2) -> maxsize c2 = maxsize c0).
  { induction n as [|n IH]; intros c0 r0 c2; simpl;
      destruct (maxsize c0 <? currsize c0 + 1).
    - unfold popitem. destruct (order (expire eqb c0 time));
        intros E; injection E as _ <-; reflexivity.
    - intros E; injection E as _ <-; reflexivity.
    - unfold popitem. destruct (order (expire eqb c0 time)).
      + intros E; injection E as _ <-; reflexivity.
      + intros E. apply IH in E. exact E.
    - intros E; injection E as _ <-; reflexivity. }
  unfold setitem. destruct (maxsize (expire eqb c time) <? 1).
  { intros E; injection E as _ <-; reflexivity. }
  destruct (has_key eqb (links (expire eqb c time)) k).
  - intros E; injection E as _ <-; reflexivity.
  - destruct (make_room eqb _ (expire eqb c time) time) as [[u|e] c2] eqn:E2;
      intros E; injection E as _ <-; apply G in E2; exact E2.
Qed.

Lemma setitem_ok (c : TTLCache) (time : Z) (k : K) (v : V) :
  well_formed eqb c -> 1 <= maxsize c ->
  exists c', setitem eqb c time k v = (Ok tt, c') /\ maxsize c' = maxsize c.
Proof.
  intros W Hm.
  assert (G : exists c', setitem eqb c time k v = (Ok tt, c')).
  { unfold setitem.
    pose proof (expire_well_formed c time W) as W1.
    assert (Hl1 : all_live time (expire eqb c time)).
    { unfold all_live; simpl. apply Forall_forall. intros l Hl.
      apply filter_In in Hl. tauto. }
    replace (maxsize (expire eqb c time)) with (maxsize c) by reflexivity.
    destruct (maxsize c <? 1) eqn:E1; [apply Z.ltb_lt in E1; lia|].
    destruct (has_key eqb (links (expire eqb c time)) k).
    - eexists. reflexivity.
    - destruct (make_room_ok (List.length (links (expire eqb c time)))
                             (expire eqb c time) time W1 Hl1 Hm) as (c2 & E2).
      rewrite E2. eexists. reflexivity. }
  destruct G as (c' & E). exists c'. split; [exact E|].
  eapply setitem_maxsize; eassumption.
Qed.
(** *** The loop that makes room *)

Lemma filter_shrinks {A} (f : A -> bool) (l : list A) (x : A) :
  In x l -> f x = false -> (List.length (filter f l) < List.length l)%nat.
Proof.
  induction l as [|y l IH]; simpl; [easy|]. intros [->|Hin] Hx.
  - rewrite Hx. pose proof (filter_length_le f l). lia.
  - specialize (IH Hin Hx). destruct (f y); simpl; lia.
Qed.

Lemma popitem_shrinks (c : TTLCache) (time : Z) c' :
  popitem eqb c time = (Ok tt, c') ->
  (List.length (links c') < List.length (links c))%nat /\ maxsize c' = maxsize c.
Proof.
  unfold popitem. destruct (order (expire eqb c time)) as [|k o] eqn:Eo; [discriminate|].
  intros E. injection E as <-. split; [|reflexivity].
  assert (Hk : In k (order (expire eqb c time))) by (rewrite Eo; now left).
  cbn [expire order] in Hk. apply filter_In in Hk. destruct Hk as [_ Hk].
  unfold has_key in Hk. apply existsb_exists in Hk. destruct Hk as (l & Hl & El).
  cbn [delitem links expire]. unfold without.
  assert (Hs : Nat.lt
                 (List.length (filter (fun l0 => negb (eqb (key l0) k))
                                (filter (fun l0 => time <? expires l0) (links c))))
                 (List.length (filter (fun l0 => time <? expires l0) (links c)))).
  { apply (filter_shrinks _ _ l Hl). now rewrite El. }
  unfold Nat.lt in Hs.
  pose proof (filter_length_le (fun l0 => time <? expires l0) (links c)). lia.
Qed.

Lemma make_room_makes_room (fuel : nat) (c : TTLCache) (time : Z) c' :
  1 <= maxsize c -> (List.length (links c) <= fuel)%nat ->
  make_room eqb fuel c time = (Ok tt, c') ->
  currsize c' + 1 <= maxsize c'.
Proof.
  revert c. induction fuel as [|fuel IH]; intros c Hm Hf; simpl;
    destruct (maxsize c <? currsize c + 1) eqn:Efull.
  - apply Z.ltb_lt in Efull. unfold currsize in Efull. lia.
  - intros E. injection E as <-. apply Z.ltb_ge in Efull. lia.
  - destruct (popitem eqb c time) as [[[]|e] c1] eqn:E1; [|discriminate].
    destruct (popitem_shrinks _ _ _ E1) as [Hs Hm1].
    apply IH; [lia | lia].
  - intros E. injection E as <-. apply Z.ltb_ge in Efull. lia.
Qed.

End CacheFacts.

(* ================================================================== *)
(** * datetime: facts *)
(* ================================================================== *)

Lemma minute_range (dt : datetime) : 0 <= minute dt < 60.
Proof. unfold minute. apply Z.mod_pos_bound. lia. Qed.

Lemma replace_second0_microsecond0_normalized (dt : datetime) :
  second (replace_second0_microsecond0 dt) = 0
  /\ microsecond (replace_second0_microsecond0 dt) = 0.
Proof.
  unfold replace_second0_microsecond0, second, microsecond.
  split; Z.div_mod_to_equations; lia.
Qed.

(** Replacing the minute and the second leaves the microseconds alone. *)
Lemma replace_minute_second_microsecond (dt : datetime) (m s : Z) dt' :
  replace_minute_second dt m s = Ok dt' -> microsecond dt' = microsecond dt.
Proof.
  unfold replace_minute_second.
  destruct ((0 <=? m) && (m <? 60) && (0 <=? s) && (s <? 60)); [|discriminate].
  intros E. injection E as <-. unfold microsecond.
  Z.div_mod_to_equations; lia.
Qed.

(* ================================================================== *)
(** * The prediction cache: facts *)
(* ================================================================== *)

Lemma prediction_key_eqb_refl (k : prediction_key) : prediction_key_eqb k k = true.
Proof.
  destruct k as [[d c] x]. simpl. now rewrite Z.eqb_refl, !py_eqb_refl.
Qed.

Lemma prediction_key_eqb_trans (k1 k2 k3 : prediction_key) :
  prediction_key_eqb k1 k2 = true -> prediction_key_eqb k2 k3 = true ->
  prediction_key_eqb k1 k3 = true.
Proof.
  destruct k1 as [[d1 c1] x1], k2 as [[d2 c2] x2], k3 as [[d3 c3] x3]. simpl.
  rewrite !andb_true_iff, !Z.eqb_eq. intros [[-> Hc] Hx] [[-> Hc'] Hx'].
  repeat split; eauto using py_eqb_trans.
Qed.

Lemma statistic_key_eqb_refl (k : statistic_key) : statistic_key_eqb k k = true.
Proof.
  destruct k as [[[[f t] c] x] m]. simpl. now rewrite !Z.eqb_refl, !py_eqb_refl.
Qed.

Lemma statistic_key_eqb_trans (k1 k2 k3 : statistic_key) :
  statistic_key_eqb k1 k2 = true -> statistic_key_eqb k2 k3 = true ->
  statistic_key_eqb k1 k3 = true.
Proof.
  destruct k1 as [[[[f1 t1] c1] x1] m1], k2 as [[[[f2 t2] c2] x2] m2],
           k3 as [[[[f3 t3] c3] x3] m3]. simpl.
  rewrite !andb_true_iff, !Z.eqb_eq.
  intros [[[[-> ->] Hc] Hx] Hm] [[[[-> ->] Hc'] Hx'] Hm'].
  repeat split; eauto using py_eqb_trans.
Qed.

(** ** The invariant along the methods *)

Lemma preserves_query_predictions (a b : datetime) :
  preserves cache_ok (query_predictions a b).
Proof. intros s r s' Hs E. injection E as _ <-. exact Hs. Qed.

Lemma preserves_query_statistics (d : datetime) :
  preserves cache_ok (query_statistics d).
Proof. intros s r s' Hs E. injection E as _ <-. exact Hs. Qed.

Lemma preserves_query_coefficients : preserves cache_ok query_coefficients.
Proof. intros s r s' Hs E. injection E as _ <-. exact Hs. Qed.

Lemma preserves__get_nearest_date (dt : datetime) :
  preserves cache_ok (_get_nearest_date dt).
Proof. intros s r s' Hs E. injection E as _ <-. exact Hs. Qed.

Lemma preserves_predictions_get (k : prediction_key) :
  preserves cache_ok (predictions_get k).
Proof.
  intros s r s' (Wp & Ws & Wc & Hn) E. unfold predictions_get in E.
  destruct k as [[d c] x]. destruct (hashable c && hashable x).
  - destruct (cachetools.get _ _ _ _) as [r1 c1] eqn:E1. injection E as _ <-.
    split; [|split; [|split]]; try assumption; simpl.
    + eapply get_well_formed; eauto using prediction_key_eqb_trans.
    + unfold keys_satisfy. apply get_links in E1. destruct E1 as [-> _]. exact Hn.
  - injection E as _ <-. split; [|split; [|split]]; assumption.
Qed.

Lemma preserves_predictions_set (k : prediction_key) (v : dict) :
  normalized k -> preserves cache_ok (predictions_set k v).
Proof.
  intros Hk s r s' (Wp & Ws & Wc & Hn) E. unfold predictions_set in E.
  destruct (cachetools.setitem _ _ _ _ _) as [r1 c1] eqn:E1. injection E as _ <-.
  split; [|split; [|split]]; try assumption; simpl.
  - eapply setitem_well_formed;
      eauto using prediction_key_eqb_trans, prediction_key_eqb_refl.
  - eapply setitem_keys; eassumption.
Qed.

Lemma preserves_statistics_iter : preserves cache_ok statistics_iter.
Proof. intros s r s' Hs E. injection E as _ <-. exact Hs. Qed.

Lemma preserves_statistics_getitem (k : statistic_key) :
  preserves cache_ok (statistics_getitem k).
Proof.
  intros s r s' (Wp & Ws & Wc & Hn) E. unfold statistics_getitem in E.
  destruct (cachetools.getitem _ _ _ _) as [r1 c1] eqn:E1. injection E as _ <-.
  split; [|split; [|split]]; try assumption; simpl.
  eapply getitem_well_formed; eauto using statistic_key_eqb_trans.
Qed.

Lemma preserves_statistics_set (k : statistic_key) (v : dict) :
  preserves cache_ok (statistics_set k v).
Proof.
  intros s r s' (Wp & Ws & Wc & Hn) E. unfold statistics_set in E.
  destruct (cachetools.setitem _ _ _ _ _) as [r1 c1] eqn:E1. injection E as _ <-.
  split; [|split; [|split]]; try assumption; simpl.
  eapply setitem_well_formed;
    eauto using statistic_key_eqb_trans, statistic_key_eqb_refl.
Qed.

Lemma preserves_coefficients_get (k : pyval) :
  preserves cache_ok (coefficients_get k).
Proof.
  intros s r s' (Wp & Ws & Wc & Hn) E. unfold coefficients_get in E.
  destruct (hashable k).
  - destruct (cachetools.get _ _ _ _) as [r1 c1] eqn:E1. injection E as _ <-.
    split; [|split; [|split]]; try assumption; simpl.
    eapply get_well_formed; eauto using py_eqb_trans.
  - injection E as _ <-. split; [|split; [|split]]; assumption.
Qed.

Lemma preserves_coefficients_set (k : pyval) (v : dict) :
  preserves cache_ok (coefficients_set k v).
Proof.
  intros s r s' (Wp & Ws & Wc & Hn) E. unfold coefficients_set in E.
  destruct (cachetools.setitem _ _ _ _ _) as [r1 c1] eqn:E1. injection E as _ <-.
  split; [|split; [|split]]; try assumption; simpl.
  eapply setitem_well_formed; eauto using py_eqb_trans, py_eqb_refl.
Qed.

#[local] Hint Resolve preserves_query_predictions preserves_query_statistics
  preserves_query_coefficients preserves__get_nearest_date
  preserves_predictions_get preserves_statistics_iter
  preserves_statistics_getitem preserves_statistics_set
  preserves_coefficients_get preserves_coefficients_set : preserves.

Lemma preserves__get_predictions_from_db (a b : datetime) :
  preserves cache_ok (_get_predictions_from_db a b).
Proof.
  apply preserves_bind; [auto with preserves|]. intros rows.
  apply preserves_for_each. intros row _. apply preserves_predictions_set.
  apply replace_second0_microsecond0_normalized.
Qed.

Lemma preserves__get_statistics_from_db (d : datetime) :
  preserves cache_ok (_get_statistics_from_db d).
Proof.
  apply preserves_bind; [auto with preserves|]. intros rows.
  apply preserves_for_each. intros row _. auto with preserves.
Qed.

Lemma preserves__get_coefficients_from_db :
  preserves cache_ok _get_coefficients_from_db.
Proof.
  apply preserves_bind; [auto with preserves|]. intros rows.
  apply preserves_for_each. intros row _. auto with preserves.
Qed.

#[local] Hint Resolve preserves__get_predictions_from_db
  preserves__get_statistics_from_db preserves__get_coefficients_from_db : preserves.

Lemma preserves_get_prediction (date : datetime) (chat_id delta : pyval) :
  preserves cache_ok (get_prediction date chat_id delta).
Proof.
  unfold get_prediction.
  apply preserves_bind; [auto with preserves|]. intros d.
  apply preserves_bind; [auto with preserves|]. intros [p|]; [auto with preserves|].
  apply preserves_bind; [auto with preserves|]. intros w.
  apply preserves_bind; auto with preserves.
Qed.

Lemma preserves_get_latest_statistics (date : datetime) (chat_id delta metric : pyval) :
  preserves cache_ok (get_latest_statistics date chat_id delta metric).
Proof.
  unfold get_latest_statistics.
  apply preserves_bind; [auto with preserves|]. intros keys.
  apply preserves_bind.
  - apply preserves_for_fold. intros rows row _.
    destruct (row_matches date chat_id delta metric row); [|auto with preserves].
    apply preserves_bind; auto with preserves.
  - intros rows. destruct (0 <? Z.of_nat (List.length rows)); auto with preserves.
Qed.

Lemma preserves_get_statistics (date : datetime) (chat_id delta metric : pyval) :
  preserves cache_ok (get_statistics date chat_id delta metric).
Proof.
  unfold get_statistics.
  apply preserves_bind; [apply preserves_get_latest_statistics|].
  intros [p|]; [auto with preserves|].
  apply preserves_bind; [auto with preserves|]. intros _.
  apply preserves_get_latest_statistics.
Qed.

Lemma preserves_get_coefficients (chat_id : pyval) :
  preserves cache_ok (get_coefficients chat_id).
Proof.
  unfold get_coefficients.
  apply preserves_bind; [auto with preserves|]. intros [p|]; [auto with preserves|].
  apply preserves_bind; auto with preserves.
Qed.

(** Every state of a cache object satisfies the invariant. *)
Lemma reachable_cache_ok (self : TelegramPredictionCache) :
  reachable self -> cache_ok self.
Proof.
  induction 1 as [db step bs bu br ss su sr now timer self E
                 | db elapsed self _ _ IH
                 | date chat_id delta self r self' _ IH E
                 | date chat_id delta metric self r self' _ IH E
                 | chat_id self r self' _ IH E].
  - unfold __init__ in E. revert E.
    match goal with |- ?c ?s = _ -> _ =>
      assert (P : preserves cache_ok c); [|apply P] end.
    + apply preserves_bind; [auto with preserves|]. intros _.
      apply preserves_bind; auto with preserves.
    + repeat split; simpl; constructor.
  - exact IH.
  - eapply preserves_get_prediction; eassumption.
  - eapply preserves_get_statistics; eassumption.
  - eapply preserves_get_coefficients; eassumption.
Qed.

(** ** Lookups and refills of the predictions cache *)

Lemma with_predictions_same (self : TelegramPredictionCache) :
  with_predictions self (_predictions self) = self.
Proof. destruct self; reflexivity. Qed.

(** A key that kept its microseconds equals no key of the cache. *)
Lemma predictions_get_miss (s : TelegramPredictionCache) (d : datetime) (c x : pyval) :
  cache_ok s -> microsecond d <> 0 ->
  predictions_get (d, c, x) s
  = (if hashable c && hashable x then Ok None else Raise TypeError, s).
Proof.
  intros (_ & _ & _ & Hn) Hd. unfold predictions_get.
  destruct (hashable c && hashable x); [|reflexivity].
  rewrite get_none; [now rewrite with_predictions_same|].
  unfold keys_satisfy in Hn. rewrite Forall_forall in *. intros l Hl.
  destruct (Hn l Hl) as [_ Hus]. destruct (cachetools.key l) as [[d' c'] x'].
  simpl in *. destruct (d' =? d) eqn:E; [|reflexivity].
  apply Z.eqb_eq in E. congruence.
Qed.

Lemma predictions_set_ok (s : TelegramPredictionCache) (k : prediction_key) (v : dict) :
  cache_ok s -> 1 <= cachetools.maxsize (_predictions s) ->
  exists s', predictions_set k v s = (Ok tt, s')
             /\ cachetools.maxsize (_predictions s') = cachetools.maxsize (_predictions s).
Proof.
  intros (Wp & _) Hm. unfold predictions_set.
  destruct (setitem_ok prediction_key_eqb prediction_key_eqb_trans
              (_predictions s) (timer s) k v Wp Hm)
    as (c' & -> & Hm').
  eexists. split; [reflexivity | exact Hm'].
Qed.

Lemma _get_predictions_from_db_ok (s : TelegramPredictionCache) (a b : datetime) :
  cache_ok s -> 1 <= cachetools.maxsize (_predictions s) ->
  exists s', _get_predictions_from_db a b s = (Ok tt, s').
Proof.
  intros Hs Hm. unfold _get_predictions_from_db, bind at 1.
  unfold query_predictions at 1. cbv beta iota.
  set (rows := filter _ _). set (s1 := with_query s _).
  assert (Hs1 : cache_ok s1) by exact Hs.
  assert (Hm1 : 1 <= cachetools.maxsize (_predictions s1)) by exact Hm.
  clearbody s1. clear Hs Hm. revert s1 Hs1 Hm1. generalize rows. clear rows.
  induction rows as [|row rows IH]; intros s1 Hs1 Hm1; simpl.
  - eexists; reflexivity.
  - unfold bind.
    destruct (predictions_set_ok s1
                (replace_second0_microsecond0 (p_date row), p_chat_id row, p_delta row)
                (p_columns row) Hs1 Hm1) as (s2 & E & Hm2).
    rewrite E. apply IH; [|lia].
    eapply preserves_predictions_set; [|exact Hs1|exact E].
    apply replace_second0_microsecond0_normalized.
Qed.

Lemma _get_nearest_date_ok (s : TelegramPredictionCache) (dt : datetime) :
  0 < _prediction_step s ->
  exists dt', _get_nearest_date dt s = (Ok dt', s)
              /\ microsecond dt' = microsecond dt.
Proof.
  intros Hstep. unfold _get_nearest_date, py_mod.
  destruct (_prediction_step s =? 0) eqn:E0; [apply Z.eqb_eq in E0; lia|].
  simpl. unfold replace_minute_second at 1.
  pose proof (minute_range dt) as Hm.
  pose proof (Z.mod_pos_bound (minute dt) (_prediction_step s) Hstep) as Hb.
  assert (Hle : minute dt mod _prediction_step s <= minute dt)
    by (apply Z.mod_le; lia).
  replace ((0 <=? minute dt - minute dt mod _prediction_step s)
           && (minute dt - minute dt mod _prediction_step s <? 60)
           && (0 <=? 0) && (0 <? 60)) with true.
  - eexists. split; [reflexivity|]. unfold microsecond.
    Z.div_mod_to_equations; lia.
  - symmetry. rewrite !andb_true_iff, !Z.leb_le, !Z.ltb_lt. lia.
Qed.

Lemma get_prediction_with_microseconds
    (self : TelegramPredictionCache) (date : datetime) (chat_id delta : pyval) r self' :
  cache_ok self -> microsecond date <> 0 ->
  get_prediction date chat_id delta self = (r, self') ->
  (forall prediction, r <> Ok (Some prediction))
  /\ (0 < _prediction_step self -> hashable chat_id = true -> hashable delta = true ->
      1 <= cachetools.maxsize (_predictions self) -> r = Ok None).
Proof.
  intros Hs Hus E. unfold get_prediction in E. unfold bind at 1 in E.
  destruct (_get_nearest_date date self) as [[d|e] s1] eqn:E1.
  2:{ injection E as <- _. split; [discriminate|]. intros Hstep _ _ _.
      destruct (_get_nearest_date_ok self date Hstep) as (d & E2 & _). congruence. }
  assert (s1 = self) by (unfold _get_nearest_date in E1; now injection E1). subst s1.
  assert (Hd : microsecond d <> 0).
  { unfold _get_nearest_date in E1. injection E1 as E1.
    destruct (py_mod (minute date) (_prediction_step self)) as [m|]; [|discriminate].
    simpl in E1. apply replace_minute_second_microsecond in E1. congruence. }
  unfold bind at 1 in E. rewrite (predictions_get_miss _ _ _ _ Hs Hd) in E.
  destruct (hashable chat_id && hashable delta) eqn:Eh.
  2:{ injection E as <- _. split; [discriminate|]. intros _ Hc Hx _.
      rewrite Hc, Hx in Eh. discriminate. }
  unfold bind at 1, gets at 1 in E. unfold bind at 1 in E.
  destruct (_get_predictions_from_db _ _ self) as [[u|e] s2] eqn:E2.
  - assert (Hs2 : cache_ok s2) by (eapply preserves__get_predictions_from_db; eassumption).
    rewrite (predictions_get_miss _ _ _ _ Hs2 Hd), Eh in E.
    injection E as <- _. split; [discriminate | reflexivity].
  - injection E as <- _. split; [discriminate|]. intros _ _ _ Hm.
    destruct (_get_predictions_from_db_ok self
                (d - cache_big_update_window self) (d + cache_big_update_window self)
                Hs Hm) as (s3 & E3).
    congruence.
Qed.

(** C10: a call [get_prediction(date, chat_id, delta)] whose [date] carries
    microseconds builds a lookup key that keeps them (the normalisation only
    rounds the minutes down and zeroes the seconds), while every key of the
    predictions cache has zero seconds and microseconds; so the call never
    returns a prediction, whatever rows the database holds, and it returns
    [None] whenever the step is positive, the arguments are hashable and the
    cache has room for one item. *)
Theorem C10_microsecond_lookup_is_absent :
  forall (self : TelegramPredictionCache) (date : datetime) (chat_id delta : pyval)
         r self',
    reachable self ->
    microsecond date <> 0 ->
    get_prediction date chat_id delta self = (r, self') ->
    (forall key_date, fst (_get_nearest_date date self) = Ok key_date ->
       microsecond key_date = microsecond date /\ second key_date = 0)
    /\ keys_satisfy normalized (_predictions self)
    /\ keys_satisfy normalized (_predictions self')
    /\ (forall prediction, r <> Ok (Some prediction))
    /\ (0 < _prediction_step self -> hashable chat_id = true -> hashable delta = true ->
        1 <= cachetools.maxsize (_predictions self) -> r = Ok None).
Proof.
  intros self date chat_id delta r self' Hreach Hus E.
  pose proof (reachable_cache_ok self Hreach) as Hs.
  split; [|split; [|split]].
  - intros key_date Ek. unfold _get_nearest_date in Ek. simpl in Ek.
    destruct (py_mod (minute date) (_prediction_step self)) as [m|]; [|discriminate].
    simpl in Ek. split; [eapply replace_minute_second_microsecond; eassumption|].
    unfold replace_minute_second in Ek.
    destruct ((0 <=? minute date - m) && (minute date - m <? 60)
              && (0 <=? 0) && (0 <? 60)); [|discriminate].
    injection Ek as <-. unfold second, minute.
    Z.div_mod_to_equations; lia.
  - apply Hs.
  - apply (preserves_get_prediction date chat_id delta self r self' Hs E).
  - eapply get_prediction_with_microseconds; eassumption.
Qed.

Lemma prediction_found_without_microseconds :
  fst (get_prediction (sample.bucket + 30000000) (PInt 7) (PInt 60) sample.cache)
  = Ok (Some [("views", PInt 100); ("views_upper", PInt 150)]).
Proof. vm_compute. reflexivity. Qed.

Lemma sample_cache_reachable : reachable sample.cache.
Proof.
  apply (reach_init sample.db 5 500000 one_hour one_hour 10000 one_hour one_hour
           sample.bucket 0).
  vm_compute. reflexivity.
Qed.

(** ** The queries a call issues *)

Ltac issues_nothing :=
  let s := fresh "s" in let r := fresh "r" in let s' := fresh "s'" in
  let E := fresh "E" in
  intros s r s' E; exists []; rewrite app_nil_r; split; [|simpl; lia];
  revert E.

Lemma issues__get_nearest_date (dt : datetime) : issues 0 (_get_nearest_date dt).
Proof. issues_nothing. unfold _get_nearest_date. intros E. now injection E as _ <-. Qed.

Lemma issues_predictions_get (k : prediction_key) : issues 0 (predictions_get k).
Proof.
  issues_nothing. unfold predictions_get. destruct k as [[d c] x].
  destruct (hashable c && hashable x); [destruct (cachetools.get _ _ _ _)|];
    intros E; now injection E as _ <-.
Qed.

Lemma issues_predictions_set (k : prediction_key) (v : dict) :
  issues 0 (predictions_set k v).
Proof.
  issues_nothing. unfold predictions_set. destruct (cachetools.setitem _ _ _ _ _).
  intros E; now injection E as _ <-.
Qed.

Lemma issues_statistics_iter : issues 0 statistics_iter.
Proof. issues_nothing. unfold statistics_iter. intros E. now injection E as _ <-. Qed.

Lemma issues_statistics_getitem (k : statistic_key) : issues 0 (statistics_getitem k).
Proof.
  issues_nothing. unfold statistics_getitem. destruct (cachetools.getitem _ _ _ _).
  intros E; now injection E as _ <-.
Qed.

Lemma issues_statistics_set (k : statistic_key) (v : dict) :
  issues 0 (statistics_set k v).
Proof.
  issues_nothing. unfold statistics_set. destruct (cachetools.setitem _ _ _ _ _).
  intros E; now injection E as _ <-.
Qed.

Lemma issues_coefficients_get (k : pyval) : issues 0 (coefficients_get k).
Proof.
  issues_nothing. unfold coefficients_get.
  destruct (hashable k); [destruct (cachetools.get _ _ _ _)|];
    intros E; now injection E as _ <-.
Qed.

Lemma issues_coefficients_set (k : pyval) (v : dict) : issues 0 (coefficients_set k v).
Proof.
  issues_nothing. unfold coefficients_set. destruct (cachetools.setitem _ _ _ _ _).
  intros E; now injection E as _ <-.
Qed.

Lemma issues_nothing_queries {A} (c : Cache A) s r s' :
  issues 0 c -> c s = (r, s') -> queries s' = queries s.
Proof.
  intros Hc E. destruct (Hc s r s' E) as (qs & -> & Hl).
  destruct qs; [apply app_nil_r | simpl in Hl; lia].
Qed.

(** A refill is one query, whatever the rows it then stores. *)
Lemma _get_predictions_from_db_queries (a b : datetime) s r s' :
  _get_predictions_from_db a b s = (r, s') ->
  queries s' = queries s ++ [QueryPredictions a b].
Proof.
  unfold _get_predictions_from_db, bind at 1, query_predictions at 1.
  intros E. eapply issues_nothing_queries in E; [exact E|].
  apply issues_for_each. intros row. apply issues_predictions_set.
Qed.

Lemma _get_statistics_from_db_queries (d : datetime) s r s' :
  _get_statistics_from_db d s = (r, s') ->
  queries s' = queries s ++ [QueryStatistics d].
Proof.
  unfold _get_statistics_from_db, bind at 1, query_statistics at 1.
  intros E. eapply issues_nothing_queries in E; [exact E|].
  apply issues_for_each. intros row. apply issues_statistics_set.
Qed.

Lemma _get_coefficients_from_db_queries s r s' :
  _get_coefficients_from_db s = (r, s') ->
  queries s' = queries s ++ [QueryCoefficients].
Proof.
  unfold _get_coefficients_from_db, bind at 1, query_coefficients at 1.
  intros E. eapply issues_nothing_queries in E; [exact E|].
  apply issues_for_each. intros row. apply issues_coefficients_set.
Qed.

Lemma issues_refill {A} (c : Cache A) (q : Query) :
  (forall s r s', c s = (r, s') -> queries s' = queries s ++ [q]) -> issues 1 c.
Proof. intros Hc s r s' E. exists [q]. split; [eauto | simpl; lia]. Qed.

Lemma issues_get_latest_statistics (date : datetime) (chat_id delta metric : pyval) :
  issues 0 (get_latest_statistics date chat_id delta metric).
Proof.
  unfold get_latest_statistics.
  apply (issues_bind 0 0); [apply issues_statistics_iter|]. intros keys.
  apply (issues_bind 0 0).
  - apply issues_for_fold. intros rows row.
    destruct (row_matches date chat_id delta metric row); [|apply issues_ret].
    apply (issues_bind 0 0); [apply issues_statistics_getitem|].
    intros v. apply issues_ret.
  - intros rows. destruct (0 <? Z.of_nat (List.length rows)); apply issues_ret.
Qed.

Lemma issues_get_prediction (date : datetime) (chat_id delta : pyval) :
  issues 1 (get_prediction date chat_id delta).
Proof.
  unfold get_prediction.
  apply (issues_bind 0 1); [apply issues__get_nearest_date|]. intros d.
  apply (issues_bind 0 1); [apply issues_predictions_get|].
  intros [p|]; [apply issues_weaken with 0%nat; [lia | apply issues_ret]|].
  apply (issues_bind 0 1); [apply issues_gets|]. intros w.
  apply (issues_bind 1 0); [|intros _; apply issues_predictions_get].
  eapply issues_refill. intros s r s'. apply _get_predictions_from_db_queries.
Qed.

Lemma issues_get_statistics (date : datetime) (chat_id delta metric : pyval) :
  issues 1 (get_statistics date chat_id delta metric).
Proof.
  unfold get_statistics.
  apply (issues_bind 0 1); [apply issues_get_latest_statistics|].
  intros [p|]; [apply issues_weaken with 0%nat; [lia | apply issues_ret]|].
  apply (issues_bind 1 0); [|intros _; apply issues_get_latest_statistics].
  eapply issues_refill. intros s r s'. apply _get_statistics_from_db_queries.
Qed.

Lemma issues_get_coefficients (chat_id : pyval) :
  issues 1 (get_coefficients chat_id).
Proof.
  unfold get_coefficients.
  apply (issues_bind 0 1); [apply issues_coefficients_get|].
  intros [p|]; [apply issues_weaken with 0%nat; [lia | apply issues_ret]|].
  apply (issues_bind 1 0); [|intros _; apply issues_coefficients_get].
  eapply issues_refill. intros s r s'. apply _get_coefficients_from_db_queries.
Qed.

(** C4: one call of [get_prediction], [get_statistics] or [get_coefficients]
    issues at most one query on the database; and when the first lookup
    misses, the refill runs and the second lookup misses again, the call
    returns [None] having issued exactly that one query. *)
Theorem C4_at_most_one_refill_per_call :
  forall (self : TelegramPredictionCache),
    (forall date chat_id delta r self',
        get_prediction date chat_id delta self = (r, self') ->
        exists qs, queries self' = queries self ++ qs /\ (List.length qs <= 1)%nat)
    /\ (forall date chat_id delta metric r self',
        get_statistics date chat_id delta metric self = (r, self') ->
        exists qs, queries self' = queries self ++ qs /\ (List.length qs <= 1)%nat)
    /\ (forall chat_id r self',
        get_coefficients chat_id self = (r, self') ->
        exists qs, queries self' = queries self ++ qs /\ (List.length qs <= 1)%nat)
    /\ (forall date chat_id delta key_date s1 s2 s3,
        _get_nearest_date date self = (Ok key_date, self) ->
        predictions_get (key_date, chat_id, delta) self = (Ok None, s1) ->
        _get_predictions_from_db (key_date - cache_big_update_window s1)
                                 (key_date + cache_big_update_window s1) s1
          = (Ok tt, s2) ->
        predictions_get (key_date, chat_id, delta) s2 = (Ok None, s3) ->
        get_prediction date chat_id delta self = (Ok None, s3)
        /\ queries s3
           = queries self ++ [QueryPredictions (key_date - cache_big_update_window s1)
                                               (key_date + cache_big_update_window s1)])
    /\ (forall date chat_id delta metric s1 s2 s3,
        get_latest_statistics date chat_id delta metric self = (Ok None, s1) ->
        _get_statistics_from_db date s1 = (Ok tt, s2) ->
        get_latest_statistics date chat_id delta metric s2 = (Ok None, s3) ->
        get_statistics date chat_id delta metric self = (Ok None, s3)
        /\ queries s3 = queries self ++ [QueryStatistics date])
    /\ (forall chat_id s1 s2 s3,
        coefficients_get chat_id self = (Ok None, s1) ->
        _get_coefficients_from_db s1 = (Ok tt, s2) ->
        coefficients_get chat_id s2 = (Ok None, s3) ->
        get_coefficients chat_id self = (Ok None, s3)
        /\ queries s3 = queries self ++ [QueryCoefficients]).
Proof.
  intros self. split; [|split; [|split; [|split; [|split]]]].
  - intros date chat_id delta r self' E. eapply issues_get_prediction; eassumption.
  - intros date chat_id delta metric r self' E.
    eapply issues_get_statistics; eassumption.
  - intros chat_id r self' E. eapply issues_get_coefficients; eassumption.
  - intros date chat_id delta key_date s1 s2 s3 Hdate Hmiss Hrefill Hmiss'. split.
    + unfold get_prediction, bind. rewrite Hdate, Hmiss. unfold gets.
      rewrite Hrefill. exact Hmiss'.
    + apply (issues_nothing_queries _ _ _ _ (issues_predictions_get _)) in Hmiss, Hmiss'.
      apply _get_predictions_from_db_queries in Hrefill. congruence.
  - intros date chat_id delta metric s1 s2 s3 Hmiss Hrefill Hmiss'. split.
    + unfold get_statistics, bind. rewrite Hmiss, Hrefill. exact Hmiss'.
    + apply (issues_nothing_queries _ _ _ _ (issues_get_latest_statistics _ _ _ _))
        in Hmiss, Hmiss'.
      apply _get_statistics_from_db_queries in Hrefill. congruence.
  - intros chat_id s1 s2 s3 Hmiss Hrefill Hmiss'. split.
    + unfold get_coefficients, bind. rewrite Hmiss, Hrefill. exact Hmiss'.
    + apply (issues_nothing_queries _ _ _ _ (issues_coefficients_get _)) in Hmiss, Hmiss'.
      apply _get_coefficients_from_db_queries in Hrefill. congruence.
Qed.

(* ================================================================== *)
(** * [sorted]: facts *)
(* ================================================================== *)

Section SortedFacts.
Context {A : Type}.
Variable ltb : A -> A -> bool.
Variable le : A -> A -> Prop.
Hypothesis ltb_le : forall x y, ltb x y = true -> le x y.
Hypothesis not_ltb_le : forall x y, ltb y x = false -> le x y.
Hypothesis le_trans : forall x y z, le x y -> le y z -> le x z.

Lemma insert_sorted_perm (x : A) (l : list A) :
  Permutation (insert_sorted ltb x l) (x :: l).
Proof.
  induction l as [|y l IH]; simpl; [reflexivity|].
  destruct (ltb y x); [|reflexivity].
  rewrite IH. apply perm_swap.
Qed.

Lemma sorted_perm (l : list A) : Permutation (sorted ltb l) l.
Proof.
  induction l as [|x l IH]; simpl; [reflexivity|].
  rewrite insert_sorted_perm. now constructor.
Qed.

Lemma insert_sorted_sorted (x : A) (l : list A) :
  StronglySorted le l -> StronglySorted le (insert_sorted ltb x l).
Proof.
  induction 1 as [|y l Hs IH Hy]; simpl.
  - repeat constructor.
  - destruct (ltb y x) eqn:E.
    + constructor; [exact IH|].
      eapply Permutation_Forall; [symmetry; apply insert_sorted_perm|].
      constructor; [apply ltb_le, E | exact Hy].
    + constructor; [constructor; assumption|].
      constructor; [apply not_ltb_le, E|].
      eapply Forall_impl; [|exact Hy]. intros z Hz.
      eapply le_trans; [apply not_ltb_le, E | exact Hz].
Qed.

Lemma sorted_sorted (l : list A) : StronglySorted le (sorted ltb l).
Proof.
  induction l as [|x l IH]; simpl; [constructor|].
  apply insert_sorted_sorted, IH.
Qed.

Lemma sorted_length (l : list A) : List.length (sorted ltb l) = List.length l.
Proof. apply Permutation_length, sorted_perm. Qed.

(** The last element of a sorted list is a greatest one. *)
Lemma last_greatest (l : list A) (d : A) :
  (forall x, le x x) -> StronglySorted le l ->
  forall x, In x l -> le x (last l d).
Proof.
  intros le_refl. induction 1 as [|y l Hs IH Hy]; [easy|].
  intros x [<-|Hx].
  - destruct l as [|z l]; [apply le_refl|].
    eapply le_trans; [|apply IH; now left].
    inversion Hy; assumption.
  - destruct l as [|z l]; [easy|]. apply IH, Hx.
Qed.

Lemma last_in (l : list A) (d : A) : l <> [] -> In (last l d) l.
Proof.
  induction l as [|x l IH]; [congruence|]. intros _.
  destruct l as [|y l]; [now left|]. right. apply IH. discriminate.
Qed.

(** Stability: the elements selected by a test that smaller elements never
    pass keep their order. *)
Lemma insert_sorted_filter (p : A -> bool) (x : A) (l : list A) :
  (forall y, p x = true -> ltb y x = true -> p y = false) ->
  filter p (insert_sorted ltb x l) = filter p (x :: l).
Proof.
  intros Hp. induction l as [|y l IH]; simpl; [reflexivity|].
  destruct (ltb y x) eqn:E; [|reflexivity]. simpl. rewrite IH. simpl.
  destruct (p x) eqn:Px; [|reflexivity]. now rewrite (Hp y eq_refl E).
Qed.

Lemma sorted_filter (p : A -> bool) (l : list A) :
  (forall x y, p x = true -> ltb y x = true -> p y = false) ->
  filter p (sorted ltb l) = filter p l.
Proof.
  intros Hp. induction l as [|x l IH]; simpl; [reflexivity|].
  rewrite insert_sorted_filter by (apply Hp). simpl. now rewrite IH.
Qed.
End SortedFacts.

(* ================================================================== *)
(** * The scan of the statistics cache *)
(* ================================================================== *)

Lemma row_matches_qualifies (date : datetime) (chat_id delta metric : pyval)
    (k : statistic_key) :
  row_matches date chat_id delta metric k = true
  <-> qualifies date chat_id delta metric k.
Proof.
  destruct k as [[[[f t] c] x] m]. unfold row_matches, qualifies, window_start, window_end.
  simpl. rewrite !andb_true_iff, !Z.ltb_lt. tauto.
Qed.

Lemma rows_set_in (rows : list (datetime * dict)) (k : datetime) (v : dict) k' v' :
  In (k', v') (rows_set rows k v) -> (k' = k /\ v' = v) \/ In (k', v') rows.
Proof.
  induction rows as [|[k0 v0] rows IH]; simpl.
  - intros [E|[]]. injection E as <- <-. now left.
  - destruct (k0 =? k) eqn:E0.
    + apply Z.eqb_eq in E0. subst k0. intros [E|Hin].
      * injection E as <- <-. now left.
      * right. now right.
    + intros [E|Hin]; [right; now left|].
      destruct (IH Hin) as [H|H]; [now left | right; now right].
Qed.

Lemma rows_set_key (rows : list (datetime * dict)) (k : datetime) (v : dict) :
  In k (map fst (rows_set rows k v)).
Proof.
  induction rows as [|[k0 v0] rows IH]; simpl; [now left|].
  destruct (k0 =? k) eqn:E0; simpl.
  - apply Z.eqb_eq in E0. now left.
  - now right.
Qed.

Lemma rows_set_keeps (rows : list (datetime * dict)) (k : datetime) (v : dict) k' :
  In k' (map fst rows) -> In k' (map fst (rows_set rows k v)).
Proof.
  induction rows as [|[k0 v0] rows IH]; simpl; [easy|].
  destruct (k0 =? k); simpl; intros [E|Hin]; auto.
Qed.

Section Collect.
Variables (date : datetime) (chat_id delta metric : pyval).

Lemma collect_rows_in ls rows k v :
  In (k, v) (collect_rows date chat_id delta metric ls rows) ->
  In (k, v) rows
  \/ exists l, In l ls
       /\ row_matches date chat_id delta metric (cachetools.key l) = true
       /\ window_end (cachetools.key l) = k /\ cachetools.value l = v.
Proof.
  revert rows. induction ls as [|l ls IH]; intros rows; simpl; [now left|].
  intros Hin. apply IH in Hin. destruct Hin as [Hin|(l' & Hl' & H)].
  - destruct (row_matches date chat_id delta metric (cachetools.key l)) eqn:E.
    + apply rows_set_in in Hin. destruct Hin as [[-> ->]|Hin]; [|now left].
      right. exists l. repeat split; auto.
    + now left.
  - right. exists l'. split; [now right | exact H].
Qed.

Lemma collect_rows_keeps ls rows k :
  In k (map fst rows) ->
  In k (map fst (collect_rows date chat_id delta metric ls rows)).
Proof.
  revert rows. induction ls as [|l ls IH]; intros rows Hk; simpl; [exact Hk|].
  apply IH. destruct (row_matches _ _ _ _ _); [apply rows_set_keeps|]; exact Hk.
Qed.

Lemma collect_rows_key ls rows l :
  In l ls -> row_matches date chat_id delta metric (cachetools.key l) = true ->
  In (window_end (cachetools.key l))
     (map fst (collect_rows date chat_id delta metric ls rows)).
Proof.
  revert rows. induction ls as [|l0 ls IH]; intros rows Hin Hm; [destruct Hin|].
  simpl. destruct Hin as [->|Hin].
  - rewrite Hm. apply collect_rows_keeps, rows_set_key.
  - now apply IH.
Qed.

(** The loop of the scan computes [collect_rows] and touches neither the
    links nor the timer. *)
Lemma scan_loop (ls : list (cachetools.Link statistic_key dict))
    (rows : list (datetime * dict)) (s : TelegramPredictionCache) :
  unique_keys statistic_key_eqb (cachetools.links (_statistics s)) ->
  (forall l, In l ls -> In l (visible s)) ->
  exists s',
    for_fold (map cachetools.key ls) rows (fun rows_for_date row =>
      if row_matches date chat_id delta metric row then
        v <- statistics_getitem row ;;
        ret (rows_set rows_for_date (snd (fst (fst (fst row)))) v)
      else ret rows_for_date) s
    = (Ok (collect_rows date chat_id delta metric ls rows), s')
    /\ cachetools.links (_statistics s') = cachetools.links (_statistics s)
    /\ timer s' = timer s.
Proof.
  revert rows s. induction ls as [|l ls IH]; intros rows s Hu Hv; simpl.
  - eexists. repeat split.
  - unfold bind at 1.
    destruct (row_matches date chat_id delta metric (cachetools.key l)) eqn:Em.
    + unfold bind at 1, statistics_getitem at 1.
      destruct (getitem_live statistic_key_eqb statistic_key_eqb_refl
                  (_statistics s) (timer s) l Hu (Hv l (or_introl eq_refl)))
        as (c' & -> & Hc').
      unfold ret at 1.
      change (snd (fst (fst (fst (cachetools.key l)))))
        with (window_end (cachetools.key l)).
      destruct (IH (rows_set rows (window_end (cachetools.key l)) (cachetools.value l))
                   (with_statistics s c')) as (s' & E & Hl & Ht).
      * unfold with_statistics; simpl. now rewrite Hc'.
      * intros l' Hl'. unfold visible, live, with_statistics; simpl.
        rewrite Hc'. apply Hv. now right.
      * exists s'. rewrite E. repeat split; [|exact Ht].
        rewrite Hl. unfold with_statistics; simpl. exact Hc'.
    + unfold ret at 1.
      destruct (IH rows s Hu) as (s' & E & Hl & Ht).
      * intros l' Hl'. apply Hv. now right.
      * exists s'. rewrite E. repeat split; assumption.
Qed.

Lemma get_latest_statistics_scan (s : TelegramPredictionCache) r s' :
  cache_ok s ->
  get_latest_statistics date chat_id delta metric s = (r, s') ->
  (r = Ok None /\ none_qualifies s date chat_id delta metric)
  \/ (exists v, r = Ok (Some v) /\ latest_qualifying s date chat_id delta metric v).
Proof.
  intros (_ & [Hu _] & _) E. unfold get_latest_statistics in E.
  unfold bind at 1, statistics_iter at 1, cachetools.iter in E.
  fold (live (_statistics s) (timer s)) in E. fold (visible s) in E.
  unfold bind at 1 in E.
  destruct (scan_loop (visible s) [] s Hu (fun l H => H)) as (s1 & E1 & _ & _).
  rewrite E1 in E. clear E1.
  set (rows := collect_rows date chat_id delta metric (visible s) []) in *.
  destruct (0 <? Z.of_nat (List.length rows)) eqn:El; injection E as <- _.
  - right.
    set (ltb := fun x y : datetime * dict => fst x <? fst y).
    set (le := fun x y : datetime * dict => fst x <= fst y).
    exists (snd (last (sorted ltb rows) (0, []))). split; [reflexivity|].
    assert (Hne : sorted ltb rows <> []).
    { intros E0. apply (f_equal (@List.length _)) in E0.
      rewrite sorted_length in E0. apply Z.ltb_lt in El. simpl in E0. lia. }
    pose proof (last_in (sorted ltb rows) (0, []) Hne) as Hlast.
    destruct (last (sorted ltb rows) (0, [])) as [k v] eqn:Elast.
    apply (Permutation_in _ (sorted_perm ltb rows)) in Hlast.
    apply collect_rows_in in Hlast. destruct Hlast as [[]|(l & Hl & Hm & Hk & Hv)].
    exists l. split; [exact Hl|]. split; [now apply row_matches_qualifies|].
    split; [exact Hv|]. intros l' Hl' Hq'.
    apply row_matches_qualifies in Hq'.
    pose proof (collect_rows_key (visible s) [] l' Hl' Hq') as Hk'.
    fold rows in Hk'. apply in_map_iff in Hk'. destruct Hk' as ([k' v'] & Ek' & Hin').
    simpl in Ek'. subst k'.
    apply (Permutation_in _ (Permutation_sym (sorted_perm ltb rows))) in Hin'.
    assert (Hs : StronglySorted le (sorted ltb rows)).
    { apply sorted_sorted; unfold ltb, le.
      - intros x y Hxy. apply Z.ltb_lt in Hxy. lia.
      - intros x y Hxy. apply Z.ltb_ge in Hxy. lia.
      - intros x y z. lia. }
    pose proof (last_greatest le
                  ltac:(unfold le; intros x y z; lia) (sorted ltb rows) (0, [])
                  ltac:(unfold le; intros x; lia) Hs _ Hin') as Hmax.
    rewrite Elast in Hmax. unfold le in Hmax. simpl in Hmax. lia.
  - left. split; [reflexivity|]. intros l Hl Hq.
    apply row_matches_qualifies in Hq.
    pose proof (collect_rows_key (visible s) [] l Hl Hq) as Hk.
    fold rows in Hk. destruct rows; [easy|].
    apply Z.ltb_ge in El. simpl in El. lia.
Qed.
End Collect.

(** C7: a statistics entry qualifies for [get_statistics(date, chat_id, delta,
    metric)] exactly when its window contains [date] strictly on both ends and
    its chat, delta and metric are the ones asked for; a scan returns [None]
    when no visible entry qualifies and otherwise the entry of a qualifying
    window that ends latest; [get_statistics] answers with the first scan when
    it finds an entry and with the scan that follows the refill otherwise. *)
Theorem C7_statistics_window_lookup :
  forall (self : TelegramPredictionCache) (date : datetime) (chat_id delta metric : pyval),
    reachable self ->
    (forall window_start window_end row_chat_id row_delta row_metric,
        row_matches date chat_id delta metric
          (window_start, window_end, row_chat_id, row_delta, row_metric) = true
        <-> (window_start < date < window_end
             /\ py_eqb row_chat_id chat_id = true
             /\ py_eqb row_delta delta = true
             /\ py_eqb row_metric metric = true))
    /\ (forall r self',
        get_latest_statistics date chat_id delta metric self = (r, self') ->
        (r = Ok None /\ none_qualifies self date chat_id delta metric)
        \/ (exists v, r = Ok (Some v)
                      /\ latest_qualifying self date chat_id delta metric v))
    /\ (forall r self',
        get_statistics date chat_id delta metric self = (r, self') ->
        (exists v, r = Ok (Some v)
                   /\ latest_qualifying self date chat_id delta metric v)
        \/ (none_qualifies self date chat_id delta metric
            /\ exists s1 r2 s2,
                 get_latest_statistics date chat_id delta metric self = (Ok None, s1)
                 /\ _get_statistics_from_db date s1 = (r2, s2)
                 /\ match r2 with
                    | Raise e => r = Raise e
                    | Ok _ =>
                        (r = Ok None /\ none_qualifies s2 date chat_id delta metric)
                        \/ (exists v, r = Ok (Some v)
                              /\ latest_qualifying s2 date chat_id delta metric v)
                    end)).
Proof.
  intros self date chat_id delta metric Hreach.
  pose proof (reachable_cache_ok self Hreach) as Hs.
  split; [|split].
  - intros ws we c d m.
    apply (row_matches_qualifies date chat_id delta metric (ws, we, c, d, m)).
  - intros r self' E. eapply get_latest_statistics_scan; eassumption.
  - intros r self' E. unfold get_statistics in E. unfold bind at 1 in E.
    destruct (get_latest_statistics date chat_id delta metric self)
      as [r1 s1] eqn:E1.
    pose proof (preserves_get_latest_statistics _ _ _ _ _ _ _ Hs E1) as Hs1.
    destruct (get_latest_statistics_scan _ _ _ _ _ _ _ Hs E1)
      as [[-> Hnone]|(v & -> & Hv)].
    + right. split; [exact Hnone|]. unfold bind at 1 in E.
      destruct (_get_statistics_from_db date s1) as [r2 s2] eqn:E2.
      exists s1, r2, s2. split; [reflexivity|]. split; [exact E2|].
      destruct r2 as [u|e]; [|now injection E as <- _].
      pose proof (preserves__get_statistics_from_db _ _ _ _ Hs1 E2) as Hs2.
      eapply get_latest_statistics_scan; eassumption.
    + left. exists v. split; [|exact Hv]. now injection E as <- _.
Qed.

(** On the sample cache both windows contain a date just after the bucket, and
    the one that ends later answers; at the bucket itself, where the later
    window starts, only the earlier window contains the date. *)
Lemma statistics_latest_window_example :
  fst (get_statistics (sample.bucket + 1) (PInt 7) (PInt 60) (PStr "views") sample.cache)
  = Ok (Some [("mean", PInt 2); ("std", PInt 1)])
  /\ fst (get_statistics sample.bucket (PInt 7) (PInt 60) (PStr "views") sample.cache)
     = Ok (Some [("mean", PInt 1); ("std", PInt 1)]).
Proof. split; vm_compute; reflexivity. Qed.

Lemma C7_witness :
  reachable sample.cache
  /\ latest_qualifying sample.cache (sample.bucket + 1) (PInt 7) (PInt 60) (PStr "views")
       [("mean", PInt 2); ("std", PInt 1)].
Proof.
  split; [exact sample_cache_reachable|].
  destruct (C7_statistics_window_lookup sample.cache (sample.bucket + 1)
              (PInt 7) (PInt 60) (PStr "views") sample_cache_reachable)
    as (_ & Hscan & _).
  destruct (Hscan (Ok (Some [("mean", PInt 2); ("std", PInt 1)]))
                  (snd (get_latest_statistics (sample.bucket + 1) (PInt 7) (PInt 60)
                          (PStr "views") sample.cache)))
    as [[E _]|(v & E & Hv)].
  - vm_compute. reflexivity.
  - discriminate E.
  - injection E as <-. exact Hv.
Defined.

Lemma C4_witness :
  let self := sample.empty_cache in
  let s1 := snd (coefficients_get (PInt 7) self) in
  let s2 := snd (_get_coefficients_from_db s1) in
  let s3 := snd (coefficients_get (PInt 7) s2) in
  coefficients_get (PInt 7) self = (Ok None, s1)
  /\ _get_coefficients_from_db s1 = (Ok tt, s2)
  /\ coefficients_get (PInt 7) s2 = (Ok None, s3)
  /\ get_coefficients (PInt 7) self = (Ok None, s3)
  /\ queries s3 = queries self ++ [QueryCoefficients]
  /\ exists qs,
       queries (snd (get_prediction sample.bucket (PInt 7) (PInt 60) sample.cache))
       = queries sample.cache ++ qs
       /\ (List.length qs <= 1)%nat.
Proof.
  intros self s1 s2 s3.
  assert (H1 : coefficients_get (PInt 7) self = (Ok None, s1))
    by (vm_compute; reflexivity).
  assert (H2 : _get_coefficients_from_db s1 = (Ok tt, s2))
    by (vm_compute; reflexivity).
  assert (H3 : coefficients_get (PInt 7) s2 = (Ok None, s3))
    by (vm_compute; reflexivity).
  split; [exact H1|]. split; [exact H2|]. split; [exact H3|].
  destruct (C4_at_most_one_refill_per_call self) as (_ & _ & _ & _ & _ & Hmiss).
  destruct (Hmiss (PInt 7) s1 s2 s3 H1 H2 H3) as [Hnone Hqueries].
  split; [exact Hnone|]. split; [exact Hqueries|].
  destruct (C4_at_most_one_refill_per_call sample.cache) as (Hbound & _).
  exact (Hbound sample.bucket (PInt 7) (PInt 60) _ _ (surjective_pairing _)).
Defined.

Lemma C10_witness :
  let date := sample.bucket + 123 in
  reachable sample.cache
  /\ microsecond date <> 0
  /\ fst (get_prediction date (PInt 7) (PInt 60) sample.cache) = Ok None
  /\ In sample.prediction_row
        (metrics_telegram_prediction (_connection_db_metrics sample.cache)).
Proof.
  intros date.
  assert (Hus : microsecond date <> 0) by (vm_compute; discriminate).
  split; [exact sample_cache_reachable|]. split; [exact Hus|]. split.
  - destruct (C10_microsecond_lookup_is_absent sample.cache date (PInt 7) (PInt 60)
                (fst (get_prediction date (PInt 7) (PInt 60) sample.cache))
                (snd (get_prediction date (PInt 7) (PInt 60) sample.cache))
                sample_cache_reachable Hus (surjective_pairing _))
      as (_ & _ & _ & _ & Habsent).
    apply Habsent; vm_compute; try reflexivity; discriminate.
  - vm_compute. left. reflexivity.
Defined.

(* ================================================================== *)
(** * Evaluating the code on numbers *)
(* ================================================================== *)

(** [py_compute] runs the code as far as the tests on real numbers allow and
    [py_decide] settles the tests that [lra] can settle. *)
Ltac py_compute :=
  cbv -[IZR Rdiv Rminus Ropp Reqb Rltb exp Rabs Int_part Rlt_dec round_half_even].

Ltac py_decide :=
  repeat match goal with
    | |- context [Reqb ?x ?y] =>
        first [ rewrite (proj2 (Reqb_true x y)) by lra
              | rewrite (proj2 (Reqb_false x y)) by lra ]
    | |- context [Rltb ?x ?y] =>
        first [ rewrite (proj2 (Rltb_true x y)) by lra
              | rewrite (proj2 (Rltb_false x y)) by lra ]
    end.

Ltac py_run := repeat (progress (py_compute; py_decide)).

(* ================================================================== *)
(** * The repost detector *)
(* ================================================================== *)

(** What [run] does on an article that has both fields: it asks Redis, and
    when Redis answers the anomaly is added exactly when neither country is a
    sentinel and the two are equal. *)
Lemma repost_run_characterised
    (self : telegram_repost.TelegramRepostAnomalyDetector) (article : dict)
    (anomalies : list Anomaly) (country forward_from_chat_id : pyval) :
  lookup article "country" = Some country ->
  lookup article "forward_from_chat_id" = Some forward_from_chat_id ->
  truthy country = true -> truthy forward_from_chat_id = true ->
  telegram_repost.run self article anomalies
  = rbind (telegram_repost.hget (telegram_repost._redis_connection self)
                                "tg_countries" forward_from_chat_id)
      (fun forward_country =>
         Ok (if negb (py_in country telegram_repost.__none_country)
                && negb (py_in forward_country telegram_repost.__none_country)
                && py_eqb country forward_country
             then anomalies ++ [ {| metric_name := "forward"; metric_value := PInt 1;
                                    expected_value := PInt 0; score := 1;
                                    _weight := 100 |} ]
             else anomalies)).
Proof.
  intros Hc Hf Tc Tf.
  unfold telegram_repost.run, telegram_repost._check_article_fields,
    telegram_repost._check_original_chat_country, getitem, get.
  cbn [forallb telegram_repost.__must_have_fields].
  rewrite Hc, Hf, Tc, Tf. cbn [andb negb rbind].
  destruct (telegram_repost.hget _ _ _) as [forward_country|e];
    cbn [rbind]; [|reflexivity].
  destruct (py_in country telegram_repost.__none_country);
    cbn [orb negb andb rbind]; [reflexivity|].
  destruct (py_in forward_country telegram_repost.__none_country);
    cbn [orb negb andb rbind]; [reflexivity|].
  unfold telegram_repost.py_ne. rewrite negb_involutive.
  destruct (py_eqb country forward_country); reflexivity.
Qed.

(** C1: the code on the inputs of the claim. An American article forwarded
    from a French chat gets no anomaly, although the two countries are present,
    known and different; the anomaly with score 1, value 1 and expected value 0
    is added when the article is forwarded from a chat of its own country; an
    article of country [xx] gets none. *)
Theorem C1_repost_detector_on_the_claimed_inputs :
  telegram_repost.run sample.repost_detector (sample.repost "US" 42) [] = Ok []
  /\ telegram_repost.run sample.repost_detector (sample.repost "US" 43) []
     = Ok [ {| metric_name := "forward"; metric_value := PInt 1;
               expected_value := PInt 0; score := 1; _weight := 100 |} ]
  /\ (forall forward_from_chat_id anomalies,
        telegram_repost.run sample.repost_detector
          (sample.repost "xx" forward_from_chat_id) anomalies = Ok anomalies).
Proof.
  split; [reflexivity|]. split; [reflexivity|].
  intros f anomalies. unfold telegram_repost.run, sample.repost.
  destruct (telegram_repost._check_article_fields _); reflexivity.
Qed.

(* ================================================================== *)
(** * The metric-deviation detector *)
(* ================================================================== *)

Lemma zero_is_falsy (v : pyval) : as_number v = Some 0%R -> truthy v = false.
Proof.
  destruct v as [|[]|z|r| | |]; simpl; intros E; try discriminate;
    try reflexivity.
  - injection E as E. lra.
  - injection E as E. apply eq_IZR in E. subst z. reflexivity.
  - injection E as ->. now rewrite (proj2 (Reqb_true 0 0) eq_refl).
Qed.

Lemma falsy_views_fail_the_field_check (article : dict) :
  truthy (get article "views" PNone) = false ->
  telegram_metrics._check_article_fields article = false.
Proof.
  intros Hv. unfold telegram_metrics._check_article_fields,
    telegram_metrics.__must_have_fields.
  cbn [forallb]. rewrite Hv.
  repeat match goal with |- context [truthy ?x] => destruct (truthy x) end;
    reflexivity.
Qed.

Section MetricDetector.
Context `{Builtins}.
Variable self : telegram_metrics.TelegramMetricAnomalyDetector.

Lemma metric_run_without_fields (article : dict) (anomalies : list Anomaly)
    (s : TelegramPredictionCache) :
  telegram_metrics._check_article_fields article = false ->
  telegram_metrics.run self article anomalies s = (Ok anomalies, s).
Proof. intros E. unfold telegram_metrics.run. rewrite E. reflexivity. Qed.

(** C3 (as amended): an article whose views are zero never reaches the
    division. The required-field check reads a zero as a missing field, so
    [run] returns at once: the accumulator and the cache are as they were. *)
Theorem C3_zero_views_stop_at_the_field_check :
  forall (article : dict) (anomalies : list Anomaly) (s : TelegramPredictionCache)
         (views : pyval),
    lookup article "views" = Some views ->
    as_number views = Some 0%R ->
    telegram_metrics._check_article_fields article = false
    /\ telegram_metrics.run self article anomalies s = (Ok anomalies, s).
Proof.
  intros article anomalies s views Hl Hz.
  assert (E : telegram_metrics._check_article_fields article = false).
  { apply falsy_views_fail_the_field_check. unfold get. rewrite Hl.
    now apply zero_is_falsy. }
  split; [exact E | now apply metric_run_without_fields].
Qed.

(** The gate on the views, when the chat has coefficients. *)
Lemma minimal_threshold_gate (article : dict) (s s1 : TelegramPredictionCache)
    (chat_id views : pyval) (coefficients : dict) (too_low : bool) :
  lookup article "chat_id" = Some chat_id ->
  lookup article "views" = Some views ->
  get_coefficients chat_id s = (Ok (Some coefficients), s1) ->
  py_lt views (get coefficients "minimal_views_threshold" (PInt 0)) = Ok too_low ->
  telegram_metrics._check_article_minimal_threshold article s = (Ok (negb too_low), s1).
Proof.
  intros Hc Hv Hco Hlt. unfold telegram_metrics._check_article_minimal_threshold.
  unfold bind, lift, getitem. rewrite Hc, Hco, Hv, Hlt.
  destruct too_low; reflexivity.
Qed.

(** C6: when the views of an article are below the minimal views threshold of
    its chat (0 when the chat's coefficients have none), [run] adds no anomaly:
    it returns before the ratio and prediction checks. *)
Theorem C6_views_below_threshold_add_nothing :
  forall (article : dict) (anomalies : list Anomaly) (s s1 : TelegramPredictionCache)
         (chat_id views : pyval) (coefficients : dict),
    lookup article "chat_id" = Some chat_id ->
    lookup article "views" = Some views ->
    get_coefficients chat_id s = (Ok (Some coefficients), s1) ->
    py_lt views
          match lookup coefficients "minimal_views_threshold" with
          | Some threshold => threshold
          | None => PInt 0
          end = Ok true ->
    fst (telegram_metrics.run self article anomalies s) = Ok anomalies
    /\ (telegram_metrics._check_article_fields article = true ->
        telegram_metrics.run self article anomalies s = (Ok anomalies, s1)).
Proof.
  intros article anomalies s s1 chat_id views coefficients Hc Hv Hco Hlt.
  assert (G : telegram_metrics._check_article_fields article = true ->
              telegram_metrics.run self article anomalies s = (Ok anomalies, s1)).
  { intros Hf. unfold telegram_metrics.run. rewrite Hf. cbn [negb].
    unfold bind at 1.
    rewrite (minimal_threshold_gate article s s1 chat_id views coefficients true
               Hc Hv Hco Hlt).
    reflexivity. }
  split; [|exact G].
  destruct (telegram_metrics._check_article_fields article) eqn:Hf.
  - now rewrite G.
  - now rewrite metric_run_without_fields.
Qed.
End MetricDetector.

Lemma py_gt_float (ratio : R) (expected : pyval) (e : R) :
  as_number expected = Some e -> py_gt (PFloat ratio) expected = Ok (Rltb e ratio).
Proof.
  unfold py_gt, py_lt. destruct expected; simpl; intros E; try discriminate;
    injection E as <-; reflexivity.
Qed.

Lemma check_ratio_adds (name : string) (ratio : R) (coefficients : dict)
    (anomalies : list Anomaly) (expected : pyval) (e : R) :
  lookup coefficients name = Some expected ->
  as_number expected = Some e ->
  e <> 0%R ->
  telegram_metrics.check_ratio name ratio coefficients anomalies
  = Ok (anomalies ++ ratio_anomaly name ratio expected e).
Proof.
  intros Hl He Hnz. unfold telegram_metrics.check_ratio, getitem, ratio_anomaly.
  rewrite Hl. cbn [rbind]. rewrite (py_gt_float ratio expected e He). cbn [rbind].
  destruct (Rltb e ratio); [|now rewrite app_nil_r].
  unfold number. rewrite He. cbn [rbind].
  unfold telegram_metrics._score_static_metrics, div.
  rewrite (proj2 (Reqb_false e 0) Hnz). cbn [rbind].
  replace ((- (ratio / e) + e) * 10)%R with ((e - ratio / e) * 10)%R by lra.
  reflexivity.
Qed.

Lemma sigmoid_injective (a b : R) :
  (1 / (1 + exp a) = 1 / (1 + exp b))%R -> a = b.
Proof.
  intros E. unfold Rdiv in E. rewrite !Rmult_1_l in E.
  apply (f_equal Rinv) in E. rewrite !Rinv_inv in E.
  apply exp_inv. lra.
Qed.

(** The static check, when the chat has coefficients and they are not zero. *)
Lemma static_check_adds (article : dict) (anomalies : list Anomaly)
    (s s1 : TelegramPredictionCache)
    (chat_id forwards views reaction_count : pyval) (f v rc : R)
    (coefficients : dict) (expected_f expected_rc : pyval) (ef erc : R) :
  lookup article "chat_id" = Some chat_id ->
  lookup article "forwards" = Some forwards -> as_number forwards = Some f ->
  lookup article "views" = Some views -> as_number views = Some v ->
  lookup article "reaction_count" = Some reaction_count ->
  as_number reaction_count = Some rc ->
  v <> 0%R ->
  get_coefficients chat_id s = (Ok (Some coefficients), s1) ->
  lookup coefficients "forwards_by_views" = Some expected_f ->
  as_number expected_f = Some ef -> ef <> 0%R ->
  lookup coefficients "reaction_count_by_views" = Some expected_rc ->
  as_number expected_rc = Some erc -> erc <> 0%R ->
  telegram_metrics._check_static_metrics article anomalies s
  = (Ok (anomalies
         ++ ratio_anomaly "forwards_by_views" (f / v) expected_f ef
         ++ ratio_anomaly "reaction_count_by_views" (rc / v) expected_rc erc),
     s1).
Proof.
  intros Hc Hf Nf Hv Nv Hr Nr Vnz Hco Lf Ef Fnz Lr Er Rnz.
  unfold telegram_metrics._check_static_metrics.
  unfold bind, lift, getitem. rewrite Hc, Hco, Hf, Hv.
  unfold truediv. rewrite Nf, Nv. unfold div.
  rewrite (proj2 (Reqb_false v 0) Vnz). rewrite Hr, Nr.
  rewrite (check_ratio_adds _ _ _ _ _ _ Lf Ef Fnz).
  rewrite (check_ratio_adds _ _ _ _ _ _ Lr Er Rnz).
  now rewrite app_assoc.
Qed.

Section MetricRun.
Context `{Builtins}.
Variable self : telegram_metrics.TelegramMetricAnomalyDetector.

(** The static check of an article without views divides by zero, when it is
    called at all. *)
Lemma static_check_divides_by_zero (article : dict) (anomalies : list Anomaly)
    (s s1 : TelegramPredictionCache) (chat_id forwards views : pyval) (f : R)
    (coefficients : dict) :
  lookup article "chat_id" = Some chat_id ->
  lookup article "forwards" = Some forwards -> as_number forwards = Some f ->
  lookup article "views" = Some views -> as_number views = Some 0%R ->
  get_coefficients chat_id s = (Ok (Some coefficients), s1) ->
  telegram_metrics._check_static_metrics article anomalies s
  = (Raise ZeroDivisionError, s1).
Proof.
  intros Hc Hf Nf Hv Nv Hco. unfold telegram_metrics._check_static_metrics.
  unfold bind, lift, getitem. rewrite Hc, Hco, Hf, Hv.
  unfold truediv. rewrite Nf, Nv. unfold div.
  now rewrite (proj2 (Reqb_true 0 0) eq_refl).
Qed.

(** The prediction check adds nothing when the chat has no prediction. *)
Lemma predicted_check_without_prediction (article : dict) (anomalies : list Anomaly)
    (s s1 s2 : TelegramPredictionCache) (text : string) (date : datetime)
    (chat_id delta : pyval) (statistics : option dict) :
  lookup article "loading_date" = Some (PStr text) ->
  strptime text = Ok date ->
  lookup article "chat_id" = Some chat_id ->
  lookup article "delta" = Some delta ->
  get_prediction date chat_id delta s = (Ok None, s1) ->
  get_statistics date chat_id delta (PStr "views") s1 = (Ok statistics, s2) ->
  telegram_metrics._check_predicted_metrics article anomalies s = (Ok anomalies, s2).
Proof.
  intros Hl Hp Hc Hd Hpred Hstat.
  unfold telegram_metrics._check_predicted_metrics.
  unfold bind, lift, getitem. rewrite Hl. cbn [py_strptime]. rewrite Hp, Hc, Hd.
  rewrite Hpred, Hstat. reflexivity.
Qed.

(** [run] on an article that passes the field check and the gate. *)
Lemma metric_run_steps (article : dict) (anomalies anomalies1 : list Anomaly)
    (s s1 s2 s3 : TelegramPredictionCache) r :
  telegram_metrics._check_article_fields article = true ->
  telegram_metrics._check_article_minimal_threshold article s = (Ok true, s1) ->
  telegram_metrics._check_static_metrics article anomalies s1 = (Ok anomalies1, s2) ->
  telegram_metrics._check_predicted_metrics article anomalies1 s2 = (r, s3) ->
  telegram_metrics.run self article anomalies s = (r, s3).
Proof.
  intros Hf Ht Hs Hp. unfold telegram_metrics.run. rewrite Hf. cbn [negb].
  unfold bind. rewrite Ht. cbn [negb]. rewrite Hs. exact Hp.
Qed.
End MetricRun.

(** ** The detector on the sample chat *)

Lemma sample_coefficients_hit :
  get_coefficients (PInt 7) sample.metrics_cache
  = (Ok (Some (c_columns sample.coefficient_row)),
     snd (get_coefficients (PInt 7) sample.metrics_cache)).
Proof. vm_compute. reflexivity. Qed.

Lemma sample_coefficients_hit_again :
  get_coefficients (PInt 7) (snd (get_coefficients (PInt 7) sample.metrics_cache))
  = (Ok (Some (c_columns sample.coefficient_row)),
     snd (get_coefficients (PInt 7)
            (snd (get_coefficients (PInt 7) sample.metrics_cache)))).
Proof. vm_compute. reflexivity. Qed.

Lemma sample_no_prediction :
  let s2 := snd (get_coefficients (PInt 7)
                   (snd (get_coefficients (PInt 7) sample.metrics_cache))) in
  get_prediction 1200000000 (PInt 7) (PInt 60) s2
  = (Ok None, snd (get_prediction 1200000000 (PInt 7) (PInt 60) s2))
  /\ get_statistics 1200000000 (PInt 7) (PInt 60) (PStr "views")
       (snd (get_prediction 1200000000 (PInt 7) (PInt 60) s2))
     = (Ok None,
        snd (get_statistics 1200000000 (PInt 7) (PInt 60) (PStr "views")
               (snd (get_prediction 1200000000 (PInt 7) (PInt 60) s2)))).
Proof. split; vm_compute; reflexivity. Qed.

(** An article of the sample chat with 1000 views, 200 forwards and 3
    reactions: the only anomaly is the one of the forwards ratio, 0.2 against
    the expected 0.1. *)
Lemma sample_run_forwards_anomaly :
  fst (@telegram_metrics.run sample.builtins
         telegram_metrics.Build_TelegramMetricAnomalyDetector
         (sample.article 1000 200 3) [] sample.metrics_cache)
  = Ok [ {| metric_name := "forwards_by_views";
            metric_value := PFloat (200 / 1000);
            expected_value := PFloat (1 / 10);
            score := (1 / (1 + exp ((1 / 10 - 200 / 1000 / (1 / 10)) * 10)))%R;
            _weight := 100 |} ].
Proof.
  destruct sample_no_prediction as [Hpred Hstat].
  erewrite (@metric_run_steps sample.builtins).
  - reflexivity.
  - reflexivity.
  - apply (minimal_threshold_gate (sample.article 1000 200 3) _ _ (PInt 7)
             (PInt 1000) _ false eq_refl eq_refl sample_coefficients_hit).
    reflexivity.
  - apply (static_check_adds (sample.article 1000 200 3) []
             _ _ (PInt 7) (PInt 200) (PInt 1000) (PInt 3) 200%R 1000%R 3%R
             (c_columns sample.coefficient_row) (PFloat (1 / 10)) (PInt 1)
             (1 / 10)%R 1%R);
      try exact sample_coefficients_hit_again; try reflexivity; lra.
  - unfold ratio_anomaly.
    rewrite (proj2 (Rltb_true (1 / 10) (200 / 1000))) by lra.
    rewrite (proj2 (Rltb_false 1 (3 / 1000))) by lra.
    cbn [app].
    apply (@predicted_check_without_prediction sample.builtins
             (sample.article 1000 200 3) _ _ _ _
             "0001-01-01T00:20:00" 1200000000 (PInt 7) (PInt 60) None
             eq_refl eq_refl eq_refl eq_refl Hpred Hstat).
Qed.

Lemma C3_counterexample :
  @telegram_metrics.run sample.builtins
     telegram_metrics.Build_TelegramMetricAnomalyDetector
     (sample.article 0 5 3) [] sample.metrics_cache
  = (Ok [], sample.metrics_cache)
  /\ fst (telegram_metrics._check_static_metrics (sample.article 0 5 3) []
            sample.metrics_cache)
     = Raise ZeroDivisionError.
Proof.
  split; [reflexivity|].
  erewrite (static_check_divides_by_zero (sample.article 0 5 3) []
              sample.metrics_cache _ (PInt 7) (PInt 5) (PInt 0) 5%R);
    try exact sample_coefficients_hit; reflexivity.
Qed.

Lemma C3_witness :
  lookup (sample.article 0 5 3) "views" = Some (PInt 0)
  /\ as_number (PInt 0) = Some 0%R
  /\ @telegram_metrics.run sample.builtins
       telegram_metrics.Build_TelegramMetricAnomalyDetector
       (sample.article 0 5 3) [] sample.metrics_cache
     = (Ok [], sample.metrics_cache).
Proof.
  split; [reflexivity|]. split; [reflexivity|].
  apply (@C3_zero_views_stop_at_the_field_check sample.builtins
           telegram_metrics.Build_TelegramMetricAnomalyDetector
           (sample.article 0 5 3) [] sample.metrics_cache (PInt 0));
    reflexivity.
Defined.

Lemma C5_counterexample :
  exists anomaly,
    fst (@telegram_metrics.run sample.builtins
           telegram_metrics.Build_TelegramMetricAnomalyDetector
           (sample.article 1000 200 3) [] sample.metrics_cache) = Ok [anomaly]
    /\ metric_name anomaly = "forwards_by_views"
    /\ metric_value anomaly = PFloat (200 / 1000)
    /\ anomaly.expected_value anomaly = PFloat (1 / 10)
    /\ anomaly.score anomaly <> (1 / (1 + exp ((1 / 10 - 200 / 1000) * 10)))%R.
Proof.
  eexists. split; [exact sample_run_forwards_anomaly|].
  repeat split. cbn [anomaly.score]. intros E.
  apply sigmoid_injective in E. lra.
Qed.

(** With the threshold 100, an article with 50 views and 40 forwards gets no
    anomaly, although its forwards ratio, 0.8 against the expected 0.1, makes
    the static check add one when it is called on the article. *)
Lemma C6_witness :
  lookup (sample.article 50 40 3) "views" = Some (PInt 50)
  /\ lookup (c_columns sample.coefficient_row) "minimal_views_threshold"
     = Some (PInt 100)
  /\ fst (@telegram_metrics.run sample.builtins
            telegram_metrics.Build_TelegramMetricAnomalyDetector
            (sample.article 50 40 3) [] sample.metrics_cache) = Ok []
  /\ fst (telegram_metrics._check_static_metrics (sample.article 50 40 3) []
            sample.metrics_cache)
     = Ok (ratio_anomaly "forwards_by_views" (40 / 50) (PFloat (1 / 10)) (1 / 10))
  /\ ratio_anomaly "forwards_by_views" (40 / 50) (PFloat (1 / 10)) (1 / 10) <> [].
Proof.
  split; [reflexivity|]. split; [reflexivity|]. split; [|split].
  - apply (@C6_views_below_threshold_add_nothing sample.builtins
             telegram_metrics.Build_TelegramMetricAnomalyDetector
             (sample.article 50 40 3) [] sample.metrics_cache _ (PInt 7) (PInt 50)
             (c_columns sample.coefficient_row) eq_refl eq_refl
             sample_coefficients_hit eq_refl).
  - erewrite (static_check_adds (sample.article 50 40 3) []
                _ _ (PInt 7) (PInt 40) (PInt 50) (PInt 3) 40%R 50%R 3%R
                (c_columns sample.coefficient_row) (PFloat (1 / 10)) (PInt 1)
                (1 / 10)%R 1%R);
      try exact sample_coefficients_hit; try reflexivity; try lra.
    cbn [fst app]. unfold ratio_anomaly at 2.
    rewrite (proj2 (Rltb_false 1 (3 / 50))) by lra. now rewrite app_nil_r.
  - unfold ratio_anomaly. rewrite (proj2 (Rltb_true (1 / 10) (40 / 50))) by lra.
    discriminate.
Defined.

(* ================================================================== *)
(** * The aggregator *)
(* ================================================================== *)

(** ** Ranking *)

Lemma StronglySorted_snoc {A} (R : A -> A -> Prop) (l : list A) (x : A) :
  StronglySorted R l -> Forall (fun y => R y x) l -> StronglySorted R (l ++ [x]).
Proof.
  induction 1 as [|y l Hs IH Hy]; simpl; intros Hx.
  - repeat constructor.
  - inversion Hx as [|? ? Hyx Hx']; subst. constructor; [now apply IH|].
    apply Forall_app. split; [exact Hy | now repeat constructor].
Qed.

Lemma StronglySorted_rev {A} (R : A -> A -> Prop) (l : list A) :
  StronglySorted R l -> StronglySorted (fun x y => R y x) (rev l).
Proof.
  induction 1 as [|y l Hs IH Hy]; simpl; [constructor|].
  apply StronglySorted_snoc; [exact IH|].
  apply Forall_rev. exact Hy.
Qed.

Lemma ranked_perm (anomalies : list Anomaly) : Permutation anomalies (ranked anomalies).
Proof.
  unfold ranked, sorted_reverse. rewrite <- Permutation_rev.
  rewrite sorted_perm. apply Permutation_rev.
Qed.

Lemma ranked_descending (anomalies : list Anomaly) :
  StronglySorted (fun a b => (anomaly.score b <= anomaly.score a)%R) (ranked anomalies).
Proof.
  unfold ranked, sorted_reverse.
  apply (StronglySorted_rev (fun a b => (anomaly.score a <= anomaly.score b)%R)).
  apply sorted_sorted; unfold score_ltb.
  - intros x y E. apply Rltb_true in E. lra.
  - intros x y E. apply Rltb_false in E. exact E.
  - intros x y z. lra.
Qed.

Lemma ranked_stable (anomalies : list Anomaly) (x : R) :
  with_score x (ranked anomalies) = with_score x anomalies.
Proof.
  unfold with_score, ranked, sorted_reverse.
  rewrite filter_rev. rewrite sorted_filter.
  - rewrite filter_rev. apply rev_involutive.
  - intros a b Ea Eb. apply Reqb_true in Ea. apply Rltb_true in Eb.
    apply Reqb_false. lra.
Qed.

Lemma sum_of_scores_perm (l1 l2 : list Anomaly) :
  Permutation l1 l2 -> sum_of_scores l1 = sum_of_scores l2.
Proof.
  unfold sum_of_scores.
  induction 1 as [|a l1 l2 _ IH|a b l|l1 l2 l3 _ IH1 _ IH2]; simpl; lra.
Qed.

Section Aggregator.
Context `{Builtins}.

Lemma total_is_sum (anomalies : list Anomaly) :
  detector._calculate_total_anomaly_score anomalies = sum_of_scores anomalies.
Proof.
  unfold detector._calculate_total_anomaly_score, sum_of_scores.
  apply fold_symmetric; intros; lra.
Qed.

(** What an alert is made of, when [_create_alert] returns one. *)
Lemma create_alert_content (self : detector.AnomalyDetector) (message : detector.message)
    (anomalies : list Anomaly) (uuid : string) (alert : alert.Alert) :
  detector._create_alert self message anomalies uuid = Ok alert ->
  alert._all_anomalies alert = map to_dict (ranked anomalies)
  /\ alert.score alert = detector._calculate_total_anomaly_score (ranked anomalies)
  /\ detector._generate_description (ranked anomalies) message (alert.score alert)
     = Ok (alert.description alert)
  /\ exists top rest, ranked anomalies = top :: rest
       /\ alert.field_name alert = metric_name top
       /\ alert.anomaly_value alert = metric_value top
       /\ alert.expected_value alert = anomaly.expected_value top.
Proof.
  unfold detector._create_alert. fold score_ltb. fold (ranked anomalies).
  intros E.
  repeat match type of E with
    | rbind ?x _ = Ok _ =>
        let r := fresh "r" in
        destruct x as [r|] eqn:?; [cbn [rbind] in E | discriminate]
    end.
  destruct (ranked anomalies) as [|top rest] eqn:Er; [discriminate|].
  injection E as <-. cbn.
  repeat split; try assumption. exists top, rest. repeat split.
Qed.
End Aggregator.

Section Aggregation.
Context `{Builtins}.

(** C2: the alert built for a list of anomalies lists them ranked: the
    ranking is a rearrangement of the anomalies, in descending order of score,
    in which the anomalies of any one score are in the order they were found;
    and its total score is the sum of all the scores, as it is. *)
Theorem C2_alert_ranks_and_sums :
  forall (self : detector.AnomalyDetector) (message : detector.message)
         (anomalies : list Anomaly) (uuid : string) (alert : alert.Alert),
    detector._create_alert self message anomalies uuid = Ok alert ->
    anomalies <> []
    /\ alert._all_anomalies alert = map to_dict (ranked anomalies)
    /\ Permutation anomalies (ranked anomalies)
    /\ StronglySorted (fun a b => (anomaly.score b <= anomaly.score a)%R)
                      (ranked anomalies)
    /\ (forall x, with_score x (ranked anomalies) = with_score x anomalies)
    /\ alert.score alert = sum_of_scores anomalies.
Proof.
  intros self message anomalies uuid alert E.
  destruct (create_alert_content _ _ _ _ _ E) as (Ha & Hs & _ & top & rest & Er & _).
  split; [|split; [exact Ha|split; [apply ranked_perm|split;
          [apply ranked_descending|split; [apply ranked_stable|]]]]].
  - intros ->. discriminate Er.
  - rewrite Hs, total_is_sum. symmetry. apply sum_of_scores_perm, ranked_perm.
Qed.
End Aggregation.

Lemma sample_ranking :
  ranked [sample.weak; sample.strong_first; sample.strong_second]
  = [sample.strong_first; sample.strong_second; sample.weak].
Proof.
  unfold ranked, sorted_reverse, score_ltb, sorted. cbn [rev app fold_right].
  cbn [insert_sorted anomaly.score sample.weak sample.strong_first sample.strong_second].
  py_decide. cbn [insert_sorted anomaly.score sample.weak sample.strong_first
                    sample.strong_second rev app].
  py_decide. reflexivity.
Qed.

(** ** Formatting *)

Lemma Int_part_IZR (z : Z) : Int_part (IZR z) = z.
Proof. symmetry. apply Int_part_spec. lra. Qed.

Lemma round_half_even_IZR (z : Z) : round_half_even (IZR z) = z.
Proof.
  unfold round_half_even. rewrite Int_part_IZR.
  destruct (Rlt_dec (IZR z - IZR z) (1 / 2)); [reflexivity | lra].
Qed.

(** A value that has at most [digits] decimals is printed as it is. *)
Lemma format_fixed_exact (digits : nat) (x : R) (n : Z) :
  (0 <= x)%R -> (x * IZR (10 ^ Z.of_nat digits))%R = IZR n ->
  format_fixed digits x
  = (int_str (n / 10 ^ Z.of_nat digits) ++ "."
     ++ zero_pad digits (int_str (n mod 10 ^ Z.of_nat digits)))%string.
Proof.
  intros Hx Hn. unfold format_fixed.
  rewrite Rabs_right by lra. rewrite Hn, round_half_even_IZR.
  destruct (Rlt_dec x 0); [lra | reflexivity].
Qed.

Lemma format_fixed_0_00 : format_fixed 2 0 = "0.00".
Proof.
  rewrite (format_fixed_exact 2 0 0); [reflexivity | lra |].
  change (10 ^ Z.of_nat 2) with 100. lra.
Qed.

(** ** Rounding to a double *)











(** ** The description *)

Lemma as_number_shape (v : pyval) (e : R) :
  as_number v = Some e <-> shape_of v = SNumber e.
Proof.
  destruct v as [| [] | | | | |]; simpl; split; intros E;
    try discriminate; injection E as <-; reflexivity.
Qed.

Lemma not_zero_expected (v : pyval) :
  py_eqb v (PInt 0) = false -> as_number v <> Some 0%R.
Proof.
  intros Ez E0. apply as_number_shape in E0.
  change (SNumber 0) with (shape_of (PInt 0)) in E0.
  apply py_eqb_shape in E0. congruence.
Qed.



Lemma append_empty_r (a : string) : (a ++ EmptyString)%string = a.
Proof. induction a as [|x a IH]; simpl; [reflexivity | now rewrite IH]. Qed.

Lemma truthy_get_lookup (d : dict) (k : string) :
  truthy (get d k PNone) = true -> lookup d k = Some (get d k PNone).
Proof. unfold get. destruct (lookup d k); [reflexivity | discriminate]. Qed.



Section Description.
Context `{Builtins}.




End Description.

(** ** Building the alert *)

Lemma describe_describable (points : list string) (a : Anomaly) :
  describable a -> exists point, detector.describe points a = Ok (points ++ [point]).
Proof.
  intros [(m & Hm & Hz)|(value & Hv)]; unfold detector.describe.
  - assert (G : exists point,
              (if py_eqb (anomaly.expected_value a) (PInt 0)
               then rbind (number (anomaly.expected_value a)) (fun expected =>
                      Ok (points ++ [(metric_name a ++ " (" ++ format_fixed 2 expected
                                      ++ "x expected)")%string]))
               else rbind (float_truediv (metric_value a) (anomaly.expected_value a))
                      (fun difference =>
                      Ok (points ++ [(metric_name a ++ " (" ++ format_float 1 difference
                                      ++ "x higher)")%string])))
              = Ok (points ++ [point])).
    { destruct (py_eqb (anomaly.expected_value a) (PInt 0)) eqn:Ez.
      - apply py_eqb_shape in Ez. simpl in Ez. apply as_number_shape in Ez.
        unfold number. rewrite Ez. cbn [rbind]. eauto.
      - destruct Hz as [Hz|(difference & Hd)].
        + now elim (not_zero_expected _ Ez).
        + rewrite Hd. cbn [rbind]. eauto. }
    destruct Hm as [(z & Hz' & _)|Hm]; [rewrite Hz' in * | rewrite Hm in *]; exact G.
  - rewrite Hv. eauto.
Qed.

Lemma forward_anomaly_describable : describable forward_anomaly.
Proof.
  left. exists 1%R. split.
  - left. exists 1. split; reflexivity.
  - left. reflexivity.
Qed.

Lemma describe_all_describable (anomalies : list Anomaly) (points : list string) :
  Forall describable anomalies ->
  exists texts, detector.describe_all points anomalies = Ok (points ++ texts)
                /\ List.length texts = List.length anomalies.
Proof.
  intros Hd. revert points. induction Hd as [|a anomalies Ha _ IH]; intros points.
  - exists []. split; [simpl; now rewrite app_nil_r | reflexivity].
  - destruct (describe_describable points a Ha) as (point & E).
    destruct (IH (points ++ [point])) as (texts & E' & Hl).
    exists (point :: texts). simpl. rewrite E. cbn [rbind]. rewrite E'.
    split; [now rewrite <- app_assoc | now rewrite Hl].
Qed.

Section Alerts.
Context `{Builtins}.

Lemma generate_description_succeeds (anomalies : list Anomaly)
    (message : detector.message) (total_score : R) (source : pyval) :
  Forall describable anomalies -> anomalies <> [] ->
  lookup (detector.payload message) "source" = Some source ->
  exists text, detector._generate_description anomalies message total_score = Ok text.
Proof.
  intros Hd Hne Hs. unfold detector._generate_description.
  destruct (describe_all_describable anomalies [] Hd) as (texts & -> & Hl).
  cbn [app rbind]. unfold getitem at 2. rewrite Hs.
  assert (Hb : exists body,
            match texts with
            | [point] => Ok point
            | [] => Raise IndexError
            | _ => Ok (String.concat ", " (removelast texts)
                       ++ " and " ++ last texts EmptyString)%string
            end = Ok body).
  { destruct texts as [|p1 [|p2 rest]]; eauto.
    destruct anomalies; [congruence | discriminate]. }
  destruct Hb as (body & ->).
  destruct (truthy (get (detector.payload message) "delta" PNone)) eqn:Ed.
  - unfold getitem. rewrite (truthy_get_lookup _ _ Ed). cbn [rbind]. eauto.
  - cbn [rbind]. eauto.
Qed.

Lemma create_alert_succeeds (self : detector.AnomalyDetector)
    (message : detector.message) (anomalies : list Anomaly) (uuid : string) :
  deliverable self message -> Forall describable anomalies -> anomalies <> [] ->
  exists alert, detector._create_alert self message anomalies uuid = Ok alert.
Proof.
  intros (destination & destination0 & source & date_text & date & article_id
          & method & domain & Hdest & Hfirst & Hsrc & Hdate & Hparse & Hgen
          & Hid & Hmethod & Hdomain) Hd Hne.
  unfold detector._create_alert. fold score_ltb. fold (ranked anomalies).
  assert (Hd' : Forall describable (ranked anomalies))
    by (eapply Permutation_Forall; [apply ranked_perm | exact Hd]).
  assert (Hne' : ranked anomalies <> []).
  { intros E. pose proof (ranked_perm anomalies) as P. rewrite E in P.
    apply Permutation_sym, Permutation_nil in P. congruence. }
  unfold detector.effective_date, getitem.
  rewrite Hdest, Hsrc. cbn [rbind].
  assert (Hmap : exists mapping,
            (if truthy (get (detector.payload message) "delta" PNone)
             then rbind match lookup (detector.payload message) "delta" with
                        | Some v => Ok v
                        | None => Raise KeyError
                        end
                    (fun delta =>
                       Ok (setitem
                             [("source", PStr (double_quote ++ py_str source
                                               ++ double_quote))] "delta" delta))
             else Ok [("source", PStr (double_quote ++ py_str source ++ double_quote))])
            = Ok mapping).
  { destruct (truthy (get (detector.payload message) "delta" PNone)) eqn:Ed.
    - rewrite (truthy_get_lookup _ _ Ed). cbn [rbind]. eauto.
    - eauto. }
  destruct Hmap as (mapping & ->). cbn [rbind].
  rewrite Hfirst, Hdate. cbn [rbind]. rewrite Hparse. cbn [rbind].
  destruct (Hgen mapping) as (urls & ->). cbn [rbind].
  rewrite Hid, Hmethod. cbn [rbind]. rewrite Hdomain. cbn [rbind].
  destruct (generate_description_succeeds (ranked anomalies) message
              (detector._calculate_total_anomaly_score (ranked anomalies))
              source Hd' Hne' Hsrc) as (text & ->).
  cbn [rbind]. destruct (ranked anomalies); [congruence | eauto].
Qed.

(** C9 (as amended): when the detectors return, [run] returns [None] exactly
    when they have left the accumulator empty. When they have collected an
    anomaly, [run] does what [_create_alert] does: it returns the alert that
    is built, and one is built for a deliverable message and describable
    anomalies, or it raises the exception [_create_alert] raises; it does not
    return [None]. What a detector raises, [run] raises. *)
Theorem C9_none_exactly_when_no_anomaly :
  forall (self : detector.AnomalyDetector) (message : detector.message)
         (uuid : string) (s : TelegramPredictionCache),
    (forall s', detector.run self message uuid s = (Ok None, s')
                <-> detector._run_detectors self message s = (Ok [], s'))
    /\ (forall anomalies s',
          detector._run_detectors self message s = (Ok anomalies, s') ->
          anomalies <> [] ->
          detector.run self message uuid s
          = (match detector._create_alert self message anomalies uuid with
             | Ok alert => Ok (Some alert)
             | Raise e => Raise e
             end, s')
          /\ (deliverable self message -> Forall describable anomalies ->
              exists alert,
                detector._create_alert self message anomalies uuid = Ok alert
                /\ detector.run self message uuid s = (Ok (Some alert), s')))
    /\ (forall e s',
          detector._run_detectors self message s = (Raise e, s') ->
          detector.run self message uuid s = (Raise e, s')).
Proof.
  intros self message uuid s. unfold detector.run, bind.
  destruct (detector._run_detectors self message s) as [[anomalies|e] s1] eqn:E.
  - split; [|split].
    + intros s'. destruct anomalies as [|a anomalies]; cbn.
      * split; intros E'; injection E' as <-; reflexivity.
      * unfold lift. destruct (detector._create_alert _ _ _ _); cbn;
          split; intros E'; discriminate E'.
    + intros anomalies' s' E' Hne. injection E' as <- <-.
      assert (G : (if Z.of_nat (List.length anomalies) =? 0
                   then ret None
                   else fun s0 =>
                     match lift (detector._create_alert self message anomalies uuid) s0 with
                     | (Ok a, s'0) => ret (Some a) s'0
                     | (Raise e, s'0) => (Raise e, s'0)
                     end) s1
                  = (match detector._create_alert self message anomalies uuid with
                     | Ok alert => Ok (Some alert)
                     | Raise e => Raise e
                     end, s1)).
      { destruct anomalies; [congruence|].
        cbn. unfold lift. now destruct (detector._create_alert _ _ _ _). }
      split; [exact G|]. intros Hdel Hdesc.
      destruct (create_alert_succeeds self message anomalies uuid Hdel Hdesc Hne)
        as (alert & Ea).
      exists alert. split; [exact Ea|]. rewrite G. now rewrite Ea.
    + intros e s' E'. discriminate E'.
  - split; [|split].
    + intros s'. split; intros E'; discriminate E'.
    + intros anomalies' s' E'. discriminate E'.
    + intros e' s' E'. injection E' as <- <-. reflexivity.
Qed.
End Alerts.

(* ================================================================== *)
(** * The aggregator on the sample data *)
(* ================================================================== *)

Lemma sample_create_alert :
  exists alert,
    @detector._create_alert sample.builtins sample.aggregator (sample.message [])
      [sample.weak; sample.strong_first; sample.strong_second] "uuid" = Ok alert
    /\ alert.description alert
       = "Critical anomaly in country is FR, forward is yes and language is fr found for channel".
Proof.
  eexists. split.
  - unfold detector._create_alert. fold score_ltb.
    fold (ranked [sample.weak; sample.strong_first; sample.strong_second]).
    rewrite sample_ranking. py_run. reflexivity.
  - reflexivity.
Qed.

(** Three anomalies of scores 0.5, 1 and 1: the alert lists the two of score
    1 first, in the order they were found, and its total score is 2.5. *)
Lemma C2_witness :
  exists alert,
    @detector._create_alert sample.builtins sample.aggregator (sample.message [])
      [sample.weak; sample.strong_first; sample.strong_second] "uuid" = Ok alert
    /\ alert._all_anomalies alert
       = map (@to_dict sample.builtins)
             [sample.strong_first; sample.strong_second; sample.weak]
    /\ alert.score alert
       = sum_of_scores [sample.weak; sample.strong_first; sample.strong_second]
    /\ alert.score alert = (5 / 2)%R.
Proof.
  destruct sample_create_alert as (alert & E & _). exists alert.
  destruct (@C2_alert_ranks_and_sums sample.builtins _ _ _ _ _ E)
    as (_ & Ha & _ & _ & _ & Hs).
  split; [exact E|]. split; [now rewrite Ha, sample_ranking|]. split; [exact Hs|].
  rewrite Hs. unfold sum_of_scores. simpl. lra.
Defined.



Lemma sample_detectors_find_the_repost :
  @detector._run_detectors sample.aggregator
     (sample.message (sample.repost "US" 43)) sample.cache
  = (Ok [ {| metric_name := "forward"; metric_value := PInt 1;
             expected_value := PInt 0; score := 1; _weight := 100 |} ],
     sample.cache).
Proof. reflexivity. Qed.

Lemma sample_detectors_find_nothing :
  @detector._run_detectors sample.aggregator
     (sample.message (sample.repost "US" 42)) sample.cache
  = (Ok [], sample.cache).
Proof. reflexivity. Qed.

Lemma sample_message_deliverable (country : string) (forward_from_chat_id : Z) :
  @deliverable sample.builtins sample.aggregator
     (sample.message (sample.repost country forward_from_chat_id)).
Proof.
  exists (PStr "dm_8_countries_tg"), (PStr "dm_8_countries_tg"), (PStr "channel"),
         (PStr "0001-01-01T00:10:30"), (sample.bucket + 30000000),
         (PStr "article-1"), (PStr "TelegramListener"), "Telegram".
  repeat split; try reflexivity. intros mapping. eexists. reflexivity.
Qed.

(** On the sample data: an article forwarded from a chat of its own country
    makes the repost detector add its anomaly, and [run] returns an alert; an
    article for which no detector adds anything gives [None]. *)
Lemma C9_witness :
  @detector._run_detectors sample.aggregator
     (sample.message (sample.repost "US" 42)) sample.cache = (Ok [], sample.cache)
  /\ @detector.run sample.builtins sample.aggregator
       (sample.message (sample.repost "US" 42)) "uuid" sample.cache
     = (Ok None, sample.cache)
  /\ exists alert,
       @detector.run sample.builtins sample.aggregator
         (sample.message (sample.repost "US" 43)) "uuid" sample.cache
       = (Ok (Some alert), sample.cache).
Proof.
  split; [exact sample_detectors_find_nothing|]. split.
  - apply (proj1 (@C9_none_exactly_when_no_anomaly sample.builtins sample.aggregator
                    (sample.message (sample.repost "US" 42)) "uuid" sample.cache)).
    exact sample_detectors_find_nothing.
  - destruct (proj1 (proj2 (@C9_none_exactly_when_no_anomaly sample.builtins
                              sample.aggregator
                              (sample.message (sample.repost "US" 43)) "uuid"
                              sample.cache))
                _ _ sample_detectors_find_the_repost) as [_ Halert].
    + discriminate.
    + destruct Halert as (alert & _ & Hrun); [apply sample_message_deliverable| |].
      * constructor; [apply forward_anomaly_describable | constructor].
      * exists alert. exact Hrun.
Defined.

(** The same article in a message whose payload has no [date]: the repost
    anomaly is collected, and [run] returns neither [None] nor an alert: it
    raises the [KeyError] of [_create_alert]. *)
Lemma C9_counterexample :
  @detector._run_detectors sample.aggregator
     (sample.undated_message (sample.repost "US" 43)) sample.cache
  = (Ok [forward_anomaly], sample.cache)
  /\ @detector.run sample.builtins sample.aggregator
       (sample.undated_message (sample.repost "US" 43)) "uuid" sample.cache
     = (Raise KeyError, sample.cache).
Proof. split; reflexivity. Qed.

(* ================================================================== *)
(** * cachetools.TTLCache: what a lookup finds after insertions *)
(* ================================================================== *)

Section CacheLookups.
Context {K V : Type}.
Variable eqb : K -> K -> bool.
Hypothesis eqb_refl : forall k, eqb k k = true.
Hypothesis eqb_sym : forall k1 k2, eqb k1 k2 = eqb k2 k1.
Hypothesis eqb_trans : forall k1 k2 k3,
  eqb k1 k2 = true -> eqb k2 k3 = true -> eqb k1 k3 = true.

Import cachetools.

(** A lookup returns what [peek] finds and leaves the links as they are. *)
Lemma get_peek (c : TTLCache K V) (time : Z) (k : K) :
  exists c', get eqb c time k = (Ok (peek eqb c time k), c')
             /\ links c' = links c /\ maxsize c' = maxsize c /\ ttl c' = ttl c.
Proof.
  unfold get, contains, getitem, peek.
  destruct (find_link eqb c k) as [l|]; [destruct (time <? expires l)|];
    eexists; (split; [reflexivity|]); auto.
Qed.

Lemma peek_links (c c' : TTLCache K V) (time : Z) (k : K) :
  links c' = links c -> peek eqb c' time k = peek eqb c time k.
Proof. unfold peek, find_link. now intros ->. Qed.

Lemma find_app {A} (f : A -> bool) (l1 l2 : list A) :
  find f (l1 ++ l2) = match find f l1 with Some x => Some x | None => find f l2 end.
Proof.
  induction l1 as [|x l1 IH]; simpl; [reflexivity|]. destruct (f x); auto.
Qed.

Lemma find_filter {A} (p f : A -> bool) (l : list A) :
  (forall x, p x = true -> f x = true) -> find p (filter f l) = find p l.
Proof.
  intros Hpf. induction l as [|x l IH]; simpl; [reflexivity|].
  destruct (f x) eqn:Ef; simpl.
  - destruct (p x); auto.
  - destruct (p x) eqn:Ep; [|exact IH]. rewrite (Hpf x Ep) in Ef. discriminate.
Qed.

Lemma find_none {A} (p : A -> bool) (l : list A) :
  Forall (fun x => p x = false) l -> find p l = None.
Proof. induction 1 as [|x l Hx _ IH]; simpl; [reflexivity|]. now rewrite Hx. Qed.

(** Dropping the expired links does not change what a lookup finds. *)
Lemma peek_expire (c : TTLCache K V) (time : Z) (k : K) :
  unique_keys eqb (links c) -> peek eqb (expire eqb c time) time k = peek eqb c time k.
Proof.
  unfold peek, find_link. cbn [expire links].
  induction (links c) as [|h t IH]; simpl; [reflexivity|]. intros [Hh Hu].
  destruct (time <? expires h) eqn:Eh; simpl.
  - destruct (eqb (key h) k); [now rewrite Eh | now apply IH].
  - destruct (eqb (key h) k) eqn:Ek; [|now apply IH]. rewrite Eh.
    rewrite find_none; [reflexivity|]. apply Forall_forall. intros l Hl.
    apply filter_In in Hl. destruct Hl as [Hl _]. rewrite Forall_forall in Hh.
    specialize (Hh l Hl). destruct (eqb (key l) k) eqn:El; [|reflexivity].
    rewrite eqb_sym in El. rewrite (eqb_trans _ _ _ Ek El) in Hh. discriminate.
Qed.

Lemma make_room_forall (P : Link K V -> Prop) (fuel : nat) (c : TTLCache K V)
    (time : Z) r c' :
  Forall P (links c) -> make_room eqb fuel c time = (r, c') ->
  Forall P (links c') /\ ttl c' = ttl c.
Proof.
  assert (Hpop : forall (c : TTLCache K V) r c', Forall P (links c) ->
                   popitem eqb c time = (r, c') ->
                   Forall P (links c') /\ ttl c' = ttl c).
  { intros c0 r0 c0' H0. unfold popitem.
    assert (H1 : Forall P (links (expire eqb c0 time))).
    { simpl. eapply incl_Forall; [apply incl_filter | exact H0]. }
    destruct (order (expire eqb c0 time)); intros E; injection E as _ <-;
      [now split|].
    split; [|reflexivity]. unfold delitem, without; simpl.
    eapply incl_Forall; [apply incl_filter|].
    eapply incl_Forall; [apply incl_filter | exact H0]. }
  revert c. induction fuel as [|fuel IH]; intros c Hc; simpl;
    destruct (maxsize c <? currsize c + 1).
  - apply Hpop, Hc.
  - intros E; injection E as _ <-; now split.
  - destruct (popitem eqb c time) as [[u|e] c1] eqn:E1.
    + intros E. destruct (Hpop _ _ _ Hc E1) as [H1 T1].
      destruct (IH c1 H1 E) as [H2 T2]. split; [exact H2 | congruence].
    + intros E; injection E as _ <-. eapply Hpop; eassumption.
  - intros E; injection E as _ <-; now split.
Qed.

(** The links an insertion leaves are links that were there and the one it
    makes: the key given (or the equal key already there), the value given,
    expiring one time to live from now. *)
Lemma setitem_forall (P : Link K V -> Prop) (c : TTLCache K V) (time : Z)
    (k : K) (v : V) r c' :
  Forall P (links c) ->
  (forall k0, eqb k0 k = true ->
              P {| key := k0; value := v; expires := time + ttl c |}) ->
  setitem eqb c time k v = (r, c') ->
  Forall P (links c') /\ ttl c' = ttl c.
Proof.
  intros Hc Hnew. unfold setitem.
  assert (H1 : Forall P (links (expire eqb c time))).
  { simpl. eapply incl_Forall; [apply incl_filter | exact Hc]. }
  destruct (maxsize (expire eqb c time) <? 1).
  { intros E; injection E as _ <-; now split. }
  destruct (if has_key eqb (links (expire eqb c time)) k
            then (Ok tt, expire eqb c time)
            else make_room eqb (List.length (links (expire eqb c time)))
                           (expire eqb c time) time) as [r2 c2] eqn:E2.
  assert (H2 : Forall P (links c2) /\ ttl c2 = ttl c).
  { destruct (has_key eqb (links (expire eqb c time)) k).
    - injection E2 as _ <-. now split.
    - eapply make_room_forall in E2; [|exact H1]. exact E2. }
  destruct H2 as [H2 T2].
  destruct r2 as [u|e]; intros E; injection E as _ <-; [|now split].
  split; [|exact T2]. simpl. apply Forall_app. split.
  - eapply incl_Forall; [apply incl_filter | exact H2].
  - constructor; [|constructor]. rewrite T2. apply Hnew. unfold find_link.
    destruct (find _ (links c2)) as [l|] eqn:Ef; [|apply eqb_refl].
    apply find_some in Ef. tauto.
Qed.

Lemma make_room_not_full (fuel : nat) (c : TTLCache K V) (time : Z) :
  (maxsize c <? currsize c + 1) = false -> make_room eqb fuel c time = (Ok tt, c).
Proof. intros E. destruct fuel; simpl; now rewrite E. Qed.

(** An insertion into a cache with room: the key inserted answers with the
    new value, every other key as before. *)
Lemma setitem_peek (c : TTLCache K V) (time : Z) (k : K) (v : V) :
  well_formed eqb c -> 0 < ttl c ->
  Z.of_nat (List.length (live c time)) < maxsize c ->
  exists c', setitem eqb c time k v = (Ok tt, c')
    /\ (forall k', peek eqb c' time k'
                   = if eqb k k' then Some v else peek eqb c time k')
    /\ well_formed eqb c' /\ ttl c' = ttl c /\ maxsize c' = maxsize c
    /\ (List.length (live c' time) <= S (List.length (live c time)))%nat.
Proof.
  intros W Httl Hroom.
  destruct (setitem eqb c time k v) as [r c'] eqn:E.
  pose proof (setitem_well_formed eqb eqb_refl eqb_trans c time k v r c' W E) as W'.
  pose proof (setitem_maxsize eqb c time k v r c' E) as M'.
  revert E. unfold setitem.
  replace (maxsize (expire eqb c time)) with (maxsize c) by reflexivity.
  destruct (maxsize c <? 1) eqn:E1; [apply Z.ltb_lt in E1; lia|].
  assert (E2 : (if has_key eqb (links (expire eqb c time)) k
                then (Ok tt, expire eqb c time)
                else make_room eqb (List.length (links (expire eqb c time)))
                               (expire eqb c time) time)
               = (Ok tt, expire eqb c time)).
  { destruct (has_key eqb (links (expire eqb c time)) k); [reflexivity|].
    assert (Ef : (maxsize (expire eqb c time) <? currsize (expire eqb c time) + 1)
                 = false).
    { apply Z.ltb_ge. unfold currsize. cbn [expire links maxsize].
      unfold live in Hroom. lia. }
    now apply make_room_not_full. }
  rewrite E2. intros E. injection E as <- <-. exists
    {| maxsize := maxsize c; ttl := ttl c;
       links := without eqb k (links (expire eqb c time))
                ++ [ {| key := match find_link eqb (expire eqb c time) k with
                               | Some l => key l | None => k end;
                        value := v; expires := time + ttl c |} ];
       order := move_to_end eqb
                  match find_link eqb (expire eqb c time) k with
                  | Some l => key l | None => k end
                  (order (expire eqb c time)) |}.
  split; [reflexivity|].
  assert (Ek0 : eqb (match find_link eqb (expire eqb c time) k with
                     | Some l => key l | None => k end) k = true).
  { unfold find_link. destruct (find _ (links (expire eqb c time))) as [l|] eqn:Ef.
    - apply find_some in Ef. tauto.
    - apply eqb_refl. }
  set (k0 := match find_link eqb (expire eqb c time) k with
             | Some l => key l | None => k end) in *.
  split; [|split; [exact W'|split; [reflexivity|split; [reflexivity|]]]].
  - intros k'. rewrite <- (peek_expire c time k' (proj1 W)).
    unfold peek at 1, find_link. cbn [links]. rewrite find_app.
    destruct (eqb k k') eqn:Ekk.
    + rewrite find_none.
      * simpl. rewrite (eqb_trans _ _ _ Ek0 Ekk). cbn [expires value].
        replace (time <? time + ttl c) with true by (symmetry; apply Z.ltb_lt; lia).
        reflexivity.
      * apply Forall_forall. intros l Hl. unfold without in Hl.
        apply filter_In in Hl. destruct Hl as [_ Hl]. apply negb_true_iff in Hl.
        destruct (eqb (key l) k') eqn:El; [|reflexivity].
        rewrite (eqb_sym k k') in Ekk. rewrite (eqb_trans _ _ _ El Ekk) in Hl.
        discriminate.
    + unfold without. rewrite find_filter.
      * unfold peek, find_link.
        destruct (find (fun l => eqb (key l) k') (links (expire eqb c time)));
          [reflexivity|].
        simpl. destruct (eqb k0 k') eqn:E0; [|reflexivity].
        rewrite eqb_sym in Ek0. rewrite (eqb_trans _ _ _ Ek0 E0) in Ekk.
        discriminate.
      * intros l El. apply negb_true_iff.
        destruct (eqb (key l) k) eqn:Elk; [|reflexivity].
        rewrite eqb_sym in Elk. rewrite (eqb_trans _ _ _ Elk El) in Ekk.
        discriminate.
  - unfold live. cbn [links]. rewrite filter_app, length_app. simpl.
    assert (Hle : Nat.le
                    (List.length
                       (filter (fun l => time <? expires l)
                          (without eqb k (links (expire eqb c time)))))
                    (List.length (filter (fun l => time <? expires l) (links c)))).
    { etransitivity; [apply filter_length_le|]. apply filter_length_le. }
    unfold Nat.le in Hle. cbn [expire links] in Hle.
    destruct (time <? time + ttl c); simpl; lia.
Qed.

(** The assignments of a refill, when the cache has room for them all: a key
    answers with the value of the last assignment to it, and as before when
    there was none. *)
Lemma store_all_peek (time : Z) (items : list (K * V)) (c : TTLCache K V) :
  well_formed eqb c -> 0 < ttl c ->
  Z.of_nat (List.length (live c time)) + Z.of_nat (List.length items) <= maxsize c ->
  exists c', store_all eqb c time items = (Ok tt, c')
    /\ well_formed eqb c' /\ ttl c' = ttl c /\ maxsize c' = maxsize c
    /\ forall k', peek eqb c' time k'
                  = match assigned eqb items k' with
                    | Some v => Some v
                    | None => peek eqb c time k'
                    end.
Proof.
  revert c. induction items as [|[k v] items IH]; intros c W Httl Hroom.
  - exists c. simpl. repeat split; try assumption; apply W.
  - simpl in Hroom.
    destruct (setitem_peek c time k v W Httl) as (c1 & E1 & P1 & W1 & T1 & M1 & L1);
      [lia|].
    destruct (IH c1 W1) as (c' & E' & W' & T' & M' & P'); [lia | lia |].
    exists c'. simpl. rewrite E1. split; [exact E'|].
    split; [exact W'|]. split; [congruence|]. split; [congruence|].
    intros k'. rewrite P', P1.
    destruct (assigned eqb items k'); [reflexivity|]. now destruct (eqb k k').
Qed.

End CacheLookups.

(* ================================================================== *)
(** * The prediction cache: what the methods keep *)
(* ================================================================== *)

Lemma with_statistics_same (self : TelegramPredictionCache) :
  with_statistics self (_statistics self) = self.
Proof. destruct self; reflexivity. Qed.

Lemma with_coefficients_same (self : TelegramPredictionCache) :
  with_coefficients self (_coefficients self) = self.
Proof. destruct self; reflexivity. Qed.

(** ** The loops of the refills are sequences of insertions *)

Lemma for_each_predictions_set (rows : list PredictionRow) (s : TelegramPredictionCache) :
  for_each rows (fun row =>
    predictions_set (replace_second0_microsecond0 (p_date row), p_chat_id row, p_delta row)
                    (p_columns row)) s
  = let (r, c) := store_all prediction_key_eqb (_predictions s) (timer s)
                    (map prediction_item rows) in
    (r, with_predictions s c).
Proof.
  revert s. induction rows as [|row rows IH]; intros s; simpl.
  - now rewrite with_predictions_same.
  - unfold bind, predictions_set at 1.
    destruct (cachetools.setitem _ _ _ _ _) as [[u|e] c1]; [|reflexivity].
    rewrite IH. reflexivity.
Qed.

Lemma for_each_statistics_set (rows : list StatisticRow) (s : TelegramPredictionCache) :
  for_each rows (fun row =>
    statistics_set (s_date_from row, s_date_to row, s_chat_id row, s_delta row, s_metric row)
                   (s_columns row)) s
  = let (r, c) := store_all statistic_key_eqb (_statistics s) (timer s)
                    (map statistic_item rows) in
    (r, with_statistics s c).
Proof.
  revert s. induction rows as [|row rows IH]; intros s; simpl.
  - now rewrite with_statistics_same.
  - unfold bind, statistics_set at 1.
    destruct (cachetools.setitem _ _ _ _ _) as [[u|e] c1]; [|reflexivity].
    rewrite IH. reflexivity.
Qed.

Lemma for_each_coefficients_set (rows : list CoefficientRow) (s : TelegramPredictionCache) :
  for_each rows (fun row => coefficients_set (c_id row) (c_columns row)) s
  = let (r, c) := store_all py_eqb (_coefficients s) (timer s)
                    (map coefficient_item rows) in
    (r, with_coefficients s c).
Proof.
  revert s. induction rows as [|row rows IH]; intros s; simpl.
  - now rewrite with_coefficients_same.
  - unfold bind, coefficients_set at 1.
    destruct (cachetools.setitem _ _ _ _ _) as [[u|e] c1]; [|reflexivity].
    rewrite IH. reflexivity.
Qed.

(** ** A property the primitive steps keep is kept by the methods *)

Section MethodsKeep.
Variable I : TelegramPredictionCache -> Prop.
Variable db0 : ConnectionDB.
Hypothesis I_db : forall s, I s -> _connection_db_metrics s = db0.
Hypothesis I_query : forall s q, I s -> I (with_query s q).
Hypothesis I_predictions_get : forall k, preserves I (predictions_get k).
Hypothesis I_predictions_set : forall row,
  In row (metrics_telegram_prediction db0) ->
  preserves I (predictions_set (fst (prediction_item row)) (snd (prediction_item row))).
Hypothesis I_statistics_getitem : forall k, preserves I (statistics_getitem k).
Hypothesis I_statistics_set : forall row,
  In row (metrics_telegram_statistic db0) ->
  preserves I (statistics_set (fst (statistic_item row)) (snd (statistic_item row))).
Hypothesis I_coefficients_get : forall k, preserves I (coefficients_get k).
Hypothesis I_coefficients_set : forall row,
  In row (metrics_telegram_coefficient db0) ->
  preserves I (coefficients_set (c_id row) (c_columns row)).

Lemma methods_keep__get_nearest_date (dt : datetime) :
  preserves I (_get_nearest_date dt).
Proof. intros s r s' Hs E. injection E as _ <-. exact Hs. Qed.

Lemma methods_keep_statistics_iter : preserves I statistics_iter.
Proof. intros s r s' Hs E. injection E as _ <-. exact Hs. Qed.

Lemma methods_keep__get_predictions_from_db (a b : datetime) :
  preserves I (_get_predictions_from_db a b).
Proof.
  intros s r s' Hs. unfold _get_predictions_from_db, bind at 1.
  unfold query_predictions at 1. cbv beta iota.
  apply preserves_for_each; [|apply I_query, Hs].
  intros row Hrow. apply filter_In in Hrow. rewrite (I_db s Hs) in Hrow.
  apply (I_predictions_set row). tauto.
Qed.

Lemma methods_keep__get_statistics_from_db (d : datetime) :
  preserves I (_get_statistics_from_db d).
Proof.
  intros s r s' Hs. unfold _get_statistics_from_db, bind at 1.
  unfold query_statistics at 1. cbv beta iota.
  apply preserves_for_each; [|apply I_query, Hs].
  intros row Hrow. apply filter_In in Hrow. rewrite (I_db s Hs) in Hrow.
  apply (I_statistics_set row). tauto.
Qed.

Lemma methods_keep__get_coefficients_from_db :
  preserves I _get_coefficients_from_db.
Proof.
  intros s r s' Hs. unfold _get_coefficients_from_db, bind at 1.
  unfold query_coefficients at 1. cbv beta iota.
  apply preserves_for_each; [|apply I_query, Hs].
  intros row Hrow. rewrite (I_db s Hs) in Hrow.
  apply (I_coefficients_set row). exact Hrow.
Qed.

Lemma methods_keep_get_prediction (date : datetime) (chat_id delta : pyval) :
  preserves I (get_prediction date chat_id delta).
Proof.
  unfold get_prediction.
  apply preserves_bind; [apply methods_keep__get_nearest_date|]. intros d.
  apply preserves_bind; [apply I_predictions_get|].
  intros [p|]; [apply preserves_ret|].
  apply preserves_bind; [apply preserves_gets|]. intros w.
  apply preserves_bind; [apply methods_keep__get_predictions_from_db|].
  intros _. apply I_predictions_get.
Qed.

Lemma methods_keep_get_latest_statistics (date : datetime) (chat_id delta metric : pyval) :
  preserves I (get_latest_statistics date chat_id delta metric).
Proof.
  unfold get_latest_statistics.
  apply preserves_bind; [apply methods_keep_statistics_iter|]. intros keys.
  apply preserves_bind.
  - apply preserves_for_fold. intros rows row _.
    destruct (row_matches date chat_id delta metric row); [|apply preserves_ret].
    apply preserves_bind; [apply I_statistics_getitem|].
    intros v. apply preserves_ret.
  - intros rows. destruct (0 <? Z.of_nat (List.length rows)); apply preserves_ret.
Qed.

Lemma methods_keep_get_statistics (date : datetime) (chat_id delta metric : pyval) :
  preserves I (get_statistics date chat_id delta metric).
Proof.
  unfold get_statistics.
  apply preserves_bind; [apply methods_keep_get_latest_statistics|].
  intros [p|]; [apply preserves_ret|].
  apply preserves_bind; [apply methods_keep__get_statistics_from_db|]. intros _.
  apply methods_keep_get_latest_statistics.
Qed.

Lemma methods_keep_get_coefficients (chat_id : pyval) :
  preserves I (get_coefficients chat_id).
Proof.
  unfold get_coefficients.
  apply preserves_bind; [apply I_coefficients_get|].
  intros [p|]; [apply preserves_ret|].
  apply preserves_bind; [apply methods_keep__get_coefficients_from_db|].
  intros _. apply I_coefficients_get.
Qed.
End MethodsKeep.

(** ** Settings and properties of the links *)

Ltac same_settings :=
  unfold settings in *;
  cbn [timer _connection_db_metrics _prediction_step cache_big_update_window
       cache_small_update_window _predictions _statistics _coefficients queries
       with_predictions with_statistics with_coefficients with_query] in *;
  congruence.

Section Kept.
Variable self0 : TelegramPredictionCache.
Variable Pp : cachetools.Link prediction_key dict -> Prop.
Variable Ps : cachetools.Link statistic_key dict -> Prop.
Variable Pc : cachetools.Link pyval dict -> Prop.

Hypothesis new_prediction : forall row k0,
  In row (metrics_telegram_prediction (_connection_db_metrics self0)) ->
  prediction_key_eqb k0 (fst (prediction_item row)) = true ->
  Pp {| cachetools.key := k0; cachetools.value := p_columns row;
        cachetools.expires := timer self0 + cachetools.ttl (_predictions self0) |}.
Hypothesis new_statistic : forall row k0,
  In row (metrics_telegram_statistic (_connection_db_metrics self0)) ->
  statistic_key_eqb k0 (fst (statistic_item row)) = true ->
  Ps {| cachetools.key := k0; cachetools.value := s_columns row;
        cachetools.expires := timer self0 + cachetools.ttl (_statistics self0) |}.
Hypothesis new_coefficient : forall row k0,
  In row (metrics_telegram_coefficient (_connection_db_metrics self0)) ->
  py_eqb k0 (c_id row) = true ->
  Pc {| cachetools.key := k0; cachetools.value := c_columns row;
        cachetools.expires := timer self0 + cachetools.ttl (_coefficients self0) |}.

#[local] Abbreviation I := (kept self0 Pp Ps Pc).

Lemma kept_db (s : TelegramPredictionCache) :
  I s -> _connection_db_metrics s = _connection_db_metrics self0.
Proof. intros [Hs _]. same_settings. Qed.

Lemma kept_with_query (s : TelegramPredictionCache) (q : Query) :
  I s -> I (with_query s q).
Proof. intros (Hs & Hp & Hst & Hc). split; [same_settings|]. auto. Qed.

Lemma kept_predictions_get (k : prediction_key) : preserves I (predictions_get k).
Proof.
  intros s r s' (Hs & Hp & Hst & Hc) E. unfold predictions_get in E.
  destruct k as [[d c] x]. destruct (hashable c && hashable x).
  - destruct (cachetools.get _ _ _ _) as [r1 c1] eqn:E1. injection E as _ <-.
    apply get_links in E1. destruct E1 as (El & Em & Et).
    split; [same_settings|]. cbn. rewrite El. auto.
  - injection E as _ <-. repeat split; assumption.
Qed.

Lemma kept_predictions_set (row : PredictionRow) :
  In row (metrics_telegram_prediction (_connection_db_metrics self0)) ->
  preserves I (predictions_set (fst (prediction_item row)) (snd (prediction_item row))).
Proof.
  intros Hrow s r s' (Hs & Hp & Hst & Hc) E. unfold predictions_set in E.
  destruct (cachetools.setitem _ _ _ _ _) as [r1 c1] eqn:E1. injection E as _ <-.
  pose proof (setitem_maxsize _ _ _ _ _ _ _ E1) as Em.
  apply (setitem_forall prediction_key_eqb prediction_key_eqb_refl Pp) in E1.
  - destruct E1 as [Hp1 Et]. split; [same_settings|]. cbn. auto.
  - exact Hp.
  - intros k0 Ek. replace (timer s) with (timer self0) by same_settings.
    replace (cachetools.ttl (_predictions s))
      with (cachetools.ttl (_predictions self0)) by same_settings.
    now apply new_prediction.
Qed.

Lemma kept_statistics_getitem (k : statistic_key) :
  preserves I (statistics_getitem k).
Proof.
  intros s r s' (Hs & Hp & Hst & Hc) E. unfold statistics_getitem in E.
  destruct (cachetools.getitem _ _ _ _) as [r1 c1] eqn:E1. injection E as _ <-.
  apply getitem_links in E1. destruct E1 as (El & Em & Et).
  split; [same_settings|]. cbn. rewrite El. auto.
Qed.

Lemma kept_statistics_set (row : StatisticRow) :
  In row (metrics_telegram_statistic (_connection_db_metrics self0)) ->
  preserves I (statistics_set (fst (statistic_item row)) (snd (statistic_item row))).
Proof.
  intros Hrow s r s' (Hs & Hp & Hst & Hc) E. unfold statistics_set in E.
  destruct (cachetools.setitem _ _ _ _ _) as [r1 c1] eqn:E1. injection E as _ <-.
  pose proof (setitem_maxsize _ _ _ _ _ _ _ E1) as Em.
  apply (setitem_forall statistic_key_eqb statistic_key_eqb_refl Ps) in E1.
  - destruct E1 as [Hs1 Et]. split; [same_settings|]. cbn. auto.
  - exact Hst.
  - intros k0 Ek. replace (timer s) with (timer self0) by same_settings.
    replace (cachetools.ttl (_statistics s))
      with (cachetools.ttl (_statistics self0)) by same_settings.
    now apply new_statistic.
Qed.

Lemma kept_coefficients_get (k : pyval) : preserves I (coefficients_get k).
Proof.
  intros s r s' (Hs & Hp & Hst & Hc) E. unfold coefficients_get in E.
  destruct (hashable k).
  - destruct (cachetools.get _ _ _ _) as [r1 c1] eqn:E1. injection E as _ <-.
    apply get_links in E1. destruct E1 as (El & Em & Et).
    split; [same_settings|]. cbn. rewrite El. auto.
  - injection E as _ <-. repeat split; assumption.
Qed.

Lemma kept_coefficients_set (row : CoefficientRow) :
  In row (metrics_telegram_coefficient (_connection_db_metrics self0)) ->
  preserves I (coefficients_set (c_id row) (c_columns row)).
Proof.
  intros Hrow s r s' (Hs & Hp & Hst & Hc) E. unfold coefficients_set in E.
  destruct (cachetools.setitem _ _ _ _ _) as [r1 c1] eqn:E1. injection E as _ <-.
  pose proof (setitem_maxsize _ _ _ _ _ _ _ E1) as Em.
  apply (setitem_forall py_eqb py_eqb_refl Pc) in E1.
  - destruct E1 as [Hc1 Et]. split; [same_settings|]. cbn. auto.
  - exact Hc.
  - intros k0 Ek. replace (timer s) with (timer self0) by same_settings.
    replace (cachetools.ttl (_coefficients s))
      with (cachetools.ttl (_coefficients self0)) by same_settings.
    now apply new_coefficient.
Qed.

Lemma kept__get_predictions_from_db (a b : datetime) :
  preserves I (_get_predictions_from_db a b).
Proof.
  apply (methods_keep__get_predictions_from_db I (_connection_db_metrics self0));
    auto using kept_db, kept_with_query, kept_predictions_set.
Qed.

Lemma kept__get_statistics_from_db (d : datetime) :
  preserves I (_get_statistics_from_db d).
Proof.
  apply (methods_keep__get_statistics_from_db I (_connection_db_metrics self0));
    auto using kept_db, kept_with_query, kept_statistics_set.
Qed.

Lemma kept__get_coefficients_from_db : preserves I _get_coefficients_from_db.
Proof.
  apply (methods_keep__get_coefficients_from_db I (_connection_db_metrics self0));
    auto using kept_db, kept_with_query, kept_coefficients_set.
Qed.

Lemma kept_get_prediction (date : datetime) (chat_id delta : pyval) :
  preserves I (get_prediction date chat_id delta).
Proof.
  apply (methods_keep_get_prediction I (_connection_db_metrics self0));
    auto using kept_db, kept_with_query, kept_predictions_get, kept_predictions_set.
Qed.

Lemma kept_get_statistics (date : datetime) (chat_id delta metric : pyval) :
  preserves I (get_statistics date chat_id delta metric).
Proof.
  apply (methods_keep_get_statistics I (_connection_db_metrics self0));
    auto using kept_db, kept_with_query, kept_statistics_getitem, kept_statistics_set.
Qed.

Lemma kept_get_coefficients (chat_id : pyval) :
  preserves I (get_coefficients chat_id).
Proof.
  apply (methods_keep_get_coefficients I (_connection_db_metrics self0));
    auto using kept_db, kept_with_query, kept_coefficients_get, kept_coefficients_set.
Qed.
End Kept.

(** ** The settings of an object never change *)

Lemma kept_trivially (self : TelegramPredictionCache) :
  kept self (fun _ => True) (fun _ => True) (fun _ => True) self.
Proof.
  split; [reflexivity|]. repeat split; apply Forall_forall; intros; exact I.
Qed.

Lemma get_prediction_settings (date : datetime) (chat_id delta : pyval) self r self' :
  get_prediction date chat_id delta self = (r, self') -> settings self' = settings self.
Proof.
  intros E.
  assert (K : kept self (fun _ => True) (fun _ => True) (fun _ => True) self').
  { eapply kept_get_prediction; [..|apply kept_trivially|exact E]; intros; exact I. }
  apply K.
Qed.

Lemma get_statistics_settings (date : datetime) (chat_id delta metric : pyval)
    self r self' :
  get_statistics date chat_id delta metric self = (r, self') ->
  settings self' = settings self.
Proof.
  intros E.
  assert (K : kept self (fun _ => True) (fun _ => True) (fun _ => True) self').
  { eapply kept_get_statistics; [..|apply kept_trivially|exact E]; intros; exact I. }
  apply K.
Qed.

Lemma get_coefficients_settings (chat_id : pyval) self r self' :
  get_coefficients chat_id self = (r, self') -> settings self' = settings self.
Proof.
  intros E.
  assert (K : kept self (fun _ => True) (fun _ => True) (fun _ => True) self').
  { eapply kept_get_coefficients; [..|apply kept_trivially|exact E]; intros; exact I. }
  apply K.
Qed.

(** The constructor stores its arguments and runs the three refills. *)
Lemma init_kept (Pp : cachetools.Link prediction_key dict -> Prop)
    (Ps : cachetools.Link statistic_key dict -> Prop)
    (Pc : cachetools.Link pyval dict -> Prop)
    db step bs bu br ss su sr now clock r self :
  (forall row k0, In row (metrics_telegram_prediction db) ->
     prediction_key_eqb k0 (fst (prediction_item row)) = true ->
     Pp {| cachetools.key := k0; cachetools.value := p_columns row;
           cachetools.expires := clock + br |}) ->
  (forall row k0, In row (metrics_telegram_statistic db) ->
     statistic_key_eqb k0 (fst (statistic_item row)) = true ->
     Ps {| cachetools.key := k0; cachetools.value := s_columns row;
           cachetools.expires := clock + sr |}) ->
  (forall row k0, In row (metrics_telegram_coefficient db) ->
     py_eqb k0 (c_id row) = true ->
     Pc {| cachetools.key := k0; cachetools.value := c_columns row;
           cachetools.expires := clock + sr |}) ->
  __init__ db step bs bu br ss su sr now clock = (r, self) ->
  _connection_db_metrics self = db /\ timer self = clock
  /\ _prediction_step self = step
  /\ cachetools.ttl (_predictions self) = br
  /\ cachetools.ttl (_statistics self) = sr
  /\ cachetools.ttl (_coefficients self) = sr
  /\ Forall Pp (cachetools.links (_predictions self))
  /\ Forall Ps (cachetools.links (_statistics self))
  /\ Forall Pc (cachetools.links (_coefficients self)).
Proof.
  intros Hp Hs Hc E. unfold __init__ in E.
  match type of E with ?c ?s0 = _ =>
    assert (K : kept s0 Pp Ps Pc self) end.
  { revert E.
    match goal with |- ?c ?s0 = _ -> _ =>
      assert (P : preserves (kept s0 Pp Ps Pc) c);
      [|intros E; eapply P; [|exact E]] end.
    - apply preserves_bind; [apply kept__get_predictions_from_db; exact Hp|].
      intros _.
      apply preserves_bind; [apply kept__get_statistics_from_db; exact Hs|].
      intros _. apply kept__get_coefficients_from_db; exact Hc.
    - split; [reflexivity|]. repeat split; constructor. }
  destruct K as (Ks & Kp & Kst & Kc). unfold settings in Ks. cbn in Ks.
  injection Ks as -> -> -> _ _ _ -> _ -> _ ->. repeat split; assumption.
Qed.

(* ================================================================== *)
(** * The prediction cache: the date a prediction is looked up under *)
(* ================================================================== *)

(** With a positive step the rounding succeeds: it takes the minutes past the
    last multiple of the step, and the seconds, off the date. *)
Lemma _get_nearest_date_value (s : TelegramPredictionCache) (dt : datetime) :
  0 < _prediction_step s ->
  _get_nearest_date dt s
  = (Ok (dt - (minute dt mod _prediction_step s) * 60000000 - second dt * 1000000), s).
Proof.
  intros Hstep. unfold _get_nearest_date, py_mod.
  destruct (_prediction_step s =? 0) eqn:E0; [apply Z.eqb_eq in E0; lia|].
  cbn [rbind]. unfold replace_minute_second.
  pose proof (minute_range dt) as Hm.
  pose proof (Z.mod_pos_bound (minute dt) (_prediction_step s) Hstep) as Hb.
  assert (Hle : minute dt mod _prediction_step s <= minute dt)
    by (apply Z.mod_le; lia).
  replace ((0 <=? minute dt - minute dt mod _prediction_step s)
           && (minute dt - minute dt mod _prediction_step s <? 60)
           && (0 <=? 0) && (0 <? 60)) with true.
  - f_equal. f_equal. lia.
  - symmetry. rewrite !andb_true_iff, !Z.leb_le, !Z.ltb_lt. lia.
Qed.

Lemma minute_of_rounded (dt : datetime) (m : Z) :
  0 <= m <= minute dt ->
  minute (dt - m * 60000000 - second dt * 1000000) = minute dt - m
  /\ second (dt - m * 60000000 - second dt * 1000000) = 0
  /\ microsecond (dt - m * 60000000 - second dt * 1000000) = microsecond dt
  /\ (dt - m * 60000000 - second dt * 1000000) / 3600000000 = dt / 3600000000.
Proof.
  unfold minute, second, microsecond. intros Hm.
  repeat split; Z.div_mod_to_equations; lia.
Qed.

(** X1: with a positive step, the date a prediction is looked up under is the
    date rounded down, never up: it is not later than the date and less than
    one step before it, in the same hour, at a minute that is a multiple of
    the step and at second zero; the microseconds are those of the date. *)
Theorem X1_nearest_date_rounds_down :
  forall (self : TelegramPredictionCache) (dt : datetime),
    0 < _prediction_step self ->
    exists dt',
      _get_nearest_date dt self = (Ok dt', self)
      /\ dt' <= dt < dt' + _prediction_step self * 60000000
      /\ dt' / 3600000000 = dt / 3600000000
      /\ minute dt' mod _prediction_step self = 0
      /\ second dt' = 0
      /\ microsecond dt' = microsecond dt.
Proof.
  intros self dt Hstep. eexists. split; [now apply _get_nearest_date_value|].
  pose proof (minute_range dt) as Hm.
  pose proof (Z.mod_pos_bound (minute dt) (_prediction_step self) Hstep) as Hb.
  assert (Hle : minute dt mod _prediction_step self <= minute dt)
    by (apply Z.mod_le; lia).
  destruct (minute_of_rounded dt (minute dt mod _prediction_step self))
    as (Emin & Esec & Eus & Ehour); [lia|].
  split; [|split; [exact Ehour|split; [|split; [exact Esec | exact Eus]]]].
  - assert (Hs : 0 <= second dt < 60) by (unfold second; apply Z.mod_pos_bound; lia).
    nia.
  - rewrite Emin.
    rewrite (Z.div_mod (minute dt) (_prediction_step self)) at 1 by lia.
    replace (_prediction_step self * (minute dt / _prediction_step self)
             + minute dt mod _prediction_step self
             - minute dt mod _prediction_step self)
      with ((minute dt / _prediction_step self) * _prediction_step self) by lia.
    apply Z.mod_mul. lia.
Qed.

Lemma X1_witness :
  0 < _prediction_step sample.cache
  /\ exists dt',
       _get_nearest_date (sample.bucket + 299999999) sample.cache
       = (Ok dt', sample.cache)
       /\ dt' <= sample.bucket + 299999999
             < dt' + _prediction_step sample.cache * 60000000
       /\ dt' / 3600000000 = (sample.bucket + 299999999) / 3600000000
       /\ minute dt' mod _prediction_step sample.cache = 0
       /\ second dt' = 0
       /\ microsecond dt' = microsecond (sample.bucket + 299999999).
Proof.
  assert (H : 0 < _prediction_step sample.cache) by (vm_compute; reflexivity).
  split; [exact H|].
  exact (X1_nearest_date_rounds_down sample.cache (sample.bucket + 299999999) H).
Defined.

(** X2: rounding a date that has been rounded changes nothing. *)
Theorem X2_nearest_date_is_idempotent :
  forall (self : TelegramPredictionCache) (dt dt' : datetime),
    0 < _prediction_step self ->
    _get_nearest_date dt self = (Ok dt', self) ->
    _get_nearest_date dt' self = (Ok dt', self).
Proof.
  intros self dt dt' Hstep E.
  rewrite (_get_nearest_date_value self dt Hstep) in E. injection E as E.
  rewrite (_get_nearest_date_value self dt' Hstep).
  pose proof (minute_range dt) as Hm.
  pose proof (Z.mod_pos_bound (minute dt) (_prediction_step self) Hstep) as Hb.
  assert (Hle : minute dt mod _prediction_step self <= minute dt)
    by (apply Z.mod_le; lia).
  destruct (minute_of_rounded dt (minute dt mod _prediction_step self))
    as (Emin & Esec & _); [lia|].
  rewrite E in Emin, Esec. rewrite Esec, Emin.
  replace ((minute dt - minute dt mod _prediction_step self) mod _prediction_step self)
    with 0; [now replace (dt' - 0 * 60000000 - 0 * 1000000) with dt' by lia|].
  symmetry.
  rewrite (Z.div_mod (minute dt) (_prediction_step self)) at 1 by lia.
  replace (_prediction_step self * (minute dt / _prediction_step self)
           + minute dt mod _prediction_step self
           - minute dt mod _prediction_step self)
    with ((minute dt / _prediction_step self) * _prediction_step self) by lia.
  apply Z.mod_mul. lia.
Qed.

Lemma X2_witness :
  _get_nearest_date (sample.bucket + 299000000) sample.cache
  = (Ok sample.bucket, sample.cache)
  /\ _get_nearest_date sample.bucket sample.cache = (Ok sample.bucket, sample.cache).
Proof.
  assert (H : 0 < _prediction_step sample.cache) by (vm_compute; reflexivity).
  assert (E : _get_nearest_date (sample.bucket + 299000000) sample.cache
              = (Ok sample.bucket, sample.cache)) by (vm_compute; reflexivity).
  split; [exact E|].
  exact (X2_nearest_date_is_idempotent sample.cache _ _ H E).
Defined.

(* ================================================================== *)
(** * The prediction cache: the getters return *)
(* ================================================================== *)

Lemma statistics_set_ok (s : TelegramPredictionCache) (k : statistic_key) (v : dict) :
  cache_ok s -> 1 <= cachetools.maxsize (_statistics s) ->
  exists s', statistics_set k v s = (Ok tt, s')
             /\ cachetools.maxsize (_statistics s') = cachetools.maxsize (_statistics s).
Proof.
  intros (_ & Ws & _) Hm. unfold statistics_set.
  destruct (setitem_ok statistic_key_eqb statistic_key_eqb_trans
              (_statistics s) (timer s) k v Ws Hm)
    as (c' & -> & Hm').
  eexists. split; [reflexivity | exact Hm'].
Qed.

Lemma coefficients_set_ok (s : TelegramPredictionCache) (k : pyval) (v : dict) :
  cache_ok s -> 1 <= cachetools.maxsize (_coefficients s) ->
  exists s', coefficients_set k v s = (Ok tt, s')
             /\ cachetools.maxsize (_coefficients s') = cachetools.maxsize (_coefficients s).
Proof.
  intros (_ & _ & Wc & _) Hm. unfold coefficients_set.
  destruct (setitem_ok py_eqb py_eqb_trans
              (_coefficients s) (timer s) k v Wc Hm)
    as (c' & -> & Hm').
  eexists. split; [reflexivity | exact Hm'].
Qed.

Lemma _get_statistics_from_db_ok (s : TelegramPredictionCache) (d : datetime) :
  cache_ok s -> 1 <= cachetools.maxsize (_statistics s) ->
  exists s', _get_statistics_from_db d s = (Ok tt, s').
Proof.
  intros Hs Hm. unfold _get_statistics_from_db, bind at 1.
  unfold query_statistics at 1. cbv beta iota.
  set (rows := filter _ _). set (s1 := with_query s _).
  assert (Hs1 : cache_ok s1) by exact Hs.
  assert (Hm1 : 1 <= cachetools.maxsize (_statistics s1)) by exact Hm.
  clearbody s1. clear Hs Hm. revert s1 Hs1 Hm1. generalize rows. clear rows.
  induction rows as [|row rows IH]; intros s1 Hs1 Hm1; simpl.
  - eexists; reflexivity.
  - unfold bind.
    destruct (statistics_set_ok s1
                (s_date_from row, s_date_to row, s_chat_id row, s_delta row, s_metric row)
                (s_columns row) Hs1 Hm1) as (s2 & E & Hm2).
    rewrite E. apply IH; [|lia].
    eapply preserves_statistics_set; [exact Hs1|exact E].
Qed.

Lemma _get_coefficients_from_db_ok (s : TelegramPredictionCache) :
  cache_ok s -> 1 <= cachetools.maxsize (_coefficients s) ->
  exists s', _get_coefficients_from_db s = (Ok tt, s').
Proof.
  intros Hs Hm. unfold _get_coefficients_from_db, bind at 1.
  unfold query_coefficients at 1. cbv beta iota.
  set (rows := metrics_telegram_coefficient _). set (s1 := with_query s _).
  assert (Hs1 : cache_ok s1) by exact Hs.
  assert (Hm1 : 1 <= cachetools.maxsize (_coefficients s1)) by exact Hm.
  clearbody s1. clear Hs Hm. revert s1 Hs1 Hm1. generalize rows. clear rows.
  induction rows as [|row rows IH]; intros s1 Hs1 Hm1; simpl.
  - eexists; reflexivity.
  - unfold bind.
    destruct (coefficients_set_ok s1 (c_id row) (c_columns row) Hs1 Hm1)
      as (s2 & E & Hm2).
    rewrite E. apply IH; [|lia].
    eapply preserves_coefficients_set; [exact Hs1|exact E].
Qed.

(** A lookup of a hashable key returns what [peek] finds. *)
Lemma coefficients_get_peek (s : TelegramPredictionCache) (k : pyval) :
  hashable k = true ->
  exists c', coefficients_get k s
             = (Ok (peek py_eqb (_coefficients s) (timer s) k), with_coefficients s c')
             /\ cachetools.links c' = cachetools.links (_coefficients s)
             /\ cachetools.maxsize c' = cachetools.maxsize (_coefficients s)
             /\ cachetools.ttl c' = cachetools.ttl (_coefficients s).
Proof.
  intros Hk. unfold coefficients_get. rewrite Hk.
  destruct (get_peek py_eqb (_coefficients s) (timer s) k) as (c' & -> & H).
  exists c'. split; [reflexivity | exact H].
Qed.

Lemma predictions_get_peek (s : TelegramPredictionCache) (d : datetime) (c x : pyval) :
  hashable c = true -> hashable x = true ->
  exists c', predictions_get (d, c, x) s
             = (Ok (peek prediction_key_eqb (_predictions s) (timer s) (d, c, x)),
                with_predictions s c')
             /\ cachetools.links c' = cachetools.links (_predictions s)
             /\ cachetools.maxsize c' = cachetools.maxsize (_predictions s)
             /\ cachetools.ttl c' = cachetools.ttl (_predictions s).
Proof.
  intros Hc Hx. unfold predictions_get. rewrite Hc, Hx. cbn [andb].
  destruct (get_peek prediction_key_eqb (_predictions s) (timer s) (d, c, x))
    as (c' & -> & H).
  exists c'. split; [reflexivity | exact H].
Qed.

Lemma get_coefficients_returns (s : TelegramPredictionCache) (chat_id : pyval) :
  cache_ok s -> hashable chat_id = true ->
  1 <= cachetools.maxsize (_coefficients s) ->
  exists o s', get_coefficients chat_id s = (Ok o, s').
Proof.
  intros Hs Hk Hm. unfold get_coefficients, bind at 1.
  destruct (coefficients_get_peek s chat_id Hk) as (c1 & E1 & _ & M1 & _).
  rewrite E1. destruct (peek py_eqb (_coefficients s) (timer s) chat_id) as [v|].
  - eexists _, _. reflexivity.
  - assert (Hs1 : cache_ok (with_coefficients s c1))
      by (eapply preserves_coefficients_get; [exact Hs | exact E1]).
    unfold bind at 1.
    destruct (_get_coefficients_from_db_ok (with_coefficients s c1) Hs1)
      as (s2 & ->); [cbn; lia|].
    destruct (coefficients_get_peek s2 chat_id Hk) as (c3 & -> & _).
    eexists _, _. reflexivity.
Qed.

Lemma get_latest_statistics_settings (date : datetime) (chat_id delta metric : pyval)
    s r s' :
  get_latest_statistics date chat_id delta metric s = (r, s') ->
  settings s' = settings s.
Proof.
  intros E.
  assert (K : kept s (fun _ => True) (fun _ => True) (fun _ => True) s').
  { eapply methods_keep_get_latest_statistics; [|apply kept_trivially|exact E].
    apply kept_statistics_getitem. }
  apply K.
Qed.

(** X4: the constructor accepts any step. On an object built with the step
    0, every [get_prediction] raises [ZeroDivisionError] at the rounding of
    the date, before the cache or the database is looked at. *)
Theorem X4_step_zero_raises :
  forall db bs bu br ss su sr now clock self,
    __init__ db 0 bs bu br ss su sr now clock = (Ok tt, self) ->
    forall date chat_id delta,
      get_prediction date chat_id delta self = (Raise ZeroDivisionError, self).
Proof.
  intros db bs bu br ss su sr now clock self E date chat_id delta.
  destruct (init_kept (fun _ => True) (fun _ => True) (fun _ => True)
              db 0 bs bu br ss su sr now clock (Ok tt) self
              (fun _ _ _ _ => I) (fun _ _ _ _ => I) (fun _ _ _ _ => I) E)
    as (_ & _ & Hstep & _).
  unfold get_prediction, bind, _get_nearest_date, py_mod. rewrite Hstep. reflexivity.
Qed.

Lemma X4_witness :
  exists self,
    __init__ sample.db 0 500000 one_hour one_hour 10000 one_hour one_hour
             sample.bucket 0 = (Ok tt, self)
    /\ get_prediction sample.bucket (PInt 7) (PInt 60) self
       = (Raise ZeroDivisionError, self).
Proof.
  eexists. split; [vm_compute; reflexivity|].
  apply (X4_step_zero_raises sample.db 500000 one_hour one_hour 10000 one_hour one_hour
           sample.bucket 0).
  vm_compute. reflexivity.
Defined.

(* ================================================================== *)
(** * The prediction cache: what a getter answers *)
(* ================================================================== *)

Lemma prediction_key_eqb_sym (k1 k2 : prediction_key) :
  prediction_key_eqb k1 k2 = prediction_key_eqb k2 k1.
Proof.
  destruct k1 as [[d1 c1] x1], k2 as [[d2 c2] x2]. simpl.
  now rewrite (Z.eqb_sym d1 d2), (py_eqb_sym c1 c2), (py_eqb_sym x1 x2).
Qed.

Lemma statistic_key_eqb_sym (k1 k2 : statistic_key) :
  statistic_key_eqb k1 k2 = statistic_key_eqb k2 k1.
Proof.
  destruct k1 as [[[[f1 t1] c1] x1] m1], k2 as [[[[f2 t2] c2] x2] m2]. simpl.
  now rewrite (Z.eqb_sym f1 f2), (Z.eqb_sym t1 t2), (py_eqb_sym c1 c2),
    (py_eqb_sym x1 x2), (py_eqb_sym m1 m2).
Qed.

(** X5: [get_coefficients(chat_id)] answers with the entry the cache holds
    for the chat when it holds a live one; otherwise it reads the table and
    answers with the columns of the last row whose id equals [chat_id], or
    with [None] when the table has no such row. This holds when the entries
    live and the rows of the table fit in the cache together. *)
Theorem X5_coefficients_answer :
  forall (self : TelegramPredictionCache) (chat_id : pyval),
    reachable self ->
    hashable chat_id = true ->
    0 < cachetools.ttl (_coefficients self) ->
    Z.of_nat (List.length (live (_coefficients self) (timer self)))
    + Z.of_nat (List.length (metrics_telegram_coefficient (_connection_db_metrics self)))
    <= cachetools.maxsize (_coefficients self) ->
    fst (get_coefficients chat_id self)
    = Ok match peek py_eqb (_coefficients self) (timer self) chat_id with
         | Some cached => Some cached
         | None =>
             assigned py_eqb
               (map coefficient_item
                    (metrics_telegram_coefficient (_connection_db_metrics self)))
               chat_id
         end.
Proof.
  intros self chat_id Hreach Hk Httl Hroom.
  pose proof (reachable_cache_ok self Hreach) as Hs.
  unfold get_coefficients, bind at 1.
  destruct (coefficients_get_peek self chat_id Hk) as (c1 & E1 & L1 & M1 & T1).
  rewrite E1.
  destruct (peek py_eqb (_coefficients self) (timer self) chat_id) as [v|] eqn:Ep;
    [reflexivity|].
  assert (W1 : well_formed py_eqb c1).
  { pose proof (preserves_coefficients_get chat_id _ _ _ Hs E1) as (_ & _ & W & _).
    exact W. }
  unfold bind at 1. unfold _get_coefficients_from_db at 1, bind at 1.
  unfold query_coefficients at 1. cbv beta iota.
  rewrite for_each_coefficients_set.
  cbn [with_query with_coefficients _coefficients timer _connection_db_metrics].
  destruct (store_all_peek py_eqb py_eqb_refl py_eqb_sym py_eqb_trans (timer self)
              (map coefficient_item
                   (metrics_telegram_coefficient (_connection_db_metrics self)))
              c1 W1) as (c2 & E2 & W2 & T2 & M2 & P2).
  { rewrite T1. exact Httl. }
  { unfold live in *. rewrite L1, M1, length_map. exact Hroom. }
  rewrite E2.
  match goal with |- fst (coefficients_get chat_id ?s) = _ =>
    destruct (coefficients_get_peek s chat_id Hk) as (c3 & E3 & _) end.
  rewrite E3. cbn [fst with_query with_coefficients _coefficients timer].
  f_equal. rewrite P2, (peek_links py_eqb _ c1 _ _ L1), Ep.
  now destruct (assigned _ _ _).
Qed.

Lemma X5_witness :
  reachable sample.cache
  /\ fst (get_coefficients (PInt 7)
            (environment_step sample.metrics_db 0 sample.cache))
     = Ok (Some (c_columns sample.coefficient_row)).
Proof.
  assert (R : reachable (environment_step sample.metrics_db 0 sample.cache)).
  { apply reach_environment; [lia | exact sample_cache_reachable]. }
  split; [exact sample_cache_reachable|].
  rewrite (X5_coefficients_answer _ (PInt 7) R); vm_compute;
    first [reflexivity | discriminate].
Defined.

(** X6: [get_prediction(date, chat_id, delta)] answers with the entry the
    cache holds under the rounded date, the chat and the delta when it holds
    a live one; otherwise it reads the rows dated within the update window
    around the rounded date and answers with the columns of the last of them
    whose date, cut to the minute, chat and delta equal the key, or with
    [None] when there is no such row. This holds when the entries live and
    the rows read fit in the cache together. *)
Theorem X6_prediction_answer :
  forall (self : TelegramPredictionCache) (date key_date : datetime)
         (chat_id delta : pyval),
    reachable self ->
    hashable chat_id = true -> hashable delta = true ->
    _get_nearest_date date self = (Ok key_date, self) ->
    0 < cachetools.ttl (_predictions self) ->
    Z.of_nat (List.length (live (_predictions self) (timer self)))
    + Z.of_nat (List.length
                  (predictions_between (_connection_db_metrics self)
                     (key_date - cache_big_update_window self)
                     (key_date + cache_big_update_window self)))
    <= cachetools.maxsize (_predictions self) ->
    fst (get_prediction date chat_id delta self)
    = Ok match peek prediction_key_eqb (_predictions self) (timer self)
                 (key_date, chat_id, delta) with
         | Some cached => Some cached
         | None =>
             assigned prediction_key_eqb
               (map prediction_item
                    (predictions_between (_connection_db_metrics self)
                       (key_date - cache_big_update_window self)
                       (key_date + cache_big_update_window self)))
               (key_date, chat_id, delta)
         end.
Proof.
  intros self date key_date chat_id delta Hreach Hc Hx Hdate Httl Hroom.
  pose proof (reachable_cache_ok self Hreach) as Hs.
  unfold get_prediction, bind at 1. rewrite Hdate. unfold bind at 1.
  destruct (predictions_get_peek self key_date chat_id delta Hc Hx)
    as (c1 & E1 & L1 & M1 & T1).
  rewrite E1.
  destruct (peek _ _ _ _) as [v|] eqn:Ep; [reflexivity|].
  assert (W1 : well_formed prediction_key_eqb c1).
  { pose proof (preserves_predictions_get _ _ _ _ Hs E1) as (W & _). exact W. }
  unfold bind at 1, gets at 1. unfold bind at 1.
  unfold _get_predictions_from_db at 1, bind at 1.
  unfold query_predictions at 1. cbv beta iota.
  rewrite for_each_predictions_set.
  cbn [with_query with_predictions _predictions timer _connection_db_metrics
       cache_big_update_window].
  fold (predictions_between (_connection_db_metrics self)
          (key_date - cache_big_update_window self)
          (key_date + cache_big_update_window self)).
  destruct (store_all_peek prediction_key_eqb prediction_key_eqb_refl
              prediction_key_eqb_sym prediction_key_eqb_trans (timer self)
              (map prediction_item
                   (predictions_between (_connection_db_metrics self)
                      (key_date - cache_big_update_window self)
                      (key_date + cache_big_update_window self)))
              c1 W1) as (c2 & E2 & W2 & T2 & M2 & P2).
  { rewrite T1. exact Httl. }
  { unfold live in *. rewrite L1, M1, length_map. exact Hroom. }
  rewrite E2.
  match goal with |- fst (predictions_get _ ?s) = _ =>
    destruct (predictions_get_peek s key_date chat_id delta Hc Hx) as (c3 & E3 & _) end.
  rewrite E3. cbn [fst with_query with_predictions _predictions timer].
  f_equal. rewrite P2, (peek_links prediction_key_eqb _ c1 _ _ L1), Ep.
  now destruct (assigned _ _ _).
Qed.

Lemma X6_witness :
  reachable sample.empty_cache
  /\ fst (get_prediction (sample.bucket + 30000000) (PInt 7) (PInt 60)
            (environment_step sample.db 0 sample.empty_cache))
     = Ok (Some (p_columns sample.prediction_row)).
Proof.
  assert (R0 : reachable sample.empty_cache).
  { apply (reach_init sample.empty_db 5 500000 one_hour one_hour 10000 one_hour
             one_hour sample.bucket 0).
    vm_compute. reflexivity. }
  assert (R : reachable (environment_step sample.db 0 sample.empty_cache)).
  { apply reach_environment; [lia | exact R0]. }
  split; [exact R0|].
  rewrite (X6_prediction_answer _ (sample.bucket + 30000000) sample.bucket
             (PInt 7) (PInt 60) R); vm_compute;
    first [reflexivity | discriminate].
Defined.

(* ================================================================== *)
(** * The prediction cache: keys the database does not have *)
(* ================================================================== *)

Section CacheMisses.
Context {K V : Type}.
Variable eqb : K -> K -> bool.
Hypothesis eqb_refl : forall k, eqb k k = true.
Hypothesis eqb_sym : forall k1 k2, eqb k1 k2 = eqb k2 k1.
Hypothesis eqb_trans : forall k1 k2 k3,
  eqb k1 k2 = true -> eqb k2 k3 = true -> eqb k1 k3 = true.

Import cachetools.

Lemma find_agree {A} (f g : A -> bool) (l : list A) :
  (forall x, f x = g x) -> find f l = find g l.
Proof.
  intros Hfg. induction l as [|x l IH]; simpl; [reflexivity|].
  rewrite Hfg, IH. reflexivity.
Qed.

Lemma peek_none_misses (c : TTLCache K V) (time : Z) (k : K) :
  unique_keys eqb (links c) -> peek eqb c time k = None ->
  Forall (misses eqb time k) (links c).
Proof.
  intros Hu Hp. apply Forall_forall. intros l Hl Hlive.
  destruct (eqb (key l) k) eqn:E; [|reflexivity]. exfalso.
  unfold peek, find_link in Hp.
  rewrite (find_agree _ (fun l' => eqb (key l') (key l))) in Hp.
  - rewrite (find_unique eqb eqb_refl _ _ Hu Hl), Hlive in Hp. discriminate.
  - intros x. destruct (eqb (key x) k) eqn:Ex.
    + symmetry. rewrite eqb_sym in E. exact (eqb_trans _ _ _ Ex E).
    + destruct (eqb (key x) (key l)) eqn:Exl; [|reflexivity].
      rewrite (eqb_trans _ _ _ Exl E) in Ex. discriminate.
Qed.

Lemma misses_peek_none (c : TTLCache K V) (time : Z) (k : K) :
  Forall (misses eqb time k) (links c) -> peek eqb c time k = None.
Proof.
  intros Hm. unfold peek, find_link.
  destruct (find _ (links c)) as [l|] eqn:Ef; [|reflexivity].
  apply find_some in Ef. destruct Ef as [Hl El].
  rewrite Forall_forall in Hm. specialize (Hm l Hl). unfold misses in Hm.
  destruct (time <? expires l); [|reflexivity].
  rewrite (Hm eq_refl) in El. discriminate.
Qed.

(** When every link has expired a lookup finds nothing. *)
Lemma get_expired (c : TTLCache K V) (time : Z) (k : K) :
  Forall (fun l => expires l <= time) (links c) ->
  get eqb c time k = (Ok None, c).
Proof.
  intros He. unfold get, contains, find_link.
  destruct (find _ (links c)) as [l|] eqn:Ef; [|reflexivity].
  apply find_some in Ef. rewrite Forall_forall in He.
  replace (time <? expires l) with false; [reflexivity|].
  symmetry. apply Z.ltb_ge. apply He. tauto.
Qed.
End CacheMisses.

(** X7: the cache does not remember that a chat has no coefficients. When
    neither the table nor the cache holds a row for [chat_id], a call of
    [get_coefficients] reads the whole table, returns [None], and leaves the
    object in a state where the next call does the same. *)
Theorem X7_unknown_chat_is_queried_every_time :
  forall (self : TelegramPredictionCache) (chat_id : pyval),
    reachable self ->
    hashable chat_id = true ->
    1 <= cachetools.maxsize (_coefficients self) ->
    (forall row, In row (metrics_telegram_coefficient (_connection_db_metrics self)) ->
                 py_eqb (c_id row) chat_id = false) ->
    peek py_eqb (_coefficients self) (timer self) chat_id = None ->
    exists self',
      get_coefficients chat_id self = (Ok None, self')
      /\ queries self' = queries self ++ [QueryCoefficients]
      /\ settings self' = settings self
      /\ peek py_eqb (_coefficients self') (timer self') chat_id = None.
Proof.
  intros self chat_id Hreach Hk Hm Hrows Hp.
  pose proof (reachable_cache_ok self Hreach) as Hs.
  destruct (get_coefficients_returns self chat_id Hs Hk Hm) as (o & self' & E).
  exists self'.
  pose proof (get_coefficients_settings _ _ _ _ E) as Hset.
  assert (K : kept self (fun _ => True) (fun _ => True)
                (misses py_eqb (timer self) chat_id) self').
  { eapply kept_get_coefficients; [| |exact E].
    - intros row k0 Hrow Ek0 _. specialize (Hrows row Hrow). cbn [cachetools.key].
      destruct (py_eqb k0 chat_id) eqn:Ek; [|reflexivity].
      rewrite py_eqb_sym in Ek0. rewrite (py_eqb_trans _ _ _ Ek0 Ek) in Hrows.
      discriminate.
    - split; [reflexivity|]. repeat split; try (apply Forall_forall; intros; exact I).
      apply (peek_none_misses py_eqb py_eqb_refl py_eqb_sym py_eqb_trans);
        [apply Hs | exact Hp]. }
  assert (Hp' : peek py_eqb (_coefficients self') (timer self') chat_id = None).
  { apply misses_peek_none. replace (timer self') with (timer self) by same_settings.
    apply K. }
  assert (Eo : o = None).
  { revert E. unfold get_coefficients, bind at 1.
    destruct (coefficients_get_peek self chat_id Hk) as (c1 & -> & _).
    rewrite Hp. unfold bind at 1.
    destruct (_get_coefficients_from_db (with_coefficients self c1))
      as [[u|e] s2] eqn:E2; [|discriminate].
    destruct (coefficients_get_peek s2 chat_id Hk) as (c3 & -> & L3 & _).
    intros E. injection E as <- <-.
    rewrite <- Hp'. cbn [with_coefficients _coefficients timer].
    symmetry. now apply peek_links. }
  subst o. split; [exact E|]. split; [|split; [exact Hset | exact Hp']].
  revert E. unfold get_coefficients, bind at 1.
  destruct (coefficients_get_peek self chat_id Hk) as (c1 & E1 & _).
  rewrite E1, Hp. unfold bind at 1.
  destruct (_get_coefficients_from_db (with_coefficients self c1))
    as [[u|e] s2] eqn:E2; [|discriminate].
  intros E3.
  apply _get_coefficients_from_db_queries in E2.
  apply (issues_nothing_queries _ _ _ _ (issues_coefficients_get _)) in E3.
  rewrite E3, E2. reflexivity.
Qed.

Lemma X7_witness :
  exists self',
    get_coefficients (PInt 8) sample.metrics_cache = (Ok None, self')
    /\ queries self' = queries sample.metrics_cache ++ [QueryCoefficients]
    /\ settings self' = settings sample.metrics_cache
    /\ peek py_eqb (_coefficients self') (timer self') (PInt 8) = None.
Proof.
  apply X7_unknown_chat_is_queried_every_time.
  - apply (reach_init sample.metrics_db 5 500000 one_hour one_hour 10000 one_hour
             one_hour sample.bucket 0).
    vm_compute. reflexivity.
  - reflexivity.
  - vm_compute. discriminate.
  - intros row [<-|[]]. reflexivity.
  - vm_compute. reflexivity.
Defined.

(* ================================================================== *)
(** * The prediction cache: where an answer comes from *)
(* ================================================================== *)

Lemma serves_reachable (db : ConnectionDB) (self : TelegramPredictionCache) :
  serves db self -> reachable self.
Proof.
  induction 1 as [step bs bu br ss su sr now clock self E
                 | elapsed self Hpos _ IH
                 | date chat_id delta self r self' _ IH E
                 | date chat_id delta metric self r self' _ IH E
                 | chat_id self r self' _ IH E].
  - eapply reach_init; eassumption.
  - now apply reach_environment.
  - eapply reach_get_prediction; eassumption.
  - eapply reach_get_statistics; eassumption.
  - eapply reach_get_coefficients; eassumption.
Qed.

Section FromRows.
Variable db : ConnectionDB.

Lemma from_rows_kept (self : TelegramPredictionCache) :
  _connection_db_metrics self = db -> from_rows db self ->
  kept self (prediction_from db) (statistic_from db) (coefficient_from db) self.
Proof. intros _ H. split; [reflexivity | exact H]. Qed.

Lemma kept_from_rows (self self' : TelegramPredictionCache) :
  _connection_db_metrics self = db ->
  kept self (prediction_from db) (statistic_from db) (coefficient_from db) self' ->
  _connection_db_metrics self' = db /\ from_rows db self'.
Proof. intros Hdb [Hs H]. split; [same_settings | exact H]. Qed.

Lemma new_prediction_from (self : TelegramPredictionCache) (expiry : Z) :
  _connection_db_metrics self = db ->
  forall row k0,
    In row (metrics_telegram_prediction (_connection_db_metrics self)) ->
    prediction_key_eqb k0 (fst (prediction_item row)) = true ->
    prediction_from db {| cachetools.key := k0; cachetools.value := p_columns row;
                          cachetools.expires := expiry |}.
Proof. intros -> row k0 Hrow Ek. exists row. auto. Qed.

Lemma new_statistic_from (self : TelegramPredictionCache) (expiry : Z) :
  _connection_db_metrics self = db ->
  forall row k0,
    In row (metrics_telegram_statistic (_connection_db_metrics self)) ->
    statistic_key_eqb k0 (fst (statistic_item row)) = true ->
    statistic_from db {| cachetools.key := k0; cachetools.value := s_columns row;
                         cachetools.expires := expiry |}.
Proof. intros -> row k0 Hrow Ek. exists row. auto. Qed.

Lemma new_coefficient_from (self : TelegramPredictionCache) (expiry : Z) :
  _connection_db_metrics self = db ->
  forall row k0,
    In row (metrics_telegram_coefficient (_connection_db_metrics self)) ->
    py_eqb k0 (c_id row) = true ->
    coefficient_from db {| cachetools.key := k0; cachetools.value := c_columns row;
                           cachetools.expires := expiry |}.
Proof. intros -> row k0 Hrow Ek. exists row. auto. Qed.

Lemma serves_from_rows (self : TelegramPredictionCache) :
  serves db self -> _connection_db_metrics self = db /\ from_rows db self.
Proof.
  induction 1 as [step bs bu br ss su sr now clock self E
                 | elapsed self Hpos _ IH
                 | date chat_id delta self r self' _ IH E
                 | date chat_id delta metric self r self' _ IH E
                 | chat_id self r self' _ IH E].
  - destruct (init_kept (prediction_from db) (statistic_from db) (coefficient_from db)
                db step bs bu br ss su sr now clock (Ok tt) self) as (Hdb & H);
      try exact E.
    + intros row k0 Hrow Ek. exists row. auto.
    + intros row k0 Hrow Ek. exists row. auto.
    + intros row k0 Hrow Ek. exists row. auto.
    + split; [exact Hdb|]. unfold from_rows. tauto.
  - split; [reflexivity | exact (proj2 IH)].
  - destruct IH as [Hdb Hfrom]. apply (kept_from_rows self self' Hdb).
    eapply kept_get_prediction; [| apply from_rows_kept; assumption | exact E].
    now apply new_prediction_from.
  - destruct IH as [Hdb Hfrom]. apply (kept_from_rows self self' Hdb).
    eapply kept_get_statistics; [| apply from_rows_kept; assumption | exact E].
    now apply new_statistic_from.
  - destruct IH as [Hdb Hfrom]. apply (kept_from_rows self self' Hdb).
    eapply kept_get_coefficients; [| apply from_rows_kept; assumption | exact E].
    now apply new_coefficient_from.
Qed.
End FromRows.

Lemma predictions_get_some (k : prediction_key) (s s' : TelegramPredictionCache) v :
  predictions_get k s = (Ok (Some v), s') ->
  exists l, In l (cachetools.links (_predictions s))
            /\ prediction_key_eqb (cachetools.key l) k = true
            /\ cachetools.value l = v.
Proof.
  unfold predictions_get. destruct k as [[d c] x].
  destruct (hashable c && hashable x); [|discriminate].
  destruct (cachetools.get _ _ _ _) as [r1 c1] eqn:E1. intros E. injection E as -> _.
  apply get_some in E1. destruct E1 as (l & H). exists l. tauto.
Qed.

Lemma coefficients_get_some (k : pyval) (s s' : TelegramPredictionCache) v :
  coefficients_get k s = (Ok (Some v), s') ->
  exists l, In l (cachetools.links (_coefficients s))
            /\ py_eqb (cachetools.key l) k = true
            /\ cachetools.value l = v.
Proof.
  unfold coefficients_get. destruct (hashable k); [|discriminate].
  destruct (cachetools.get _ _ _ _) as [r1 c1] eqn:E1. intros E. injection E as -> _.
  apply get_some in E1. destruct E1 as (l & H). exists l. tauto.
Qed.

(** A window that qualifies under one key qualifies under an equal key. *)
Lemma qualifies_eqb (date : datetime) (chat_id delta metric : pyval)
    (k1 k2 : statistic_key) :
  statistic_key_eqb k1 k2 = true ->
  qualifies date chat_id delta metric k1 -> qualifies date chat_id delta metric k2.
Proof.
  destruct k1 as [[[[f1 t1] c1] x1] m1], k2 as [[[[f2 t2] c2] x2] m2].
  unfold qualifies, window_start, window_end. simpl.
  rewrite !andb_true_iff, !Z.eqb_eq.
  intros [[[[-> ->] Hc] Hx] Hm] (Hw & Hc' & Hx' & Hm').
  rewrite py_eqb_sym in Hc, Hx, Hm.
  repeat split; try apply Hw; eauto using py_eqb_trans.
Qed.

(** X8: a cache that serves a database which does not change answers only
    with rows of that database. A prediction returned is the columns of a
    row of the chat and delta asked for whose date, cut to the minute, is the
    rounded date; a statistic returned is the columns of a row of that chat,
    delta and metric whose window contains the date strictly; coefficients
    returned are the columns of a row whose id is the chat's. The chat, the
    delta and the metric are compared as Python's [==] does. *)
Theorem X8_answers_come_from_rows :
  forall (db : ConnectionDB) (self : TelegramPredictionCache),
    serves db self ->
    (forall date chat_id delta v self',
        get_prediction date chat_id delta self = (Ok (Some v), self') ->
        exists key_date row,
          _get_nearest_date date self = (Ok key_date, self)
          /\ In row (metrics_telegram_prediction db)
          /\ replace_second0_microsecond0 (p_date row) = key_date
          /\ py_eqb (p_chat_id row) chat_id = true
          /\ py_eqb (p_delta row) delta = true
          /\ p_columns row = v)
    /\ (forall date chat_id delta metric v self',
        get_statistics date chat_id delta metric self = (Ok (Some v), self') ->
        exists row,
          In row (metrics_telegram_statistic db)
          /\ s_date_from row < date < s_date_to row
          /\ py_eqb (s_chat_id row) chat_id = true
          /\ py_eqb (s_delta row) delta = true
          /\ py_eqb (s_metric row) metric = true
          /\ s_columns row = v)
    /\ (forall chat_id v self',
        get_coefficients chat_id self = (Ok (Some v), self') ->
        exists row,
          In row (metrics_telegram_coefficient db)
          /\ py_eqb (c_id row) chat_id = true
          /\ c_columns row = v).
Proof.
  intros db self Hserves.
  destruct (serves_from_rows db self Hserves) as [Hdb Hfrom].
  pose proof (reachable_cache_ok self (serves_reachable db self Hserves)) as Hs.
  pose proof (from_rows_kept db self Hdb Hfrom) as K.
  split; [|split].
  - intros date chat_id delta v self' E. unfold get_prediction in E.
    unfold bind at 1 in E.
    destruct (_get_nearest_date date self) as [[d|e] s0] eqn:E0; [|discriminate].
    assert (s0 = self) by (unfold _get_nearest_date in E0; now injection E0).
    subst s0. exists d.
    assert (G : forall s l, kept self (prediction_from db) (statistic_from db)
                              (coefficient_from db) s ->
                  In l (cachetools.links (_predictions s)) ->
                  prediction_key_eqb (cachetools.key l) (d, chat_id, delta) = true ->
                  cachetools.value l = v ->
                  exists row, In row (metrics_telegram_prediction db)
                    /\ replace_second0_microsecond0 (p_date row) = d
                    /\ py_eqb (p_chat_id row) chat_id = true
                    /\ py_eqb (p_delta row) delta = true
                    /\ p_columns row = v).
    { intros s l (_ & Hp & _) Hl El Ev. rewrite Forall_forall in Hp.
      destruct (Hp l Hl) as (row & Hrow & Er & Ec). exists row.
      rewrite prediction_key_eqb_sym in Er.
      pose proof (prediction_key_eqb_trans _ _ _ Er El) as Ek.
      unfold prediction_item in Ek. simpl in Ek.
      rewrite !andb_true_iff, Z.eqb_eq in Ek. destruct Ek as [[Ed Ech] Ex].
      repeat split; try assumption. congruence. }
    unfold bind at 1 in E.
    destruct (predictions_get (d, chat_id, delta) self) as [[[p|]|e] s1] eqn:E1;
      [| |discriminate].
    + injection E as -> <-.
      destruct (predictions_get_some _ _ _ _ E1) as (l & Hl & El & Ev).
      destruct (G self l K Hl El Ev) as (row & H). exists row. tauto.
    + assert (K1 : kept self (prediction_from db) (statistic_from db)
                     (coefficient_from db) s1)
        by (eapply kept_predictions_get; [exact K | exact E1]).
      unfold bind at 1, gets at 1 in E. unfold bind at 1 in E.
      destruct (_get_predictions_from_db _ _ s1) as [[u|e] s2] eqn:E2; [|discriminate].
      assert (K2 : kept self (prediction_from db) (statistic_from db)
                     (coefficient_from db) s2).
      { eapply kept__get_predictions_from_db; [|exact K1|exact E2].
        now apply new_prediction_from. }
      destruct (predictions_get_some _ _ _ _ E) as (l & Hl & El & Ev).
      destruct (G s2 l K2 Hl El Ev) as (row & H). exists row. tauto.
  - intros date chat_id delta metric v self' E.
    assert (G : forall s, cache_ok s ->
                  kept self (prediction_from db) (statistic_from db)
                    (coefficient_from db) s ->
                  latest_qualifying s date chat_id delta metric v ->
                  exists row, In row (metrics_telegram_statistic db)
                    /\ s_date_from row < date < s_date_to row
                    /\ py_eqb (s_chat_id row) chat_id = true
                    /\ py_eqb (s_delta row) delta = true
                    /\ py_eqb (s_metric row) metric = true
                    /\ s_columns row = v).
    { intros s _ (_ & _ & Hst & _) (l & Hl & Hq & Ev & _).
      unfold visible, live in Hl. apply filter_In in Hl. destruct Hl as [Hl _].
      rewrite Forall_forall in Hst.
      destruct (Hst l Hl) as (row & Hrow & Er & Ec). exists row.
      pose proof (qualifies_eqb _ _ _ _ _ _ Er Hq) as Hq'.
      unfold qualifies, statistic_item, window_start, window_end in Hq'. simpl in Hq'.
      split; [exact Hrow|]. split; [apply Hq'|].
      repeat split; try apply Hq'. congruence. }
    unfold get_statistics in E. unfold bind at 1 in E.
    destruct (get_latest_statistics date chat_id delta metric self)
      as [r1 s1] eqn:E1.
    pose proof (preserves_get_latest_statistics _ _ _ _ _ _ _ Hs E1) as Hs1.
    assert (K1 : kept self (prediction_from db) (statistic_from db)
                   (coefficient_from db) s1).
    { eapply methods_keep_get_latest_statistics; [|exact K|exact E1].
      apply kept_statistics_getitem. }
    destruct (get_latest_statistics_scan _ _ _ _ _ _ _ Hs E1)
      as [[-> _]|(v1 & -> & Hv1)].
    + unfold bind at 1 in E.
      destruct (_get_statistics_from_db date s1) as [[u|e] s2] eqn:E2; [|discriminate].
      pose proof (preserves__get_statistics_from_db _ _ _ _ Hs1 E2) as Hs2.
      assert (K2 : kept self (prediction_from db) (statistic_from db)
                     (coefficient_from db) s2).
      { eapply kept__get_statistics_from_db; [|exact K1|exact E2].
        now apply new_statistic_from. }
      destruct (get_latest_statistics_scan _ _ _ _ _ _ _ Hs2 E)
        as [[E3 _]|(v3 & E3 & Hv3)]; [discriminate|].
      injection E3 as <-. exact (G s2 Hs2 K2 Hv3).
    + injection E as <- _. exact (G self Hs K Hv1).
  - intros chat_id v self' E.
    assert (G : forall s l, kept self (prediction_from db) (statistic_from db)
                              (coefficient_from db) s ->
                  In l (cachetools.links (_coefficients s)) ->
                  py_eqb (cachetools.key l) chat_id = true ->
                  cachetools.value l = v ->
                  exists row, In row (metrics_telegram_coefficient db)
                    /\ py_eqb (c_id row) chat_id = true /\ c_columns row = v).
    { intros s l (_ & _ & _ & Hc) Hl El Ev. rewrite Forall_forall in Hc.
      destruct (Hc l Hl) as (row & Hrow & Er & Ec). exists row.
      rewrite py_eqb_sym in Er.
      split; [exact Hrow|]. split; [exact (py_eqb_trans _ _ _ Er El) | congruence]. }
    unfold get_coefficients in E. unfold bind at 1 in E.
    destruct (coefficients_get chat_id self) as [[[p|]|e] s1] eqn:E1;
      [| |discriminate].
    + injection E as -> <-.
      destruct (coefficients_get_some _ _ _ _ E1) as (l & Hl & El & Ev).
      exact (G self l K Hl El Ev).
    + assert (K1 : kept self (prediction_from db) (statistic_from db)
                     (coefficient_from db) s1)
        by (eapply kept_coefficients_get; [exact K | exact E1]).
      unfold bind at 1 in E.
      destruct (_get_coefficients_from_db s1) as [[u|e] s2] eqn:E2; [|discriminate].
      assert (K2 : kept self (prediction_from db) (statistic_from db)
                     (coefficient_from db) s2).
      { eapply kept__get_coefficients_from_db; [|exact K1|exact E2].
        now apply new_coefficient_from. }
      destruct (coefficients_get_some _ _ _ _ E) as (l & Hl & El & Ev).
      exact (G s2 l K2 Hl El Ev).
Qed.

Lemma sample_cache_serves : serves sample.db sample.cache.
Proof.
  apply (serves_init sample.db 5 500000 one_hour one_hour 10000 one_hour one_hour
           sample.bucket 0).
  vm_compute. reflexivity.
Qed.

Lemma X8_witness :
  serves sample.db sample.cache
  /\ exists key_date row,
       _get_nearest_date (sample.bucket + 30000000) sample.cache
       = (Ok key_date, sample.cache)
       /\ In row (metrics_telegram_prediction sample.db)
       /\ replace_second0_microsecond0 (p_date row) = key_date
       /\ py_eqb (p_chat_id row) (PInt 7) = true
       /\ py_eqb (p_delta row) (PInt 60) = true
       /\ p_columns row = [("views", PInt 100); ("views_upper", PInt 150)].
Proof.
  split; [exact sample_cache_serves|].
  destruct (X8_answers_come_from_rows sample.db sample.cache sample_cache_serves)
    as (Hp & _).
  apply (Hp (sample.bucket + 30000000) (PInt 7) (PInt 60) _
            (snd (get_prediction (sample.bucket + 30000000) (PInt 7) (PInt 60)
                    sample.cache))).
  vm_compute. reflexivity.
Defined.

(* ================================================================== *)
(** * The prediction cache: the bounds of a statistics window *)
(* ================================================================== *)

Lemma none_qualifies_misses (s : TelegramPredictionCache) (date : datetime)
    (chat_id delta metric : pyval) :
  none_qualifies s date chat_id delta metric
  <-> Forall (fun l => (timer s <? cachetools.expires l) = true ->
                       ~ qualifies date chat_id delta metric (cachetools.key l))
             (cachetools.links (_statistics s)).
Proof.
  unfold none_qualifies, visible, live. rewrite Forall_forall. split.
  - intros H l Hl Hlive. apply H. apply filter_In. now split.
  - intros H l Hl. apply filter_In in Hl. destruct Hl as [Hl Hlive]. now apply H.
Qed.

(** X9: a statistics window answers only for a date strictly inside it.
    When every row of the table for the chat, delta and metric asked for
    starts at the date or later, or ends at the date or earlier (the refill
    does read the rows that start or end exactly at the date), and the cache
    holds no qualifying entry, [get_statistics] reads the table once and
    returns [None], leaving a cache that still holds no qualifying entry. *)
Theorem X9_window_bounds_are_excluded :
  forall (self : TelegramPredictionCache) (date : datetime)
         (chat_id delta metric : pyval),
    reachable self ->
    1 <= cachetools.maxsize (_statistics self) ->
    none_qualifies self date chat_id delta metric ->
    (forall row,
        In row (metrics_telegram_statistic (_connection_db_metrics self)) ->
        py_eqb (s_chat_id row) chat_id = true ->
        py_eqb (s_delta row) delta = true ->
        py_eqb (s_metric row) metric = true ->
        date <= s_date_from row \/ s_date_to row <= date) ->
    exists self',
      get_statistics date chat_id delta metric self = (Ok None, self')
      /\ queries self' = queries self ++ [QueryStatistics date]
      /\ none_qualifies self' date chat_id delta metric.
Proof.
  intros self date chat_id delta metric Hreach Hm Hnone Hrows.
  pose proof (reachable_cache_ok self Hreach) as Hs.
  set (Ps := fun l : cachetools.Link statistic_key dict =>
               (timer self <? cachetools.expires l) = true ->
               ~ qualifies date chat_id delta metric (cachetools.key l)).
  assert (Hnew : forall row k0,
             In row (metrics_telegram_statistic (_connection_db_metrics self)) ->
             statistic_key_eqb k0 (fst (statistic_item row)) = true ->
             Ps {| cachetools.key := k0; cachetools.value := s_columns row;
                   cachetools.expires := timer self + cachetools.ttl (_statistics self) |}).
  { intros row k0 Hrow Ek _ Hq. cbn [cachetools.key] in Hq.
    apply (qualifies_eqb _ _ _ _ _ _ Ek) in Hq.
    unfold qualifies, statistic_item, window_start, window_end in Hq. simpl in Hq.
    destruct Hq as (Hw & Hc & Hx & Hmm). specialize (Hrows row Hrow Hc Hx Hmm). lia. }
  assert (K : kept self (fun _ => True) Ps (fun _ => True) self).
  { split; [reflexivity|]. repeat split; try (apply Forall_forall; intros; exact I).
    now apply none_qualifies_misses. }
  assert (Hback : forall s, kept self (fun _ => True) Ps (fun _ => True) s ->
                    none_qualifies s date chat_id delta metric).
  { intros s (Hset & _ & Hst & _). apply none_qualifies_misses.
    replace (timer s) with (timer self) by same_settings. exact Hst. }
  unfold get_statistics, bind at 1.
  destruct (get_latest_statistics date chat_id delta metric self) as [r1 s1] eqn:E1.
  pose proof (preserves_get_latest_statistics _ _ _ _ _ _ _ Hs E1) as Hs1.
  pose proof (get_latest_statistics_settings _ _ _ _ _ _ _ E1) as Hset1.
  assert (K1 : kept self (fun _ => True) Ps (fun _ => True) s1).
  { eapply methods_keep_get_latest_statistics; [|exact K|exact E1].
    apply kept_statistics_getitem. }
  destruct (get_latest_statistics_scan _ _ _ _ _ _ _ Hs E1)
    as [[-> _]|(v1 & -> & (l & Hl & Hq & _))]; [|now apply Hnone in Hl].
  unfold bind at 1.
  destruct (_get_statistics_from_db_ok s1 date Hs1) as (s2 & E2).
  { replace (cachetools.maxsize (_statistics s1))
      with (cachetools.maxsize (_statistics self)) by same_settings. exact Hm. }
  rewrite E2.
  pose proof (preserves__get_statistics_from_db _ _ _ _ Hs1 E2) as Hs2.
  assert (K2 : kept self (fun _ => True) Ps (fun _ => True) s2).
  { eapply kept__get_statistics_from_db; [|exact K1|exact E2]. exact Hnew. }
  destruct (get_latest_statistics date chat_id delta metric s2) as [r3 s3] eqn:E3.
  assert (K3 : kept self (fun _ => True) Ps (fun _ => True) s3).
  { eapply methods_keep_get_latest_statistics; [|exact K2|exact E3].
    apply kept_statistics_getitem. }
  exists s3.
  destruct (get_latest_statistics_scan _ _ _ _ _ _ _ Hs2 E3)
    as [[-> _]|(v3 & -> & (l & Hl & Hq & _))].
  - split; [reflexivity|]. split; [|now apply Hback].
    apply (issues_nothing_queries _ _ _ _ (issues_get_latest_statistics _ _ _ _))
      in E1, E3.
    apply _get_statistics_from_db_queries in E2. congruence.
  - exfalso. now apply (Hback s2 K2) in Hl.
Qed.

(** On the sample database the later window ends at 2000000000: the refill
    for that date reads its row, and the lookup still finds no statistic. *)
Lemma X9_witness :
  exists self',
    get_statistics 2000000000 (PInt 7) (PInt 60) (PStr "views") sample.cache
    = (Ok None, self')
    /\ queries self' = queries sample.cache ++ [QueryStatistics 2000000000]
    /\ none_qualifies self' 2000000000 (PInt 7) (PInt 60) (PStr "views").
Proof.
  apply X9_window_bounds_are_excluded.
  - exact sample_cache_reachable.
  - vm_compute. discriminate.
  - intros l Hl. vm_compute in Hl. destruct Hl as [<-|[<-|[]]]; vm_compute;
      intros ((H1 & H2) & _); discriminate H2.
  - intros row Hrow _ _ _. vm_compute in Hrow. destruct Hrow as [<-|[<-|[]]];
      right; vm_compute; discriminate.
Defined.

(* ================================================================== *)
(** * The prediction cache: how long an entry is served *)
(* ================================================================== *)

Lemma fresh_kept (self : TelegramPredictionCache) :
  fresh self ->
  kept self
    (fun l => cachetools.expires l <= timer self + cachetools.ttl (_predictions self))
    (fun l => cachetools.expires l <= timer self + cachetools.ttl (_statistics self))
    (fun l => cachetools.expires l <= timer self + cachetools.ttl (_coefficients self))
    self.
Proof. intros H. split; [reflexivity | exact H]. Qed.

Lemma kept_fresh (self self' : TelegramPredictionCache) :
  kept self
    (fun l => cachetools.expires l <= timer self + cachetools.ttl (_predictions self))
    (fun l => cachetools.expires l <= timer self + cachetools.ttl (_statistics self))
    (fun l => cachetools.expires l <= timer self + cachetools.ttl (_coefficients self))
    self' ->
  fresh self'.
Proof.
  intros (Hs & Hp & Hst & Hc). unfold fresh.
  replace (timer self') with (timer self) by same_settings.
  replace (cachetools.ttl (_predictions self'))
    with (cachetools.ttl (_predictions self)) by same_settings.
  replace (cachetools.ttl (_statistics self'))
    with (cachetools.ttl (_statistics self)) by same_settings.
  replace (cachetools.ttl (_coefficients self'))
    with (cachetools.ttl (_coefficients self)) by same_settings.
  auto.
Qed.

Lemma reachable_fresh (self : TelegramPredictionCache) : reachable self -> fresh self.
Proof.
  induction 1 as [db step bs bu br ss su sr now clock self E
                 | db elapsed self Hpos _ IH
                 | date chat_id delta self r self' _ IH E
                 | date chat_id delta metric self r self' _ IH E
                 | chat_id self r self' _ IH E].
  - destruct (init_kept (fun l => cachetools.expires l <= clock + br)
                (fun l => cachetools.expires l <= clock + sr)
                (fun l => cachetools.expires l <= clock + sr)
                db step bs bu br ss su sr now clock (Ok tt) self)
      as (_ & Ht & _ & Tp & Ts & Tc & H); try exact E;
      try (intros row k0 _ _; cbn; lia).
    unfold fresh. rewrite Ht, Tp, Ts, Tc. exact H.
  - destruct IH as (Hp & Hs & Hc). unfold fresh. cbn.
    repeat split; (eapply Forall_impl; [|eassumption]); cbn; intros l Hl; lia.
  - apply (kept_fresh self).
    eapply kept_get_prediction; [|apply fresh_kept, IH|exact E].
    intros row k0 _ _. cbn. lia.
  - apply (kept_fresh self).
    eapply kept_get_statistics; [|apply fresh_kept, IH|exact E].
    intros row k0 _ _. cbn. lia.
  - apply (kept_fresh self).
    eapply kept_get_coefficients; [|apply fresh_kept, IH|exact E].
    intros row k0 _ _. cbn. lia.
Qed.

Lemma get_latest_statistics_nothing_visible (s : TelegramPredictionCache)
    (date : datetime) (chat_id delta metric : pyval) :
  visible s = [] ->
  get_latest_statistics date chat_id delta metric s = (Ok None, s).
Proof.
  intros Hv. unfold get_latest_statistics, bind at 1.
  unfold statistics_iter at 1, cachetools.iter.
  fold (live (_statistics s) (timer s)). fold (visible s). rewrite Hv. reflexivity.
Qed.

(** X10: no entry is served for longer than its cache's time to live. In
    every state a cache object reaches, each link expires at most one time to
    live after the present reading of the timer; so once that much time has
    passed since the last call, the first lookup misses and the call reads the
    database: one query, whatever the call then returns. *)
Theorem X10_nothing_outlives_its_retention :
  forall (self : TelegramPredictionCache) (db : ConnectionDB) (elapsed : Z),
    reachable self ->
    let later := environment_step db elapsed self in
    fresh self
    /\ (forall chat_id r self',
          cachetools.ttl (_coefficients self) <= elapsed ->
          hashable chat_id = true ->
          get_coefficients chat_id later = (r, self') ->
          queries self' = queries self ++ [QueryCoefficients])
    /\ (forall date chat_id delta metric r self',
          cachetools.ttl (_statistics self) <= elapsed ->
          get_statistics date chat_id delta metric later = (r, self') ->
          queries self' = queries self ++ [QueryStatistics date])
    /\ (forall date key_date chat_id delta r self',
          cachetools.ttl (_predictions self) <= elapsed ->
          hashable chat_id = true -> hashable delta = true ->
          _get_nearest_date date later = (Ok key_date, later) ->
          get_prediction date chat_id delta later = (r, self') ->
          queries self'
          = queries self ++ [QueryPredictions (key_date - cache_big_update_window self)
                                              (key_date + cache_big_update_window self)]).
Proof.
  intros self db elapsed Hreach later.
  pose proof (reachable_fresh self Hreach) as (Hp & Hs & Hc).
  split; [repeat split; assumption|]. split; [|split].
  - intros chat_id r self' Httl Hk E. unfold get_coefficients in E.
    unfold bind at 1, coefficients_get at 1 in E. rewrite Hk in E.
    rewrite get_expired in E.
    2:{ eapply Forall_impl; [|exact Hc]. cbn. intros l Hl. lia. }
    unfold bind at 1 in E.
    destruct (_get_coefficients_from_db _) as [[u|e] s2] eqn:E2.
    + apply _get_coefficients_from_db_queries in E2.
      apply (issues_nothing_queries _ _ _ _ (issues_coefficients_get _)) in E.
      rewrite E, E2. reflexivity.
    + injection E as _ <-. apply _get_coefficients_from_db_queries in E2.
      rewrite E2. reflexivity.
  - intros date chat_id delta metric r self' Httl E. unfold get_statistics in E.
    unfold bind at 1 in E. rewrite get_latest_statistics_nothing_visible in E.
    2:{ unfold visible, live. cbn. clear E.
        induction Hs as [|l ls Hl _ IH]; [reflexivity|].
        simpl. replace (timer self + elapsed <? cachetools.expires l) with false;
          [exact IH|].
        symmetry. apply Z.ltb_ge. lia. }
    unfold bind at 1 in E.
    destruct (_get_statistics_from_db date later) as [[u|e] s2] eqn:E2.
    + apply _get_statistics_from_db_queries in E2.
      apply (issues_nothing_queries _ _ _ _ (issues_get_latest_statistics _ _ _ _)) in E.
      rewrite E, E2. reflexivity.
    + injection E as _ <-. apply _get_statistics_from_db_queries in E2.
      rewrite E2. reflexivity.
  - intros date key_date chat_id delta r self' Httl Hk Hx Hdate E.
    unfold get_prediction in E. unfold bind at 1 in E. rewrite Hdate in E.
    unfold bind at 1, predictions_get at 1 in E. rewrite Hk, Hx in E.
    cbn [andb] in E. rewrite get_expired in E.
    2:{ eapply Forall_impl; [|exact Hp]. cbn. intros l Hl. lia. }
    unfold bind at 1, gets at 1 in E. unfold bind at 1 in E.
    destruct (_get_predictions_from_db _ _ _) as [[u|e] s2] eqn:E2.
    + apply _get_predictions_from_db_queries in E2.
      apply (issues_nothing_queries _ _ _ _ (issues_predictions_get _)) in E.
      rewrite E, E2. reflexivity.
    + injection E as _ <-. apply _get_predictions_from_db_queries in E2.
      rewrite E2. reflexivity.
Qed.

Lemma X10_witness :
  reachable sample.metrics_cache
  /\ queries (snd (get_coefficients (PInt 7) sample.metrics_cache))
     = queries sample.metrics_cache
  /\ queries (snd (get_coefficients (PInt 7)
                     (environment_step sample.metrics_db one_hour sample.metrics_cache)))
     = queries sample.metrics_cache ++ [QueryCoefficients].
Proof.
  assert (R : reachable sample.metrics_cache).
  { apply (reach_init sample.metrics_db 5 500000 one_hour one_hour 10000 one_hour
             one_hour sample.bucket 0).
    vm_compute. reflexivity. }
  split; [exact R|]. split; [vm_compute; reflexivity|].
  destruct (X10_nothing_outlives_its_retention sample.metrics_cache sample.metrics_db
              one_hour R) as (_ & Hc & _).
  apply (Hc (PInt 7)
            (fst (get_coefficients (PInt 7)
                    (environment_step sample.metrics_db one_hour sample.metrics_cache)))).
  - vm_compute. discriminate.
  - reflexivity.
  - apply surjective_pairing.
Defined.

(** Coefficients a call has returned are returned again by the next call,
    from the cache. *)
Lemma get_coefficients_again (chat_id : pyval) (v : dict)
    (self self1 : TelegramPredictionCache) :
  get_coefficients chat_id self = (Ok (Some v), self1) ->
  exists self2,
    get_coefficients chat_id self1 = (Ok (Some v), self2)
    /\ queries self2 = queries self1.
Proof.
  intros E.
  assert (Hit : forall s s', coefficients_get chat_id s = (Ok (Some v), s') ->
                  exists s'', get_coefficients chat_id s' = (Ok (Some v), s'')
                              /\ queries s'' = queries s').
  { intros s s' Eg. unfold coefficients_get in Eg.
    destruct (hashable chat_id) eqn:Hk; [|discriminate].
    destruct (get_peek py_eqb (_coefficients s) (timer s) chat_id)
      as (c1 & E1 & L1 & _).
    rewrite E1 in Eg. injection Eg as Ep <-.
    unfold get_coefficients, bind, coefficients_get. rewrite Hk.
    cbn [with_coefficients _coefficients timer].
    destruct (get_peek py_eqb c1 (timer s) chat_id) as (c2 & E2 & _).
    rewrite E2, (peek_links py_eqb _ c1 _ _ L1), Ep.
    eexists. split; reflexivity. }
  unfold get_coefficients in E. unfold bind at 1 in E.
  destruct (coefficients_get chat_id self) as [[[p|]|e] s1] eqn:E1;
    [| |discriminate].
  - injection E as -> <-. exact (Hit _ _ E1).
  - unfold bind at 1 in E.
    destruct (_get_coefficients_from_db s1) as [[u|e] s2]; [|discriminate].
    exact (Hit _ _ E).
Qed.

(** X11: a value a getter has returned is in the cache. Asked again at once
    for the same chat (and date and delta), [get_coefficients] and
    [get_prediction] return the same value and issue no query. *)
Theorem X11_a_repeated_call_is_answered_from_the_cache :
  forall (self : TelegramPredictionCache),
    (forall chat_id v self1,
        get_coefficients chat_id self = (Ok (Some v), self1) ->
        exists self2,
          get_coefficients chat_id self1 = (Ok (Some v), self2)
          /\ queries self2 = queries self1)
    /\ (forall date chat_id delta v self1,
        get_prediction date chat_id delta self = (Ok (Some v), self1) ->
        exists self2,
          get_prediction date chat_id delta self1 = (Ok (Some v), self2)
          /\ queries self2 = queries self1).
Proof.
  intros self. split.
  - intros chat_id v self1 E. exact (get_coefficients_again _ _ _ _ E).
  - intros date chat_id delta v self1 E.
    pose proof (get_prediction_settings _ _ _ _ _ _ E) as Hset.
    unfold get_prediction in E. unfold bind at 1 in E.
    destruct (_get_nearest_date date self) as [[d|e] s0] eqn:E0; [|discriminate].
    assert (s0 = self) by (unfold _get_nearest_date in E0; now injection E0).
    subst s0.
    assert (E0' : _get_nearest_date date self1 = (Ok d, self1)).
    { unfold _get_nearest_date in *.
      replace (_prediction_step self1) with (_prediction_step self) by same_settings.
      injection E0 as ->. reflexivity. }
    assert (Hit : forall s s', predictions_get (d, chat_id, delta) s
                               = (Ok (Some v), s') ->
                    s' = self1 ->
                    exists s'', get_prediction date chat_id delta s' = (Ok (Some v), s'')
                                /\ queries s'' = queries s').
    { intros s s' Eg ->. unfold predictions_get in Eg.
      destruct (hashable chat_id && hashable delta) eqn:Hk; [|discriminate].
      destruct (get_peek prediction_key_eqb (_predictions s) (timer s)
                  (d, chat_id, delta)) as (c1 & E1 & L1 & _).
      rewrite E1 in Eg. injection Eg as Ep Es.
      unfold get_prediction, bind at 1. rewrite E0'.
      unfold bind, predictions_get. rewrite Hk, <- Es.
      cbn [with_predictions _predictions timer].
      destruct (get_peek prediction_key_eqb c1 (timer s) (d, chat_id, delta))
        as (c2 & E2 & _).
      rewrite E2, (peek_links prediction_key_eqb _ c1 _ _ L1), Ep.
      eexists. split; reflexivity. }
    unfold bind at 1 in E.
    destruct (predictions_get (d, chat_id, delta) self) as [[[p|]|e] s1] eqn:E1;
      [| |discriminate].
    + injection E as -> <-. exact (Hit _ _ E1 eq_refl).
    + unfold bind at 1, gets at 1 in E. unfold bind at 1 in E.
      destruct (_get_predictions_from_db _ _ s1) as [[u|e] s2]; [|discriminate].
      exact (Hit _ _ E eq_refl).
Qed.

Lemma X11_witness :
  exists self1 self2,
    get_prediction (sample.bucket + 30000000) (PInt 7) (PInt 60)
      (environment_step sample.db 0 sample.empty_cache)
    = (Ok (Some (p_columns sample.prediction_row)), self1)
    /\ queries self1 = [QueryPredictions (sample.bucket - one_hour)
                                         (sample.bucket + one_hour);
                        QueryStatistics sample.bucket;
                        QueryCoefficients;
                        QueryPredictions (sample.bucket - one_hour)
                                         (sample.bucket + one_hour)]
    /\ get_prediction (sample.bucket + 30000000) (PInt 7) (PInt 60) self1
       = (Ok (Some (p_columns sample.prediction_row)), self2)
    /\ queries self2 = queries self1.
Proof.
  eexists.
  assert (E : get_prediction (sample.bucket + 30000000) (PInt 7) (PInt 60)
                (environment_step sample.db 0 sample.empty_cache)
              = (Ok (Some (p_columns sample.prediction_row)),
                 snd (get_prediction (sample.bucket + 30000000) (PInt 7) (PInt 60)
                        (environment_step sample.db 0 sample.empty_cache))))
    by (vm_compute; reflexivity).
  destruct (proj2 (X11_a_repeated_call_is_answered_from_the_cache
                     (environment_step sample.db 0 sample.empty_cache))
              _ _ _ _ _ E) as (self2 & E2 & Q2).
  exists self2. split; [exact E|]. split; [vm_compute; reflexivity|].
  split; [exact E2 | exact Q2].
Defined.

(* ================================================================== *)
(** * The repost detector: when it adds its anomaly *)
(* ================================================================== *)

Lemma snoc_neq {A} (l : list A) (x : A) : l ++ [x] <> l.
Proof.
  intros E. apply (f_equal (@List.length A)) in E. rewrite length_app in E.
  simpl in E. lia.
Qed.

Lemma forwarded_unique (article : dict) (c1 f1 c2 f2 : pyval) :
  forwarded article c1 f1 -> forwarded article c2 f2 -> c1 = c2 /\ f1 = f2.
Proof. intros (Hc1 & Hf1 & _) (Hc2 & Hf2 & _). split; congruence. Qed.

(** [run] on an article the detector does not ask Redis about. *)
Lemma repost_run_not_forwarded
    (self : telegram_repost.TelegramRepostAnomalyDetector) (article : dict)
    (anomalies : list Anomaly) :
  (forall country forward_from_chat_id,
      ~ forwarded article country forward_from_chat_id) ->
  telegram_repost.run self article anomalies = Ok anomalies.
Proof.
  intros Hn. unfold telegram_repost.run, telegram_repost._check_article_fields, get.
  cbn [forallb telegram_repost.__must_have_fields].
  destruct (lookup article "country") as [country|] eqn:Hc; [|reflexivity].
  destruct (truthy country) eqn:Tc; [|reflexivity].
  destruct (lookup article "forward_from_chat_id") as [chat|] eqn:Hf; [|reflexivity].
  destruct (truthy chat) eqn:Tf; [|reflexivity].
  elim (Hn country chat). repeat split; assumption.
Qed.

(** What [run] does: it raises what the call of Redis raises, and whether it
    adds the anomaly is decided by [repost_fires]. *)
Lemma repost_run_value (self : telegram_repost.TelegramRepostAnomalyDetector)
    (article : dict) (anomalies : list Anomaly) :
  (repost_fires self article
   /\ telegram_repost.run self article anomalies = Ok (anomalies ++ [forward_anomaly]))
  \/ (exists e, redis_raises self article e
                /\ telegram_repost.run self article anomalies = Raise e)
  \/ (~ repost_fires self article
      /\ (forall e, ~ redis_raises self article e)
      /\ telegram_repost.run self article anomalies = Ok anomalies).
Proof.
  destruct (lookup article "country") as [country|] eqn:Hc.
  2:{ right. right. split; [|split].
      - intros (c & f & fc & (Hc' & _) & _). congruence.
      - intros e (c & f & (Hc' & _) & _). congruence.
      - apply repost_run_not_forwarded. intros c f (Hc' & _). congruence. }
  destruct (lookup article "forward_from_chat_id") as [chat|] eqn:Hf.
  2:{ right. right. split; [|split].
      - intros (c & f & fc & (_ & Hf' & _) & _). congruence.
      - intros e (c & f & (_ & Hf' & _) & _). congruence.
      - apply repost_run_not_forwarded. intros c f (_ & Hf' & _). congruence. }
  destruct (truthy country) eqn:Tc.
  2:{ right. right. split; [|split].
      - intros (c & f & fc & (Hc' & _ & Tc' & _) & _). congruence.
      - intros e (c & f & (Hc' & _ & Tc' & _) & _). congruence.
      - apply repost_run_not_forwarded. intros c f (Hc' & _ & Tc' & _). congruence. }
  destruct (truthy chat) eqn:Tf.
  2:{ right. right. split; [|split].
      - intros (c & f & fc & (_ & Hf' & _ & Tf') & _). congruence.
      - intros e (c & f & (_ & Hf' & _ & Tf') & _). congruence.
      - apply repost_run_not_forwarded. intros c f (_ & Hf' & _ & Tf'). congruence. }
  assert (Hfw : forwarded article country chat) by (repeat split; assumption).
  rewrite (repost_run_characterised self article anomalies country chat Hc Hf Tc Tf).
  destruct (telegram_repost.hget (telegram_repost._redis_connection self)
              "tg_countries" chat) as [forward_country|e] eqn:Hg; cbn [rbind].
  2:{ right. left. exists e. split; [|reflexivity]. now exists country, chat. }
  assert (Hno : forall e, ~ redis_raises self article e).
  { intros e (c & f & Hfw' & Hg').
    destruct (forwarded_unique _ _ _ _ _ Hfw Hfw') as [_ <-]. congruence. }
  assert (Hinv : repost_fires self article ->
                 py_in country telegram_repost.__none_country = false
                 /\ py_in forward_country telegram_repost.__none_country = false
                 /\ py_eqb country forward_country = true).
  { intros (c & f & fc & Hfw' & Hg' & H1 & H2 & H3).
    destruct (forwarded_unique _ _ _ _ _ Hfw Hfw') as [<- <-].
    assert (fc = forward_country) by congruence. subst fc. auto. }
  destruct (py_in country telegram_repost.__none_country) eqn:Nc.
  { right. right. split; [|split; [exact Hno | reflexivity]].
    intros Hr. destruct (Hinv Hr) as (H1 & _). discriminate H1. }
  destruct (py_in forward_country telegram_repost.__none_country) eqn:Nf.
  { right. right. split; [|split; [exact Hno | reflexivity]].
    intros Hr. destruct (Hinv Hr) as (_ & H2 & _). discriminate H2. }
  destruct (py_eqb country forward_country) eqn:Ee.
  - left. split; [|reflexivity]. exists country, chat, forward_country.
    repeat split; assumption.
  - right. right. split; [|split; [exact Hno | reflexivity]].
    intros Hr. destruct (Hinv Hr) as (_ & _ & H3). discriminate H3.
Qed.

(** X12: the repost detector raises exactly what its call of Redis raises (a
    call it makes for every article with a truthy country and a truthy
    [forward_from_chat_id]), and nothing otherwise. When it returns it has
    added at most one anomaly, the fixed one (metric [forward], value 1,
    expected value 0, score 1), and it has added it exactly when Redis has
    returned a country for the chat, neither the article's country nor that
    one is ['xx'] or [None], and the two countries are equal. *)
Theorem X12_repost_detector_fires_on_equal_countries :
  forall (self : telegram_repost.TelegramRepostAnomalyDetector) (article : dict)
         (anomalies : list Anomaly),
    (forall e, telegram_repost.run self article anomalies = Raise e
               <-> redis_raises self article e)
    /\ (forall out,
          telegram_repost.run self article anomalies = Ok out ->
          (out = anomalies \/ out = anomalies ++ [forward_anomaly])
          /\ (out = anomalies ++ [forward_anomaly] <-> repost_fires self article)).
Proof.
  intros self article anomalies.
  destruct (repost_run_value self article anomalies)
    as [[Hf E]|[(e0 & He0 & E)|(Hf & Hno & E)]]; rewrite E.
  - split.
    + intros e. split; [discriminate|]. intros He. exfalso.
      destruct Hf as (c & f & fc & Hfw & Hg & _).
      destruct He as (c' & f' & Hfw' & Hg').
      destruct (forwarded_unique _ _ _ _ _ Hfw Hfw') as [_ <-]. congruence.
    + intros out Eo. injection Eo as <-.
      split; [now right|]. split; [intros _; exact Hf | reflexivity].
  - split.
    + intros e. split.
      * intros Ee. injection Ee as <-. exact He0.
      * intros He. f_equal.
        destruct He0 as (c & f & Hfw & Hg). destruct He as (c' & f' & Hfw' & Hg').
        destruct (forwarded_unique _ _ _ _ _ Hfw Hfw') as [_ <-]. congruence.
    + intros out Eo. discriminate Eo.
  - split.
    + intros e. split; [discriminate|]. intros He. now elim (Hno e).
    + intros out Eo. injection Eo as <-.
      split; [now left|]. split; [|intros Hr; now elim Hf].
      intros E'. symmetry in E'. now apply snoc_neq in E'.
Qed.

(** X13: a Redis client that returns the replies as [bytes], as the one the
    container builds does, never makes the detector add an anomaly for an
    article decoded from JSON: a [str] country never equals a [bytes]
    country. *)
Theorem X13_undecoded_replies_never_match :
  forall (self : telegram_repost.TelegramRepostAnomalyDetector) (article : dict)
         (anomalies : list Anomaly),
    (forall name field,
        undecoded (telegram_repost.hget (telegram_repost._redis_connection self)
                     name field)) ->
    (forall country, lookup article "country" = Some country -> not_bytes country) ->
    telegram_repost.run self article anomalies = Ok anomalies.
Proof.
  intros self article anomalies Hredis Hjson.
  destruct (repost_run_value self article anomalies)
    as [[Hf _]|[(e & He & _)|(_ & _ & E)]]; [| |exact E]; exfalso.
  - destruct Hf as (country & chat & fc & (Hc & _) & Hg & _ & Nf & Ee).
    specialize (Hredis "tg_countries" chat). specialize (Hjson country Hc).
    rewrite Hg in Hredis.
    destruct fc as [| | | | |b|]; try contradiction.
    + discriminate Nf.
    + destruct country as [|[]| | | | |]; try discriminate Ee. contradiction.
  - destruct He as (country & chat & _ & Hg).
    specialize (Hredis "tg_countries" chat). rewrite Hg in Hredis. contradiction.
Qed.

Lemma X13_witness :
  telegram_repost.run
    {| telegram_repost._redis_connection :=
         {| telegram_repost.hget := fun _ _ => Ok (PBytes "US") |} |}
    (sample.repost "US" 43) []
  = Ok [].
Proof.
  apply X13_undecoded_replies_never_match.
  - intros name field. exact I.
  - intros country E. cbn in E. injection E as <-. exact I.
Defined.

(* ================================================================== *)
(** * The metric-deviation detector: fields, scores and what it adds *)
(* ================================================================== *)

Lemma sigmoid_range (x : R) : (0 < 1 / (1 + exp x) < 1)%R.
Proof.
  pose proof (exp_pos x) as He.
  assert (Hp : (0 < / (1 + exp x))%R) by (apply Rinv_0_lt_compat; lra).
  assert (Hi : (/ (1 + exp x) * (1 + exp x) = 1)%R) by (apply Rinv_l; lra).
  unfold Rdiv. rewrite Rmult_1_l. split; [exact Hp|].
  pose proof (Rmult_lt_0_compat _ _ Hp He). lra.
Qed.

Lemma sigmoid_above_half (x : R) : (1 / 2 < 1 / (1 + exp x))%R <-> (x < 0)%R.
Proof.
  pose proof (exp_pos x) as He.
  assert (Hp : (0 < / (1 + exp x))%R) by (apply Rinv_0_lt_compat; lra).
  assert (Hi : (/ (1 + exp x) * (1 + exp x) = 1)%R) by (apply Rinv_l; lra).
  unfold Rdiv. rewrite Rmult_1_l.
  assert (Hexp : (exp x < 1)%R <-> (x < 0)%R).
  { rewrite <- exp_0. split; [apply exp_lt_inv | apply exp_increasing]. }
  rewrite <- Hexp. split; intros H; nra.
Qed.

Section MetricFacts.
Context `{Builtins}.
Variable self : telegram_metrics.TelegramMetricAnomalyDetector.

(** X14: the metric-deviation detector evaluates an article only when each of
    [chat_id], [delta], [loading_date], [views], [forwards] and
    [reaction_count] is there and truthy. An article that lacks one of them,
    or holds [0], [None], [False] or an empty string in it (a delta of 0, no
    forwards, no reactions), is skipped: [run] returns the accumulator as it
    got it and does not touch the cache. *)
Theorem X14_an_article_with_a_falsy_field_is_skipped :
  forall (article : dict),
    (telegram_metrics._check_article_fields article = true
     <-> forall key, In key ["chat_id"; "delta"; "loading_date"; "views"; "forwards";
                             "reaction_count"]%string ->
                     truthy (get article key PNone) = true)
    /\ forall key (anomalies : list Anomaly) (s : TelegramPredictionCache),
         In key ["chat_id"; "delta"; "loading_date"; "views"; "forwards";
                 "reaction_count"]%string ->
         truthy (get article key PNone) = false ->
         telegram_metrics.run self article anomalies s = (Ok anomalies, s).
Proof.
  intros article.
  assert (G : telegram_metrics._check_article_fields article = true
              <-> forall key, In key telegram_metrics.__must_have_fields ->
                              truthy (get article key PNone) = true)
    by apply forallb_forall.
  split; [exact G|].
  intros key anomalies s Hkey Hfalse. apply metric_run_without_fields.
  destruct (telegram_metrics._check_article_fields article) eqn:E; [|reflexivity].
  rewrite (proj1 G eq_refl key Hkey) in Hfalse. discriminate.
Qed.
End MetricFacts.

Lemma X14_witness :
  @telegram_metrics.run sample.builtins
    telegram_metrics.Build_TelegramMetricAnomalyDetector
    (setitem (sample.article 500 100 10) "delta" (PInt 0)) [] sample.metrics_cache
  = (Ok [], sample.metrics_cache).
Proof.
  apply (proj2 (@X14_an_article_with_a_falsy_field_is_skipped sample.builtins
                  telegram_metrics.Build_TelegramMetricAnomalyDetector
                  (setitem (sample.article 500 100 10) "delta" (PInt 0)))
               "delta").
  - simpl. tauto.
  - reflexivity.
Defined.

(** X15: both scores are values of the logistic curve, read as real numbers:
    strictly between 0 and 1. For a positive expected coefficient the static
    score is above one half exactly when the observed ratio exceeds the square
    of the coefficient; without statistics and for a positive prediction the
    predicted score is above one half exactly when the value exceeds three
    times the prediction. *)
Theorem X15_scores_are_logistic :
  (forall metric_value expected_value score,
      telegram_metrics._score_static_metrics metric_value expected_value = Ok score ->
      (0 < score < 1)%R
      /\ ((0 < expected_value)%R ->
          ((1 / 2 < score)%R <-> (expected_value * expected_value < metric_value)%R)))
  /\ (forall metric_value expected_value statistics score,
        telegram_metrics._score_predicted_metrics metric_value expected_value statistics
        = Ok score ->
        (0 < score < 1)%R)
  /\ (forall metric_value expected_value x y score,
        as_number metric_value = Some x -> as_number expected_value = Some y ->
        (0 < y)%R ->
        telegram_metrics._score_predicted_metrics metric_value expected_value None
        = Ok score ->
        ((1 / 2 < score)%R <-> (3 * y < x)%R)).
Proof.
  split; [|split].
  - intros m e s E. unfold telegram_metrics._score_static_metrics, div in E.
    destruct (Reqb e 0) eqn:E0; [discriminate|]. cbn [rbind] in E.
    injection E as <-. split; [apply sigmoid_range|].
    intros He. rewrite sigmoid_above_half.
    assert (Hi : (m / e * e = m)%R) by (field; lra).
    split; intros Hlt; nra.
  - intros m e stats s E. unfold telegram_metrics._score_predicted_metrics in E.
    destruct (truediv m e) as [deviation|]; [cbn [rbind] in E | discriminate].
    match type of E with rbind ?z _ = _ => destruct z as [z_score|] end;
      [cbn [rbind] in E | discriminate].
    injection E as <-. apply sigmoid_range.
  - intros m e x y s Hx Hy Hpos E.
    unfold telegram_metrics._score_predicted_metrics, truediv, div in E.
    rewrite Hx, Hy in E.
    destruct (Reqb y 0) eqn:E0; [apply Reqb_true in E0; lra|]. cbn [rbind] in E.
    injection E as <-. rewrite sigmoid_above_half.
    assert (Hi : (x / y * y = x)%R) by (field; lra).
    split; intros Hlt; nra.
Qed.

Lemma X15_witness :
  (0 < 1 / 10)%R
  /\ telegram_metrics._score_static_metrics (2 / 10) (1 / 10)
     = Ok (1 / (1 + exp ((- (2 / 10 / (1 / 10)) + 1 / 10) * 10)))%R
  /\ (1 / 2 < 1 / (1 + exp ((- (2 / 10 / (1 / 10)) + 1 / 10) * 10)))%R.
Proof.
  assert (Hpos : (0 < 1 / 10)%R) by lra.
  assert (E : telegram_metrics._score_static_metrics (2 / 10) (1 / 10)
              = Ok (1 / (1 + exp ((- (2 / 10 / (1 / 10)) + 1 / 10) * 10)))%R).
  { unfold telegram_metrics._score_static_metrics, div.
    rewrite (proj2 (Reqb_false (1 / 10) 0)) by lra. reflexivity. }
  split; [exact Hpos|]. split; [exact E|].
  apply (proj2 (proj1 X15_scores_are_logistic _ _ _ E) Hpos). lra.
Defined.

(** A Redis that cannot be reached, and the sample one. *)
Lemma X12_witness :
  telegram_repost.run
    {| telegram_repost._redis_connection :=
         {| telegram_repost.hget := fun _ _ => Raise RedisError |} |}
    (sample.repost "US" 43) []
  = Raise RedisError
  /\ (telegram_repost.run sample.repost_detector (sample.repost "US" 43) []
      = Ok ([] ++ [forward_anomaly])
      <-> repost_fires sample.repost_detector (sample.repost "US" 43)).
Proof.
  split.
  - apply (proj1 (X12_repost_detector_fires_on_equal_countries
                    {| telegram_repost._redis_connection :=
                         {| telegram_repost.hget := fun _ _ => Raise RedisError |} |}
                    (sample.repost "US" 43) [])).
    exists (PStr "US"), (PInt 43). repeat split.
  - change (telegram_repost.run sample.repost_detector (sample.repost "US" 43) [])
      with (Ok ([] ++ [forward_anomaly])).
    split.
    + intros _.
      apply (proj2 (X12_repost_detector_fires_on_equal_countries
                      sample.repost_detector (sample.repost "US" 43) [])
               ([] ++ [forward_anomaly]) eq_refl).
      reflexivity.
    + intros _. reflexivity.
Defined.

(** ** What a run adds to the accumulator *)

(** The first step of a method that has returned: its value and the state it
    left. *)
Tactic Notation "bind_inv" hyp(E) ident(a) ident(s1) ident(Ea) :=
  match type of E with
  | bind ?c ?k ?s = (Ok _, _) =>
      destruct (c s) as [[a|?] s1] eqn:Ea;
      unfold bind at 1 in E; rewrite Ea in E; [|discriminate E]
  end.

Tactic Notation "lift_inv" ident(Ea) :=
  unfold lift in Ea;
  let Es := fresh "Es" in injection Ea as Ea Es; subst.

Lemma at_most_one_nil (name : string) (weight : Z) : at_most_one name weight [].
Proof. split; [simpl; lia | constructor]. Qed.

Lemma check_ratio_appends (name : string) (ratio : R) (coefficients : dict)
    (anomalies out : list Anomaly) :
  telegram_metrics.check_ratio name ratio coefficients anomalies = Ok out ->
  exists added, out = anomalies ++ added /\ at_most_one name 100 added.
Proof.
  unfold telegram_metrics.check_ratio. intros E.
  destruct (getitem coefficients name) as [expected|]; [cbn [rbind] in E|discriminate].
  destruct (py_gt (PFloat ratio) expected) as [[|]|]; cbn [rbind] in E;
    [| |discriminate].
  - destruct (number expected) as [e|]; [cbn [rbind] in E|discriminate].
    destruct (telegram_metrics._score_static_metrics ratio e) as [sc|] eqn:Es;
      [cbn [rbind] in E|discriminate].
    injection E as <-. eexists. split; [reflexivity|].
    split; [simpl; lia|]. constructor; [|constructor].
    cbn. split; reflexivity.
  - injection E as <-. exists []. split; [now rewrite app_nil_r|].
    apply at_most_one_nil.
Qed.

Section MetricAppends.
Context `{Builtins}.
Variable self : telegram_metrics.TelegramMetricAnomalyDetector.

Lemma static_check_appends (article : dict) (anomalies out : list Anomaly)
    (s s' : TelegramPredictionCache) :
  telegram_metrics._check_static_metrics article anomalies s = (Ok out, s') ->
  exists f rc, out = anomalies ++ f ++ rc
               /\ at_most_one "forwards_by_views" 100 f
               /\ at_most_one "reaction_count_by_views" 100 rc.
Proof.
  unfold telegram_metrics._check_static_metrics. intros E.
  bind_inv E chat_id s1 E1. lift_inv E1.
  bind_inv E coefficients s2 E2.
  destruct coefficients as [coefficients|].
  2:{ injection E as <- _. exists [], []. simpl. rewrite app_nil_r.
      split; [reflexivity|]. split; apply at_most_one_nil. }
  bind_inv E forwards s3 E3. lift_inv E3.
  bind_inv E views s4 E4. lift_inv E4.
  bind_inv E forwards_by_views s5 E5. lift_inv E5.
  bind_inv E reaction_count s6 E6. lift_inv E6.
  bind_inv E views' s7 E7. lift_inv E7.
  bind_inv E reaction_count_by_views s8 E8. lift_inv E8.
  bind_inv E anomalies1 s9 E9. lift_inv E9.
  unfold lift in E. injection E as E _.
  destruct (check_ratio_appends _ _ _ _ _ E9) as (f & -> & Hf).
  destruct (check_ratio_appends _ _ _ _ _ E) as (rc & -> & Hrc).
  exists f, rc. rewrite <- app_assoc. split; [reflexivity|]. split; assumption.
Qed.

Lemma predicted_check_appends (article : dict) (anomalies out : list Anomaly)
    (s s' : TelegramPredictionCache) :
  telegram_metrics._check_predicted_metrics article anomalies s = (Ok out, s') ->
  exists v, out = anomalies ++ v
            /\ at_most_one "views" 200 v
            /\ Forall (fun a => lookup article "views" = Some (metric_value a)) v.
Proof.
  unfold telegram_metrics._check_predicted_metrics. intros E.
  bind_inv E loading_date s1 E1. lift_inv E1.
  bind_inv E date s2 E2. lift_inv E2.
  bind_inv E chat_id s3 E3. lift_inv E3.
  bind_inv E delta s4 E4. lift_inv E4.
  bind_inv E prediction s5 E5.
  bind_inv E loading_date' s6 E6. lift_inv E6.
  bind_inv E date' s7 E7. lift_inv E7.
  bind_inv E chat_id' s8 E8. lift_inv E8.
  bind_inv E delta' s9 E9. lift_inv E9.
  bind_inv E statistics s10 E10.
  destruct prediction as [prediction|].
  2:{ injection E as <- _. exists []. rewrite app_nil_r.
      split; [reflexivity|]. split; [apply at_most_one_nil | constructor]. }
  bind_inv E views s11 E11. lift_inv E11.
  bind_inv E views_upper s12 E12. lift_inv E12.
  bind_inv E exceeds s13 E13. lift_inv E13.
  destruct exceeds.
  2:{ injection E as <- _. exists []. rewrite app_nil_r.
      split; [reflexivity|]. split; [apply at_most_one_nil | constructor]. }
  bind_inv E expected s14 E14. lift_inv E14.
  bind_inv E sc s15 E15. lift_inv E15.
  injection E as <- _. eexists. split; [reflexivity|]. split; [split|].
  - simpl. lia.
  - constructor; [|constructor]. cbn. split; reflexivity.
  - constructor; [|constructor]. cbn. unfold getitem in E11.
    destruct (lookup article "views"); [congruence | discriminate].
Qed.

Lemma metric_run_appends :
  forall (article : dict) (anomalies out : list Anomaly)
         (s s' : TelegramPredictionCache),
    telegram_metrics.run self article anomalies s = (Ok out, s') ->
    exists f rc v,
      out = anomalies ++ f ++ rc ++ v
      /\ at_most_one "forwards_by_views" 100 f
      /\ at_most_one "reaction_count_by_views" 100 rc
      /\ at_most_one "views" 200 v
      /\ Forall (fun a => lookup article "views" = Some (metric_value a)) v.
Proof.
  intros article anomalies out s s' E. unfold telegram_metrics.run in E.
  assert (Hnone : forall l : list Anomaly, l = anomalies ->
            exists f rc v, l = anomalies ++ f ++ rc ++ v
              /\ at_most_one "forwards_by_views" 100 f
              /\ at_most_one "reaction_count_by_views" 100 rc
              /\ at_most_one "views" 200 v
              /\ Forall (fun a => lookup article "views" = Some (metric_value a)) v).
  { intros l ->. exists [], [], []. simpl. rewrite app_nil_r.
    split; [reflexivity|]. repeat (split; [apply at_most_one_nil|]). constructor. }
  destruct (telegram_metrics._check_article_fields article); cbn [negb] in E.
  2:{ injection E as <- _. now apply Hnone. }
  bind_inv E enough s1 E1. destruct enough; cbn [negb] in E.
  2:{ injection E as <- _. now apply Hnone. }
  bind_inv E anomalies1 s2 E2.
  destruct (static_check_appends _ _ _ _ _ E2) as (f & rc & -> & Hf & Hrc).
  destruct (predicted_check_appends _ _ _ _ _ E) as (v & -> & Hv & Hviews).
  exists f, rc, v. rewrite <- !app_assoc. split; [reflexivity|].
  split; [exact Hf|]. split; [exact Hrc|]. split; [exact Hv | exact Hviews].
Qed.

(** X16: when it returns, the metric-deviation detector has only appended
    to the accumulator: at most one anomaly named [forwards_by_views] and one
    named [reaction_count_by_views], of weight 100, then at most one named
    [views], of weight 200, whose value is the article's views. What earlier
    detectors found stays in front, in its order. *)
Theorem X16_the_metric_detector_appends_at_most_three :
  forall (article : dict) (anomalies out : list Anomaly)
         (s s' : TelegramPredictionCache),
    telegram_metrics.run self article anomalies s = (Ok out, s') ->
    exists f rc v,
      out = anomalies ++ f ++ rc ++ v
      /\ at_most_one "forwards_by_views" 100 f
      /\ at_most_one "reaction_count_by_views" 100 rc
      /\ at_most_one "views" 200 v
      /\ Forall (fun a => lookup article "views" = Some (metric_value a)) v.
Proof. exact metric_run_appends. Qed.
End MetricAppends.

Lemma X16_witness :
  exists f rc v,
    [ {| metric_name := "forwards_by_views";
         metric_value := PFloat (200 / 1000);
         expected_value := PFloat (1 / 10);
         score := (1 / (1 + exp ((1 / 10 - 200 / 1000 / (1 / 10)) * 10)))%R;
         _weight := 100 |} ]
    = [] ++ f ++ rc ++ v
    /\ at_most_one "forwards_by_views" 100 f
    /\ at_most_one "reaction_count_by_views" 100 rc
    /\ at_most_one "views" 200 v
    /\ Forall (fun a => lookup (sample.article 1000 200 3) "views"
                        = Some (metric_value a)) v.
Proof.
  apply (@X16_the_metric_detector_appends_at_most_three sample.builtins
           telegram_metrics.Build_TelegramMetricAnomalyDetector
           (sample.article 1000 200 3) [] _ sample.metrics_cache
           (snd (@telegram_metrics.run sample.builtins
                   telegram_metrics.Build_TelegramMetricAnomalyDetector
                   (sample.article 1000 200 3) [] sample.metrics_cache))).
  rewrite <- sample_run_forwards_anomaly. apply surjective_pairing.
Defined.

(* ================================================================== *)
(** * The metric-deviation detector: the ratio anomalies of a run *)
(* ================================================================== *)

Lemma truthy_number_nonzero (v : pyval) (x : R) :
  truthy v = true -> as_number v = Some x -> x <> 0%R.
Proof.
  destruct v as [|[]|z|r| | |]; simpl; intros T E; try discriminate;
    injection E as <-.
  - lra.
  - intros E0. apply eq_IZR in E0. subst z. discriminate T.
  - destruct (Reqb r 0) eqn:Er; [discriminate|]. now apply Reqb_false.
Qed.

Lemma checked_field_is_truthy (article : dict) (key : string) (v : pyval) :
  telegram_metrics._check_article_fields article = true ->
  In key telegram_metrics.__must_have_fields ->
  lookup article key = Some v -> truthy v = true.
Proof.
  unfold telegram_metrics._check_article_fields. intros Hf Hin Hl.
  rewrite forallb_forall in Hf. specialize (Hf key Hin).
  unfold get in Hf. now rewrite Hl in Hf.
Qed.

Section RatioRun.
Context `{Builtins}.
Variable self : telegram_metrics.TelegramMetricAnomalyDetector.

(** A run on an article that passes the field check and the gate on the
    views, when the static check finds two coefficients that are not zero:
    the static check adds the ratio anomalies, and the rest is the prediction
    check. The gate and the static check look the coefficients up one after
    the other. *)
Lemma metric_run_ratios (article : dict) (anomalies : list Anomaly)
    (s s1 s2 : TelegramPredictionCache)
    (chat_id forwards views reaction_count : pyval) (f v rc : R)
    (gate_coefficients coefficients : dict)
    (expected_f expected_rc : pyval) (ef erc : R) :
  telegram_metrics._check_article_fields article = true ->
  lookup article "chat_id" = Some chat_id ->
  lookup article "forwards" = Some forwards -> as_number forwards = Some f ->
  lookup article "views" = Some views -> as_number views = Some v ->
  lookup article "reaction_count" = Some reaction_count ->
  as_number reaction_count = Some rc ->
  get_coefficients chat_id s = (Ok (Some gate_coefficients), s1) ->
  py_lt views
        match lookup gate_coefficients "minimal_views_threshold" with
        | Some threshold => threshold
        | None => PInt 0
        end = Ok false ->
  get_coefficients chat_id s1 = (Ok (Some coefficients), s2) ->
  lookup coefficients "forwards_by_views" = Some expected_f ->
  as_number expected_f = Some ef -> ef <> 0%R ->
  lookup coefficients "reaction_count_by_views" = Some expected_rc ->
  as_number expected_rc = Some erc -> erc <> 0%R ->
  telegram_metrics.run self article anomalies s
  = telegram_metrics._check_predicted_metrics article
      (anomalies
       ++ ratio_anomaly "forwards_by_views" (f / v) expected_f ef
       ++ ratio_anomaly "reaction_count_by_views" (rc / v) expected_rc erc) s2.
Proof.
  intros Hfields Hc Hf Nf Hv Nv Hr Nr Hgate Hlt Hco Lf Ef Fnz Lr Er Rnz.
  assert (Vnz : v <> 0%R).
  { apply (truthy_number_nonzero views); [|exact Nv].
    apply (checked_field_is_truthy article "views"); [exact Hfields| |exact Hv].
    cbn. tauto. }
  destruct (telegram_metrics._check_predicted_metrics article
              (anomalies
               ++ ratio_anomaly "forwards_by_views" (f / v) expected_f ef
               ++ ratio_anomaly "reaction_count_by_views" (rc / v) expected_rc erc) s2)
    as [r s3] eqn:Ep.
  eapply (metric_run_steps self article anomalies _ s s1 s2 s3 r Hfields);
    [| |exact Ep].
  - apply (minimal_threshold_gate article s s1 chat_id views gate_coefficients false
             Hc Hv Hgate Hlt).
  - apply (static_check_adds article anomalies s1 s2 chat_id forwards views
             reaction_count f v rc coefficients expected_f expected_rc ef erc);
      assumption.
Qed.
End RatioRun.

(** An article of the sample chat with 1000 views, 50 forwards and 3
    reactions: the forwards ratio, 0.05, does not exceed the expected 0.1. *)
Lemma sample_run_no_anomaly :
  fst (@telegram_metrics.run sample.builtins
         telegram_metrics.Build_TelegramMetricAnomalyDetector
         (sample.article 1000 50 3) [] sample.metrics_cache)
  = Ok [].
Proof.
  destruct sample_no_prediction as [Hpred Hstat].
  erewrite (@metric_run_steps sample.builtins).
  - reflexivity.
  - reflexivity.
  - apply (minimal_threshold_gate (sample.article 1000 50 3) _ _ (PInt 7)
             (PInt 1000) _ false eq_refl eq_refl sample_coefficients_hit).
    reflexivity.
  - apply (static_check_adds (sample.article 1000 50 3) []
             _ _ (PInt 7) (PInt 50) (PInt 1000) (PInt 3) 50%R 1000%R 3%R
             (c_columns sample.coefficient_row) (PFloat (1 / 10)) (PInt 1)
             (1 / 10)%R 1%R);
      try exact sample_coefficients_hit_again; try reflexivity; lra.
  - unfold ratio_anomaly.
    rewrite (proj2 (Rltb_false (1 / 10) (50 / 1000))) by lra.
    rewrite (proj2 (Rltb_false 1 (3 / 1000))) by lra.
    cbn [app].
    apply (@predicted_check_without_prediction sample.builtins
             (sample.article 1000 50 3) _ _ _ _
             "0001-01-01T00:20:00" 1200000000 (PInt 7) (PInt 60) None
             eq_refl eq_refl eq_refl eq_refl Hpred Hstat).
Qed.

(** C5 (as amended): on an article the detector evaluates (the required
    fields are truthy, forwards, views and reactions are numbers, and the
    views are not below the threshold of the coefficients the gate finds),
    when the static check finds for the chat two ratio coefficients that are
    numbers other than zero, whenever [run] returns it has added, for each of
    the ratios forwards/views and reactions/views, one anomaly when the ratio
    exceeds its coefficient and none when it does not; then comes at most the
    anomaly of the prediction check. The score of a ratio anomaly is
    [1 / (1 + exp((expected - deviation) * 10))] where [deviation] is the
    observed ratio divided by the expected coefficient. A coefficient of zero
    that is exceeded makes the division of the score raise. On the sample
    chat, whose coefficient is 0.1, the ratio 0.2 gives an anomaly and the
    ratio 0.05 none. *)
Theorem C5_static_ratio_anomalies :
  (forall (builtins : Builtins)
          (self : telegram_metrics.TelegramMetricAnomalyDetector)
          (article : dict) (anomalies out : list Anomaly)
          (s s1 s2 s' : TelegramPredictionCache)
          (chat_id forwards views reaction_count : pyval) (f v rc : R)
          (gate_coefficients coefficients : dict)
          (expected_f expected_rc : pyval) (ef erc : R),
      telegram_metrics._check_article_fields article = true ->
      lookup article "chat_id" = Some chat_id ->
      lookup article "forwards" = Some forwards -> as_number forwards = Some f ->
      lookup article "views" = Some views -> as_number views = Some v ->
      lookup article "reaction_count" = Some reaction_count ->
      as_number reaction_count = Some rc ->
      get_coefficients chat_id s = (Ok (Some gate_coefficients), s1) ->
      py_lt views
            match lookup gate_coefficients "minimal_views_threshold" with
            | Some threshold => threshold
            | None => PInt 0
            end = Ok false ->
      get_coefficients chat_id s1 = (Ok (Some coefficients), s2) ->
      lookup coefficients "forwards_by_views" = Some expected_f ->
      as_number expected_f = Some ef -> ef <> 0%R ->
      lookup coefficients "reaction_count_by_views" = Some expected_rc ->
      as_number expected_rc = Some erc -> erc <> 0%R ->
      telegram_metrics.run self article anomalies s = (Ok out, s') ->
      exists predicted,
        out = anomalies
              ++ ratio_anomaly "forwards_by_views" (f / v) expected_f ef
              ++ ratio_anomaly "reaction_count_by_views" (rc / v) expected_rc erc
              ++ predicted
        /\ at_most_one "views" 200 predicted)
  /\ (forall name ratio expected e,
        (e < ratio)%R ->
        ratio_anomaly name ratio expected e
        = [ {| metric_name := name; metric_value := PFloat ratio;
               expected_value := expected;
               score := (1 / (1 + exp ((e - ratio / e) * 10)))%R;
               _weight := 100 |} ])
  /\ (forall name ratio expected e,
        (ratio <= e)%R -> ratio_anomaly name ratio expected e = [])
  /\ (forall name ratio coefficients anomalies expected,
        lookup coefficients name = Some expected ->
        as_number expected = Some 0%R -> (0 < ratio)%R ->
        telegram_metrics.check_ratio name ratio coefficients anomalies
        = Raise ZeroDivisionError)
  /\ fst (@telegram_metrics.run sample.builtins
            telegram_metrics.Build_TelegramMetricAnomalyDetector
            (sample.article 1000 200 3) [] sample.metrics_cache)
     = Ok [ {| metric_name := "forwards_by_views";
               metric_value := PFloat (200 / 1000);
               expected_value := PFloat (1 / 10);
               score := (1 / (1 + exp ((1 / 10 - 200 / 1000 / (1 / 10)) * 10)))%R;
               _weight := 100 |} ]
  /\ fst (@telegram_metrics.run sample.builtins
            telegram_metrics.Build_TelegramMetricAnomalyDetector
            (sample.article 1000 50 3) [] sample.metrics_cache)
     = Ok [].
Proof.
  split; [|split; [|split; [|split; [|split]]]].
  - intros builtins self article anomalies out s s1 s2 s' chat_id forwards views
      reaction_count f v rc gate_coefficients coefficients expected_f expected_rc
      ef erc Hfields Hc Hf Nf Hv Nv Hr Nr Hgate Hlt Hco Lf Ef Fnz Lr Er Rnz Hrun.
    rewrite (metric_run_ratios self article anomalies s s1 s2 chat_id forwards views
               reaction_count f v rc gate_coefficients coefficients
               expected_f expected_rc ef erc
               Hfields Hc Hf Nf Hv Nv Hr Nr Hgate Hlt Hco Lf Ef Fnz Lr Er Rnz)
      in Hrun.
    destruct (predicted_check_appends _ _ _ _ _ Hrun) as (predicted & -> & Hp & _).
    exists predicted. rewrite <- !app_assoc. split; [reflexivity | exact Hp].
  - intros name ratio expected e Hlt. unfold ratio_anomaly.
    now rewrite (proj2 (Rltb_true e ratio) Hlt).
  - intros name ratio expected e Hle. unfold ratio_anomaly.
    now rewrite (proj2 (Rltb_false e ratio) Hle).
  - intros name ratio coefficients anomalies expected Hl He Hpos.
    unfold telegram_metrics.check_ratio, getitem. rewrite Hl. cbn [rbind].
    rewrite (py_gt_float ratio expected 0 He). cbn [rbind].
    rewrite (proj2 (Rltb_true 0 ratio) Hpos).
    unfold number. rewrite He. cbn [rbind].
    unfold telegram_metrics._score_static_metrics, div.
    now rewrite (proj2 (Reqb_true 0 0) eq_refl).
  - exact sample_run_forwards_anomaly.
  - exact sample_run_no_anomaly.
Qed.

(** The sample article with 1000 views and 200 forwards: the detector
    evaluates it, and the one anomaly of the run is that of the forwards
    ratio. *)
Lemma C5_witness :
  exists predicted,
    [ {| metric_name := "forwards_by_views";
         metric_value := PFloat (200 / 1000);
         expected_value := PFloat (1 / 10);
         score := (1 / (1 + exp ((1 / 10 - 200 / 1000 / (1 / 10)) * 10)))%R;
         _weight := 100 |} ]
    = [] ++ ratio_anomaly "forwards_by_views" (200 / 1000) (PFloat (1 / 10)) (1 / 10)
         ++ ratio_anomaly "reaction_count_by_views" (3 / 1000) (PInt 1) 1
         ++ predicted
    /\ at_most_one "views" 200 predicted.
Proof.
  apply (proj1 C5_static_ratio_anomalies sample.builtins
           telegram_metrics.Build_TelegramMetricAnomalyDetector
           (sample.article 1000 200 3) [] _ sample.metrics_cache
           (snd (get_coefficients (PInt 7) sample.metrics_cache))
           (snd (get_coefficients (PInt 7)
                   (snd (get_coefficients (PInt 7) sample.metrics_cache))))
           (snd (@telegram_metrics.run sample.builtins
                   telegram_metrics.Build_TelegramMetricAnomalyDetector
                   (sample.article 1000 200 3) [] sample.metrics_cache))
           (PInt 7) (PInt 200) (PInt 1000) (PInt 3) 200%R 1000%R 3%R
           (c_columns sample.coefficient_row) (c_columns sample.coefficient_row)
           (PFloat (1 / 10)) (PInt 1) (1 / 10)%R 1%R);
    try exact sample_coefficients_hit; try exact sample_coefficients_hit_again;
    try reflexivity; try lra.
  rewrite <- sample_run_forwards_anomaly. apply surjective_pairing.
Defined.

(* ================================================================== *)
(** * The aggregator: what an alert is made of *)
(* ================================================================== *)

Section AlertFacts.
Context `{Builtins}.

Lemma describe_all_silent (anomalies : list Anomaly) (points : list string) :
  Forall silent anomalies -> detector.describe_all points anomalies = Ok points.
Proof.
  induction 1 as [|a anomalies Ha _ IH]; simpl; [reflexivity|].
  unfold detector.describe at 1. unfold silent in Ha.
  destruct (metric_value a); try contradiction; cbn [rbind]; exact IH.
Qed.

(** X17: [_generate_description] needs at least one anomaly whose value is a
    number or a string. Given none (an empty list, or anomalies whose values
    are all [None], booleans, bytes or lists) it raises [IndexError], and
    [_create_alert] builds no alert. *)
Theorem X17_nothing_to_describe_is_an_error :
  forall (anomalies : list Anomaly) (message : detector.message),
    Forall silent anomalies ->
    (forall total_score,
        detector._generate_description anomalies message total_score
        = Raise IndexError)
    /\ (forall self uuid alert,
          detector._create_alert self message anomalies uuid <> Ok alert).
Proof.
  intros anomalies message Hsilent.
  assert (G : forall l total_score, Forall silent l ->
            detector._generate_description l message total_score = Raise IndexError).
  { intros l total_score Hl. unfold detector._generate_description.
    rewrite (describe_all_silent l [] Hl).
    destruct (truthy (get (detector.payload message) "delta" PNone)) eqn:Ed.
    - unfold getitem at 1. rewrite (truthy_get_lookup _ _ Ed). reflexivity.
    - reflexivity. }
  split; [intros t; now apply G|].
  intros self uuid alert E.
  destruct (create_alert_content _ _ _ _ _ E) as (_ & _ & Hd & _).
  rewrite G in Hd; [discriminate|].
  eapply Permutation_Forall; [apply ranked_perm | exact Hsilent].
Qed.

(** X18: the date of an alert is read from [loading_date] when the payload
    has one and from [date] otherwise, but [date] is looked up in either
    case: a payload without [date] makes [_create_alert] raise [KeyError],
    loading date or not, once the destination and the source are there. *)
Theorem X18_a_payload_without_date_is_an_error :
  forall (self : detector.AnomalyDetector) (message : detector.message)
         (anomalies : list Anomaly) (uuid : string),
    lookup (detector.payload message) "date" = None ->
    detector.effective_date message = Raise KeyError
    /\ (forall alert, detector._create_alert self message anomalies uuid <> Ok alert)
    /\ (forall destination destination0 source,
          lookup (detector.metadata message) "destination" = Some destination ->
          detector.first_destination destination = Ok destination0 ->
          lookup (detector.payload message) "source" = Some source ->
          detector._create_alert self message anomalies uuid = Raise KeyError).
Proof.
  intros self message anomalies uuid Hdate.
  assert (He : detector.effective_date message = Raise KeyError).
  { unfold detector.effective_date, getitem. now rewrite Hdate. }
  split; [exact He|]. split.
  - intros alert E. unfold detector._create_alert in E. rewrite He in E.
    repeat match type of E with
      | rbind ?x _ = Ok _ =>
          destruct x as [?|] eqn:?; [cbn [rbind] in E | discriminate]
      end.
    discriminate E.
  - intros destination destination0 source Hdest Hfirst Hsrc.
    unfold detector._create_alert, getitem. rewrite Hdest, Hsrc. cbn [rbind].
    destruct (truthy (get (detector.payload message) "delta" PNone)) eqn:Ed.
    + rewrite (truthy_get_lookup _ _ Ed). cbn [rbind]. rewrite Hfirst. cbn [rbind].
      rewrite He. reflexivity.
    + cbn [rbind]. rewrite Hfirst. cbn [rbind]. rewrite He. reflexivity.
Qed.

(** X19: the alert is named after the anomaly with the highest score, and
    after the one found first among several with that score: its
    [field_name], [anomaly_value] and [expected_value] are those of that
    anomaly. *)
Theorem X19_the_alert_names_the_top_anomaly :
  forall (self : detector.AnomalyDetector) (message : detector.message)
         (anomalies : list Anomaly) (uuid : string) (alert : alert.Alert),
    detector._create_alert self message anomalies uuid = Ok alert ->
    exists top later,
      In top anomalies
      /\ (forall a, In a anomalies -> (anomaly.score a <= anomaly.score top)%R)
      /\ with_score (anomaly.score top) anomalies = top :: later
      /\ alert.field_name alert = metric_name top
      /\ alert.anomaly_value alert = metric_value top
      /\ alert.expected_value alert = anomaly.expected_value top.
Proof.
  intros self message anomalies uuid alert E.
  destruct (create_alert_content _ _ _ _ _ E)
    as (_ & _ & _ & top & rest & Er & Hn & Hv & He).
  pose proof (ranked_perm anomalies) as Hperm.
  pose proof (ranked_descending anomalies) as Hsorted.
  pose proof (ranked_stable anomalies (anomaly.score top)) as Hstable.
  rewrite Er in Hperm, Hsorted, Hstable.
  exists top, (with_score (anomaly.score top) rest).
  split; [|split; [|split; [|repeat split; assumption]]].
  - eapply Permutation_in; [apply Permutation_sym; exact Hperm | now left].
  - intros a Ha. apply (Permutation_in _ Hperm) in Ha. destruct Ha as [<-|Ha]; [lra|].
    inversion Hsorted as [|? ? _ Hall]; subst. rewrite Forall_forall in Hall.
    now apply Hall.
  - rewrite <- Hstable. unfold with_score. simpl.
    now rewrite (proj2 (Reqb_true _ _) eq_refl).
Qed.
End AlertFacts.

Lemma X17_witness :
  Forall silent [ {| metric_name := "views"; metric_value := PBool true;
                     expected_value := PInt 0; score := (1 / 2)%R; _weight := 200 |} ]
  /\ @detector._generate_description sample.builtins
       [ {| metric_name := "views"; metric_value := PBool true;
            expected_value := PInt 0; score := (1 / 2)%R; _weight := 200 |} ]
       (sample.message []) (1 / 2)
     = Raise IndexError.
Proof.
  assert (Hs : Forall silent
                 [ {| metric_name := "views"; metric_value := PBool true;
                      expected_value := PInt 0; score := (1 / 2)%R; _weight := 200 |} ])
    by (constructor; [exact I | constructor]).
  split; [exact Hs|].
  apply (proj1 (@X17_nothing_to_describe_is_an_error sample.builtins _
                  (sample.message []) Hs)).
Defined.

Lemma X18_witness :
  @detector._create_alert sample.builtins sample.aggregator
    {| detector.metadata := detector.metadata (sample.message []);
       detector.payload := [("source", PStr "channel");
                            ("loading_date", PStr "0001-01-01T00:20:00")] |}
    [forward_anomaly] "uuid"
  = Raise KeyError.
Proof.
  apply (proj2 (proj2 (@X18_a_payload_without_date_is_an_error sample.builtins
                         sample.aggregator
                         {| detector.metadata := detector.metadata (sample.message []);
                            detector.payload :=
                              [("source", PStr "channel");
                               ("loading_date", PStr "0001-01-01T00:20:00")] |}
                         [forward_anomaly] "uuid" eq_refl))
               (PStr "dm_8_countries_tg") (PStr "dm_8_countries_tg") (PStr "channel"));
    reflexivity.
Defined.

Lemma X19_witness :
  exists alert top later,
    @detector._create_alert sample.builtins sample.aggregator (sample.message [])
      [sample.weak; sample.strong_first; sample.strong_second] "uuid" = Ok alert
    /\ In top [sample.weak; sample.strong_first; sample.strong_second]
    /\ (forall a, In a [sample.weak; sample.strong_first; sample.strong_second] ->
                  (anomaly.score a <= anomaly.score top)%R)
    /\ with_score (anomaly.score top)
         [sample.weak; sample.strong_first; sample.strong_second] = top :: later
    /\ alert.field_name alert = metric_name top
    /\ alert.anomaly_value alert = metric_value top
    /\ alert.expected_value alert = anomaly.expected_value top.
Proof.
  destruct sample_create_alert as (alert & E & _).
  destruct (@X19_the_alert_names_the_top_anomaly sample.builtins _ _ _ _ _ E)
    as (top & later & Hx).
  exists alert, top, later. split; [exact E | exact Hx].
Defined.

(* ================================================================== *)
(** * The pipeline the container runs *)
(* ================================================================== *)

Section Pipeline.
Context `{Builtins}.
Variable connection_redis : telegram_repost.Redis.
Variable kibana_link_generator : detector.KibanaLinkGenerator.

#[local] Abbreviation anomaly_detector :=
  (container_detector._setup_anomaly_detector connection_redis kibana_link_generator).

Lemma pipeline_anomalies (message : detector.message) (anomalies : list Anomaly)
    (s s' : TelegramPredictionCache) :
  detector._run_detectors anomaly_detector message s = (Ok anomalies, s') ->
  exists f rc v fw,
    anomalies = f ++ rc ++ v ++ fw
    /\ at_most_one "forwards_by_views" 100 f
    /\ at_most_one "reaction_count_by_views" 100 rc
    /\ at_most_one "views" 200 v
    /\ (fw = [] \/ fw = [forward_anomaly])
    /\ (fw = [forward_anomaly]
        <-> repost_fires {| telegram_repost._redis_connection := connection_redis |}
                         (detector.payload message)).
Proof.
  unfold detector._run_detectors, container_detector._setup_anomaly_detector.
  cbn [detector._detectors for_fold run_any]. intros E.
  bind_inv E anomalies1 s1 E1.
  destruct (metric_run_appends _ _ _ _ _ _ E1) as (f & rc & v & -> & Hf & Hrc & Hv & _).
  bind_inv E anomalies2 s2 E2. injection E as <- _.
  unfold run, telegram_repost.detector, lift in E2. injection E2 as E2 _.
  exists f, rc, v.
  destruct (repost_run_value {| telegram_repost._redis_connection := connection_redis |}
              (detector.payload message) (f ++ rc ++ v))
    as [[Hr E3]|[(e & _ & E3)|(Hr & _ & E3)]];
    rewrite E3 in E2; [|discriminate E2|]; injection E2 as <-.
  - exists [forward_anomaly]. rewrite <- !app_assoc.
    split; [reflexivity|]. repeat (split; [assumption|]).
    split; [now right|]. split; [intros _; exact Hr | reflexivity].
  - exists []. rewrite !app_nil_r.
    split; [reflexivity|]. repeat (split; [assumption|]).
    split; [now left|]. split; [discriminate | intros Hr'; now elim Hr].
Qed.

(** X20: the container runs the metric-deviation detector and then the
    repost detector. When they return they have found at most four
    anomalies, at most one of each name and in this order:
    [forwards_by_views], [reaction_count_by_views], [views] and [forward];
    the last one is there exactly when the repost detector's condition holds.
    The alert built from them is named after one of these four metrics. *)
Theorem X20_the_container_s_pipeline :
  forall (message : detector.message) (anomalies : list Anomaly)
         (s s' : TelegramPredictionCache),
    detector._run_detectors anomaly_detector message s = (Ok anomalies, s') ->
    (exists f rc v fw,
        anomalies = f ++ rc ++ v ++ fw
        /\ at_most_one "forwards_by_views" 100 f
        /\ at_most_one "reaction_count_by_views" 100 rc
        /\ at_most_one "views" 200 v
        /\ (fw = [] \/ fw = [forward_anomaly])
        /\ (fw = [forward_anomaly]
            <-> repost_fires {| telegram_repost._redis_connection := connection_redis |}
                             (detector.payload message)))
    /\ (List.length anomalies <= 4)%nat
    /\ forall uuid alert,
         detector._create_alert anomaly_detector message anomalies uuid = Ok alert ->
         In (alert.field_name alert)
            ["forwards_by_views"; "reaction_count_by_views"; "views"; "forward"]%string.
Proof.
  intros message anomalies s s' E.
  destruct (pipeline_anomalies _ _ _ _ E)
    as (f & rc & v & fw & -> & [Lf Hf] & [Lrc Hrc] & [Lv Hv] & Hfw & Hiff).
  split; [|split].
  - exists f, rc, v, fw. repeat split; try assumption; apply Hiff.
  - rewrite !length_app. destruct Hfw as [->| ->]; simpl; lia.
  - intros uuid alert Ea.
    destruct (create_alert_content _ _ _ _ _ Ea)
      as (_ & _ & _ & top & rest & Er & -> & _).
    assert (Hin : In top (f ++ rc ++ v ++ fw)).
    { apply (Permutation_in top (Permutation_sym (ranked_perm _))).
      rewrite Er. now left. }
    rewrite Forall_forall in Hf, Hrc, Hv.
    repeat (apply in_app_or in Hin; destruct Hin as [Hin|Hin]).
    + destruct (Hf _ Hin) as [-> _]. simpl. tauto.
    + destruct (Hrc _ Hin) as [-> _]. simpl. tauto.
    + destruct (Hv _ Hin) as [-> _]. simpl. tauto.
    + destruct Hfw as [->| ->]; [contradiction|].
      destruct Hin as [<-|[]]. simpl. tauto.
Qed.
End Pipeline.

(** The sample message about an article forwarded from a chat of its own
    country: the one anomaly is the repost one, and the alert is named after
    [forward]. *)
Lemma X20_witness :
  @detector._run_detectors
     (@container_detector._setup_anomaly_detector sample.builtins
        sample.redis sample.kibana)
     (sample.message (sample.repost "US" 43)) sample.cache
  = (Ok [forward_anomaly], sample.cache)
  /\ (List.length [forward_anomaly] <= 4)%nat
  /\ forall uuid alert,
       @detector._create_alert sample.builtins
         (@container_detector._setup_anomaly_detector sample.builtins
            sample.redis sample.kibana)
         (sample.message (sample.repost "US" 43)) [forward_anomaly] uuid = Ok alert ->
       In (alert.field_name alert)
          ["forwards_by_views"; "reaction_count_by_views"; "views"; "forward"]%string.
Proof.
  split; [reflexivity|].
  apply (@X20_the_container_s_pipeline sample.builtins sample.redis sample.kibana
           (sample.message (sample.repost "US" 43)) [forward_anomaly]
           sample.cache sample.cache).
  reflexivity.
Defined.

(* ================================================================== *)
(** * The alert for a repost *)
(* ================================================================== *)

Section RepostAlert.
Context `{Builtins}.

(** X21: the alert built when the repost anomaly is the only one has the
    total score 1, is named after the [forward] metric with the value 1 and
    the expected value 0, and is described as a critical anomaly: the text
    says [forward (0.00x expected)], the expected value with two decimals,
    followed by the source and, when the payload has a delta, the delay. *)
Theorem X21_the_alert_for_a_repost :
  forall (self : detector.AnomalyDetector) (message : detector.message)
         (uuid : string) (alert : alert.Alert),
    detector._create_alert self message [forward_anomaly] uuid = Ok alert ->
    alert.score alert = 1%R
    /\ alert.field_name alert = "forward"
    /\ alert.anomaly_value alert = PInt 1
    /\ alert.expected_value alert = PInt 0
    /\ exists source,
         lookup (detector.payload message) "source" = Some source
         /\ alert.description alert
            = ("Critical anomaly in forward (0.00x expected) found for "
               ++ py_str source ++ publication_suffix message)%string.
Proof.
  intros self message uuid alert E.
  destruct (create_alert_content _ _ _ _ _ E)
    as (_ & Hs & Hd & top & rest & Er & Hn & Hv & He).
  change (ranked [forward_anomaly]) with [forward_anomaly] in *.
  injection Er as <- <-.
  assert (Hscore : alert.score alert = 1%R).
  { rewrite Hs. unfold detector._calculate_total_anomaly_score. cbn. lra. }
  repeat (split; [assumption|]).
  rewrite Hscore in Hd. unfold detector._generate_description in Hd.
  change (detector._anomaly_colors_by_score "red") with (75 / 100)%R in Hd.
  rewrite (proj2 (Rltb_true (75 / 100) 1)) in Hd by lra.
  assert (Hpoints : detector.describe_all [] [forward_anomaly]
                    = Ok ["forward (0.00x expected)"]).
  { cbn [detector.describe_all]. unfold detector.describe.
    cbn [metric_value anomaly.expected_value metric_name forward_anomaly py_eqb
         Z.eqb number as_number rbind app].
    change (IZR 0) with 0%R. rewrite format_fixed_0_00. reflexivity. }
  rewrite Hpoints in Hd.
  destruct (lookup (detector.payload message) "source") as [source|] eqn:Hsrc.
  2:{ unfold getitem in Hd. rewrite Hsrc in Hd.
      destruct (truthy _) in Hd; [destruct (lookup _ "delta") in Hd|]; discriminate Hd. }
  exists source. split; [reflexivity|].
  unfold publication_suffix, getitem in *. rewrite Hsrc in Hd.
  destruct (truthy (get (detector.payload message) "delta" PNone)) eqn:Ed.
  - rewrite (truthy_get_lookup _ _ Ed) in Hd. cbn [rbind] in Hd.
    injection Hd as <-. cbn [append]. reflexivity.
  - cbn [rbind] in Hd. injection Hd as <-. cbn [append].
    now rewrite append_empty_r.
Qed.
End RepostAlert.

Lemma X21_witness :
  exists alert,
    @detector._create_alert sample.builtins sample.aggregator
      (sample.message (sample.repost "US" 43)) [forward_anomaly] "uuid" = Ok alert
    /\ alert.score alert = 1%R
    /\ alert.description alert
       = "Critical anomaly in forward (0.00x expected) found for channel".
Proof.
  destruct (create_alert_succeeds (H := sample.builtins) sample.aggregator
              (sample.message (sample.repost "US" 43)) [forward_anomaly] "uuid")
    as (alert & E).
  - apply sample_message_deliverable.
  - constructor; [apply forward_anomaly_describable | constructor].
  - discriminate.
  - exists alert. split; [exact E|].
    destruct (@X21_the_alert_for_a_repost sample.builtins _ _ _ _ E)
      as (Hs & _ & _ & _ & source & Hsrc & Hd).
    split; [exact Hs|]. rewrite Hd. cbn in Hsrc. injection Hsrc as <-. reflexivity.
Defined.

(* ================================================================== *)
(** * The source cache *)
(* ================================================================== *)

Section StoreAll.
Context {K V : Type}.
Variable eqb : K -> K -> bool.
Hypothesis eqb_refl : forall k, eqb k k = true.
Hypothesis eqb_trans : forall k1 k2 k3,
  eqb k1 k2 = true -> eqb k2 k3 = true -> eqb k1 k3 = true.

Lemma store_all_well_formed (time : Z) (items : list (K * V))
    (c : cachetools.TTLCache K V) r c' :
  well_formed eqb c -> store_all eqb c time items = (r, c') ->
  well_formed eqb c' /\ cachetools.maxsize c' = cachetools.maxsize c
  /\ cachetools.ttl c' = cachetools.ttl c.
Proof.
  revert c. induction items as [|[k v] items IH]; intros c W; simpl.
  - intros E. injection E as _ <-. auto.
  - destruct (cachetools.setitem eqb c time k v) as [[u|e] c1] eqn:E1.
    + pose proof (setitem_well_formed eqb eqb_refl eqb_trans _ _ _ _ _ _ W E1) as W1.
      pose proof (setitem_maxsize eqb _ _ _ _ _ _ E1) as M1.
      destruct (setitem_forall eqb eqb_refl (fun _ => True) c time k v _ _
                  (proj2 (Forall_forall _ _) (fun _ _ => I)) (fun _ _ => I) E1)
        as [_ T1].
      intros E. destruct (IH c1 W1 E) as (W' & M' & T').
      split; [exact W'|]. split; congruence.
    + intros E. injection E as _ <-.
      pose proof (setitem_well_formed eqb eqb_refl eqb_trans _ _ _ _ _ _ W E1) as W1.
      pose proof (setitem_maxsize eqb _ _ _ _ _ _ E1) as M1.
      destruct (setitem_forall eqb eqb_refl (fun _ => True) c time k v _ _
                  (proj2 (Forall_forall _ _) (fun _ _ => I)) (fun _ _ => I) E1)
        as [_ T1].
      auto.
Qed.
End StoreAll.

Module source_cache_facts.
Import telegram_source_cache.

Lemma with_sources_same (self : TelegramSourceCache) :
  with_sources self (_sources self) = self.
Proof. destruct self; reflexivity. Qed.

Lemma for_each_sources_set (rows : list SourceRow) (s : TelegramSourceCache) :
  for_each rows (fun row => sources_set (src_id row) (src_columns row)) s
  = let (r, c) := store_all py_eqb (_sources s) (timer s) (map source_item rows) in
    (r, with_sources s c).
Proof.
  revert s. induction rows as [|row rows IH]; intros s; simpl.
  - now rewrite with_sources_same.
  - unfold bind, sources_set at 1.
    destruct (cachetools.setitem _ _ _ _ _) as [[u|e] c1]; [|reflexivity].
    rewrite IH. reflexivity.
Qed.

Lemma sources_get_peek (s : TelegramSourceCache) (k : pyval) :
  hashable k = true ->
  exists c', sources_get k s
             = (Ok (peek py_eqb (_sources s) (timer s) k), with_sources s c')
             /\ cachetools.links c' = cachetools.links (_sources s)
             /\ cachetools.maxsize c' = cachetools.maxsize (_sources s)
             /\ cachetools.ttl c' = cachetools.ttl (_sources s)
             /\ (well_formed py_eqb (_sources s) -> well_formed py_eqb c').
Proof.
  intros Hk. unfold sources_get. rewrite Hk.
  destruct (cachetools.get py_eqb (_sources s) (timer s) k) as [r c'] eqn:E.
  pose proof (fun W => get_well_formed py_eqb py_eqb_trans _ _ _ _ _ W E) as W'.
  destruct (get_peek py_eqb (_sources s) (timer s) k) as (c'' & E' & H).
  rewrite E in E'. injection E' as -> ->. exists c''. tauto.
Qed.

(** The object its constructor returns: the settings are the arguments, the
    cache is well formed and one query has been issued. *)
Lemma init_source_cache (table : list SourceRow) (size : Z) (window : timedelta)
    (clock : Z) r (self : TelegramSourceCache) :
  __init__ table size window clock = (r, self) ->
  well_formed py_eqb (_sources self)
  /\ cachetools.maxsize (_sources self) = size
  /\ cachetools.ttl (_sources self) = window
  /\ timer self = clock /\ queries self = 1%nat.
Proof.
  unfold __init__, _get_sources_from_db, bind at 1, query_sources at 1.
  cbv beta iota. rewrite for_each_sources_set.
  cbn [_sources timer _connection_db_metrics].
  destruct (store_all py_eqb _ _ _) as [r1 c1] eqn:E1. intros E. injection E as _ <-.
  apply (store_all_well_formed py_eqb py_eqb_refl py_eqb_trans) in E1.
  - cbn. tauto.
  - split; [exact I | constructor].
Qed.

(** X22: [get_source(chat_id)] on a source cache, after its construction
    and any change of the table and passing of time: it answers with the
    entry the cache holds for the chat when that is live, without a query;
    otherwise it reads the table once and answers with the columns of the
    last row whose id equals [chat_id], or [None] when there is none. This
    holds when the live entries and the rows fit in the cache together. *)
Theorem X22_get_source_answer :
  forall (table0 table : list SourceRow) (size : Z) (window : timedelta)
         (clock elapsed : Z) (self : TelegramSourceCache) (chat_id : pyval),
    __init__ table0 size window clock = (Ok tt, self) ->
    let later := environment_step table elapsed self in
    hashable chat_id = true ->
    0 < window ->
    Z.of_nat (List.length (live (_sources later) (timer later)))
    + Z.of_nat (List.length table) <= size ->
    exists self',
      get_source chat_id later
      = (Ok match peek py_eqb (_sources later) (timer later) chat_id with
            | Some cached => Some cached
            | None => assigned py_eqb (map source_item table) chat_id
            end,
         self')
      /\ queries self'
         = match peek py_eqb (_sources later) (timer later) chat_id with
           | Some _ => queries later
           | None => S (queries later)
           end.
Proof.
  intros table0 table size window clock elapsed self chat_id Einit later Hk Hw Hroom.
  destruct (init_source_cache _ _ _ _ _ _ Einit) as (W & Hm & Ht & _).
  unfold get_source, bind at 1.
  destruct (sources_get_peek later chat_id Hk) as (c1 & E1 & L1 & M1 & T1 & W1).
  rewrite E1.
  destruct (peek py_eqb (_sources later) (timer later) chat_id) as [v|] eqn:Ep.
  { eexists. split; reflexivity. }
  unfold bind at 1. unfold _get_sources_from_db at 1, bind at 1.
  unfold query_sources at 1. cbv beta iota. rewrite for_each_sources_set.
  cbn [with_sources _sources timer _connection_db_metrics queries later
       environment_step] in *.
  destruct (store_all_peek py_eqb py_eqb_refl py_eqb_sym py_eqb_trans
              (timer self + elapsed) (map source_item table) c1 (W1 W))
    as (c2 & E2 & W2 & T2 & M2 & P2).
  { rewrite T1, Ht. exact Hw. }
  { unfold live in *. rewrite L1, M1, Hm, length_map. exact Hroom. }
  rewrite E2.
  match goal with |- exists _, sources_get chat_id ?s = _ /\ _ =>
    destruct (sources_get_peek s chat_id Hk) as (c3 & E3 & _) end.
  rewrite E3. cbn [with_sources _sources timer queries].
  eexists. split.
  - apply f_equal2; [|reflexivity]. f_equal.
    rewrite P2, (peek_links py_eqb _ c1 _ _ L1), Ep. now destruct (assigned _ _ _).
  - reflexivity.
Qed.

Lemma X22_witness :
  exists self self',
    __init__ [] 100000 one_hour 0 = (Ok tt, self)
    /\ get_source (PInt 42)
         (environment_step
            [ {| src_id := PInt 42; src_columns := [("country", PStr "FR")] |} ]
            1 self)
       = (Ok (Some [("country", PStr "FR")]), self')
    /\ queries self' = 2%nat.
Proof.
  eexists.
  assert (E : __init__ [] 100000 one_hour 0
              = (Ok tt, snd (__init__ [] 100000 one_hour 0)))
    by (vm_compute; reflexivity).
  destruct (X22_get_source_answer []
              [ {| src_id := PInt 42; src_columns := [("country", PStr "FR")] |} ]
              100000 one_hour 0 1 _ (PInt 42) E)
    as (self' & Eg & Eq); try (vm_compute; first [reflexivity | discriminate]).
  exists self'. split; [exact E|]. split; [exact Eg | exact Eq].
Defined.

End source_cache_facts.

(* ================================================================== *)
(** * The Kibana object cache and the link generator *)
(* ================================================================== *)

Module kibana_facts.
Import kibana.

Lemma assoc_set_not_nil {V : Type} (d : list (string * V)) k v :
  assoc_set d k v <> [].
Proof.
  destruct d as [|[k' v'] d]; simpl; [discriminate|].
  destruct (k' =? k)%string; discriminate.
Qed.

Lemma assoc_set_Forall {V : Type} (P : string * V -> Prop) d k v :
  Forall P d -> P (k, v) -> Forall P (assoc_set d k v).
Proof.
  intros Hd Hk. induction Hd as [|[k' v'] d Hx Hd IH]; simpl.
  - constructor; [exact Hk | constructor].
  - destruct (k' =? k)%string eqn:E.
    + apply String.eqb_eq in E. subst k'. constructor; assumption.
    + constructor; assumption.
Qed.

Lemma fold_left_inv {A B : Type} (f : B -> A -> B) (I : B -> Prop)
    (Q : A -> Prop) (l : list A) :
  Forall Q l -> (forall b a, I b -> Q a -> I (f b a)) ->
  forall b, I b -> I (fold_left f l b).
Proof. intros Hl Hf. induction Hl; simpl; auto. Qed.

Section Keeps.
Variable J : KibanaObjectCache -> Prop.

Lemma keeps_ret {A : Type} (a : A) (R : A -> Prop) : R a -> keeps J (ret a) R.
Proof. intros Ha s r s' Hs E. injection E as <- <-. now split. Qed.

Lemma keeps_raise {A : Type} (f : raised) (R : A -> Prop) :
  keeps J (raise f) R.
Proof. intros s r s' Hs E. injection E as <- <-. now split. Qed.

Lemma keeps_bind {A B : Type} (c : Call A) (k : A -> Call B)
    (R : A -> Prop) (R' : B -> Prop) :
  keeps J c R -> (forall a, R a -> keeps J (k a) R') -> keeps J (bind c k) R'.
Proof.
  intros Hc Hk s r s' Hs. unfold bind.
  destruct (c s) as [[a|f] s1] eqn:E1; destruct (Hc _ _ _ Hs E1) as [J1 Ra].
  - intros E. exact (Hk a Ra _ _ _ J1 E).
  - intros E. injection E as <- <-. now split.
Qed.

Lemma keeps_for_each {A : Type} (Q : A -> Prop) (body : A -> Call unit)
    (l : list A) :
  Forall Q l -> (forall x, Q x -> keeps J (body x) (fun _ => True)) ->
  keeps J (for_each l body) (fun _ => True).
Proof.
  intros Hl Hb. induction Hl as [|x l Hx Hl IH]; simpl.
  - now apply keeps_ret.
  - eapply keeps_bind; [exact (Hb x Hx)|]. intros _ _. exact IH.
Qed.

Lemma keeps_for_fold {A B : Type} (Q : A -> Prop) (I : B -> Prop)
    (body : B -> A -> Call B) (l : list A) :
  Forall Q l -> (forall b x, I b -> Q x -> keeps J (body b x) I) ->
  forall b, I b -> keeps J (for_fold l b body) I.
Proof.
  intros Hl Hb. induction Hl as [|x l Hx Hl IH]; simpl; intros b Ib.
  - now apply keeps_ret.
  - eapply keeps_bind; [exact (Hb b x Ib Hx)|]. intros b' Ib'. exact (IH b' Ib').
Qed.
End Keeps.

Section Built.
Variable servers : Kibana -> Prop.
Variable kibana : Kibana.
Hypothesis servers_kibana : servers kibana.

Lemma keeps_objects_get (index : string) :
  keeps (built servers kibana) (objects_get index)
        (fun space => match space with
                      | Some v => v <> [] /\ known servers index
                      | None => True
                      end).
Proof.
  intros s r s' (Hk & Hs & Hl). unfold objects_get.
  destruct (get_peek String.eqb (_objects s) (timer s) index)
    as (c' & -> & L & _).
  intros E. injection E as <- <-. split.
  - split; [exact Hk|]. split; [exact Hs|]. simpl. rewrite L. exact Hl.
  - simpl. unfold peek, cachetools.find_link.
    destruct (find _ (cachetools.links (_objects s))) as [l|] eqn:Ef; [|exact I].
    destruct (timer s <? cachetools.expires l); [|exact I].
    apply find_some in Ef. destruct Ef as [Hin Hkey].
    apply String.eqb_eq in Hkey. rewrite Forall_forall in Hl.
    destruct (Hl l Hin) as [Hv Hn]. split; [exact Hv|]. now rewrite <- Hkey.
Qed.

Lemma keeps_objects_set (index : string) (value : dataviews) :
  value <> [] -> known servers index ->
  keeps (built servers kibana) (objects_set index value) (fun _ => True).
Proof.
  intros Hv Hn s r s' (Hk & Hs & Hl). unfold objects_set.
  destruct (cachetools.setitem String.eqb (_objects s) (timer s) index value)
    as [r0 c'] eqn:E0.
  intros E. injection E as <- <-.
  eapply (setitem_forall String.eqb String.eqb_refl) in E0; [|exact Hl|].
  - destruct E0 as [Hl' _]. split; [|now destruct r0].
    split; [exact Hk|]. split; [exact Hs|]. exact Hl'.
  - intros k0 Hk0. apply String.eqb_eq in Hk0. subst k0. now split.
Qed.

Lemma keeps__get_all_spaces :
  keeps (built servers kibana) _get_all_spaces
        (fun ids => spaces kibana = Some ids).
Proof.
  intros s r s' (Hk & Hs & Hl). unfold _get_all_spaces.
  intros E. injection E as <- <-. split.
  - split; [exact Hk|]. split; [exact Hs|]. exact Hl.
  - rewrite Hk. now destruct (spaces kibana).
Qed.

Lemma keeps__get_all_dataviews (space_id : string) :
  keeps (built servers kibana) (_get_all_dataviews space_id)
        (fun found => exists pairs,
           data_views kibana space_id = Some pairs
           /\ Forall (fun item => In (fst item) (map fst pairs)) found).
Proof.
  intros s r s' (Hk & Hs & Hl). unfold _get_all_dataviews.
  intros E. injection E as <- <-. split.
  - split; [exact Hk|]. split; [exact Hs|]. exact Hl.
  - rewrite Hk. destruct (data_views kibana space_id) as [pairs|]; [|exact I].
    exists pairs. split; [reflexivity|].
    apply fold_left_inv with (Q := fun pair => In pair pairs).
    + apply Forall_forall. auto.
    + intros d pair Hd Hp. apply assoc_set_Forall; [exact Hd|].
      simpl. now apply in_map.
    + constructor.
Qed.

Lemma keeps__setup : keeps (built servers kibana) _setup (fun _ => True).
Proof.
  unfold _setup.
  eapply keeps_bind; [apply keeps__get_all_spaces|]. intros ids Hids.
  eapply keeps_bind.
  - apply keeps_for_fold
      with (Q := fun space => In space ids)
           (I := Forall (fun item : string * dataviews =>
                           snd item <> [] /\ known servers (fst item))).
    + apply Forall_forall. auto.
    + intros objects space Hobjects Hspace.
      eapply keeps_bind; [apply keeps__get_all_dataviews|].
      intros found (pairs & Hpairs & Hfound). apply keeps_ret.
      refine (fold_left_inv _ _ _ _ Hfound _ _ Hobjects).
      intros objects' item Hobjects' Hitem. unfold objects_add.
      apply assoc_set_Forall; [exact Hobjects'|]. simpl.
      split; [apply assoc_set_not_nil|].
      exists kibana. split; [exact servers_kibana|].
      exists ids, space, pairs. auto.
    + constructor.
  - intros objects Hobjects.
    apply keeps_for_each
      with (Q := fun item : string * dataviews =>
                   snd item <> [] /\ known servers (fst item)).
    + exact Hobjects.
    + intros item [Hv Hn]. now apply keeps_objects_set.
Qed.
Lemma keeps_get_dataviews_by_index (index : string) :
  keeps (built servers kibana) (get_dataviews_by_index index)
        (fun space => match space with
                      | Some v => v <> [] /\ known servers index
                      | None => True
                      end).
Proof.
  unfold get_dataviews_by_index.
  eapply keeps_bind; [apply keeps_objects_get|].
  intros [[|item v]|] Hspace.
  - eapply keeps_bind; [apply keeps__setup|]. intros _ _. apply keeps_objects_get.
  - now apply keeps_ret.
  - eapply keeps_bind; [apply keeps__setup|]. intros _ _. apply keeps_objects_get.
Qed.
End Built.

(** Every object in use is well built for the server it talks to. *)
Lemma in_use_built (servers : Kibana -> Prop) (self : KibanaObjectCache) :
  in_use servers self -> built servers (server self) self.
Proof.
  induction 1 as [kibana size window clock self Hs E
                 |kibana elapsed self Hs He Hu IH
                 |index r self self' Hu IH E].
  - unfold __init__ in E. apply (keeps__setup servers kibana Hs) in E.
    + destruct E as [B _]. pose proof B as [-> _]. exact B.
    + split; [reflexivity|]. split; [exact Hs|]. constructor.
  - destruct IH as (_ & _ & Hl). split; [reflexivity|]. split; [exact Hs|].
    exact Hl.
  - pose proof IH as (_ & Hs & _).
    apply (keeps_get_dataviews_by_index servers (server self) Hs) in E;
      [|exact IH].
    destruct E as [B _]. pose proof B as [-> _]. exact B.
Qed.

(** X23. On a cache object in use, [generate] returns links only for an index
    that one of the Kibana servers of the object has a data view for, and then
    it returns at least one link, so that the alert built from them has a
    URL; for an index without a data view it raises instead of returning an
    empty list. The object stays in use. *)
Theorem X23_links_only_for_a_titled_index `{Builtins} `{Urllib}
    (servers : Kibana -> Prop) (self : KibanaObjectCache)
    (destination : string) (mapping : dict) (date : datetime)
    (r : list string + raised) (self' : KibanaObjectCache) :
  in_use servers self ->
  generate destination mapping date self = (r, self') ->
  in_use servers self'
  /\ match r with
     | inl urls => urls <> [] /\ known servers destination
     | inr _ => True
     end
  /\ ((forall kibana, servers kibana -> ~ titled kibana destination) ->
      exists f, r = inr f).
Proof.
  intros Hu. pose proof (in_use_built _ _ Hu) as B.
  pose proof B as (_ & Hs & _).
  unfold generate, bind.
  destruct (get_dataviews_by_index destination self) as [[space|f] s1] eqn:E1;
    pose proof (in_use_call _ _ _ _ _ Hu E1) as Hu1;
    apply (keeps_get_dataviews_by_index servers (server self) Hs) in E1;
    try exact B; destruct E1 as [_ R].
  - destruct space as [v|]; intros E; injection E as <- <-.
    + destruct R as [Hv Hn]. split; [exact Hu1|]. split.
      * split; [|exact Hn]. destruct v; [now elim Hv | discriminate].
      * intros Hnone. destruct Hn as (k & Hk & Ht). now elim (Hnone k Hk).
    + split; [exact Hu1|]. split; [exact I|]. intros _. now eexists.
  - intros E; injection E as <- <-.
    split; [exact Hu1|]. split; [exact I|]. intros _. now eexists.
Qed.

Lemma X23_witness :
  in_use (eq sample.server) sample.object_cache
  /\ fst (@generate sample.builtins sample.urllib "dm_8_countries_tg"
                    [("delta"%string, PInt 60)] sample.bucket
                    sample.object_cache)
     = inl [("https://elastic-4.kb.europe-west3.gcp.cloud.es.io:9243/s/default"
             ++ "/app/discover#/?_g=(time:(from:'0001-01-01T00:05:00.000Z',"
             ++ "to:'0001-01-01T00:15:00.000Z'))&_a=(index:dataview-1,"
             ++ "query:(language:kuery,query:'delta+%3A+60'))")%string]
  /\ known (eq sample.server) "dm_8_countries_tg".
Proof.
  assert (Hu : in_use (eq sample.server) sample.object_cache).
  { apply (in_use_init _ sample.server 1000 86400000000 0); [reflexivity|].
    vm_compute. reflexivity. }
  assert (E : fst (@generate sample.builtins sample.urllib "dm_8_countries_tg"
                             [("delta"%string, PInt 60)] sample.bucket
                             sample.object_cache)
              = inl [("https://elastic-4.kb.europe-west3.gcp.cloud.es.io:9243/s/default"
                      ++ "/app/discover#/?_g=(time:(from:'0001-01-01T00:05:00.000Z',"
                      ++ "to:'0001-01-01T00:15:00.000Z'))&_a=(index:dataview-1,"
                      ++ "query:(language:kuery,query:'delta+%3A+60'))")%string]).
  { vm_compute. reflexivity. }
  pose proof (@X23_links_only_for_a_titled_index sample.builtins sample.urllib
                (eq sample.server) sample.object_cache "dm_8_countries_tg"
                [("delta"%string, PInt 60)] sample.bucket _ _ Hu
                (surjective_pairing _)) as (_ & R & _).
  rewrite E in R. destruct R as [_ Hn].
  split; [exact Hu|]. split; [exact E | exact Hn].
Defined.

End kibana_facts.
